(** * build_4i2v_segment_workflow: a shallow embedding and its properties

    The program patches a ComfyUI workflow document (the result of
    [json.loads]) in place: it looks nodes up by id in [data["nodes"]] and
    writes into their [widgets_values] and [mode] fields.

    The embedding keeps the Python object model that the code relies on:
    - a JSON value is a tree ([value]); dictionaries keep insertion order
      and are association lists; keys are strings, or integers where the
      code writes [widgets[0] = ...] into a dictionary;
    - a function that mutates its argument is a state transformer over the
      mutated object; the state survives an exception, as it does in Python;
    - a reference to a sub-object (a node of [nodes], the [widgets_values]
      of a node) is the path to it: an index into the list, a key into the
      dictionary.  The document comes from [json.loads], so it is a tree and
      no two paths reach the same object. *)

From Stdlib Require Import ZArith String List Bool Lia.
From Stdlib Require Import Floats.PrimFloat Floats.SpecFloat Floats.FloatOps.
From stdpp Require Import base option list strings pretty gmap.

Set Warnings "-inexact-float,-register-all".
Local Open Scope Z_scope.

(** ** Python values *)

Module Py.

(** Dictionary keys.  [json.loads] only produces string keys; integer keys
    appear when the code subscripts a dictionary with [0] or [2]. *)
Inductive key : Type :=
  | KStr (s : string)
  | KInt (z : Z).

#[global] Instance key_eq_dec : EqDecision key.
Proof. solve_decision. Defined.

Inductive value : Type :=
  | VNone
  | VBool (b : bool)
  | VInt (z : Z)
  | VFloat (f : float)
  | VStr (s : string)
  | VList (l : list value)
  | VDict (d : list (key * value)).

Definition dict : Type := list (key * value).

(** Exceptions raised by the code or by the Python operations it uses. *)
Inductive exn : Type :=
  | ValueError (msg : string)
  | KeyError (k : key)
  | IndexError
  | TypeError
  | AttributeError
  | FileNotFoundError (path : string)
  | JSONDecodeError
  | SystemExit (code : Z)
  | OutOfFuel.  (* not a Python exception: a loop of the model hit its bound *)

Inductive result (A : Type) : Type :=
  | Ok (a : A)
  | Raise (e : exn).
Arguments Ok {A} a.
Arguments Raise {A} e.

Definition is_ok {A} (r : result A) : bool :=
  match r with Ok _ => true | Raise _ => false end.

(** *** Dictionaries: [d.get(k)], [d[k] = v], [d.setdefault(k, v)] *)

Fixpoint dict_get (d : dict) (k : key) : option value :=
  match d with
  | [] => None
  | (k', v) :: rest => if decide (k' = k) then Some v else dict_get rest k
  end.

(** [d[k] = v]: an existing key keeps its position, a new key goes last. *)
Fixpoint dict_set (d : dict) (k : key) (v : value) : dict :=
  match d with
  | [] => [(k, v)]
  | (k', v') :: rest =>
      if decide (k' = k) then (k, v) :: rest else (k', v') :: dict_set rest k v
  end.

(** *** Numbers *)

(** The integer a float is exactly equal to, if any.  Python compares an
    [int] and a [float] by exact value. *)
Definition float_as_Z (f : float) : option Z :=
  match Prim2SF f with
  | S754_zero _ => Some 0
  | S754_finite s m e =>
      let v := if s then Z.neg m else Z.pos m in
      if 0 <=? e then Some (v * 2 ^ e)
      else if v mod 2 ^ (- e) =? 0 then Some (v / 2 ^ (- e)) else None
  | S754_infinity _ | S754_nan => None
  end.

(** The integer a value compares equal to under [==], if any:
    [True == 1], [53.0 == 53]; strings, [None] and containers equal no
    integer. *)
Definition as_int (v : value) : option Z :=
  match v with
  | VInt z => Some z
  | VBool b => Some (if b then 1 else 0)
  | VFloat f => float_as_Z f
  | _ => None
  end.

(** [v == z] for an integer [z]. *)
Definition eq_int (v : value) (z : Z) : bool :=
  match as_int v with
  | Some i => i =? z
  | None => false
  end.

(** Truthiness: [bool(v)]. *)
Definition truthy (v : value) : bool :=
  match v with
  | VNone => false
  | VBool b => b
  | VInt z => negb (z =? 0)
  | VFloat f => negb (PrimFloat.eqb f 0%float)
  | VStr s => negb (String.eqb s "")
  | VList l => match l with [] => false | _ => true end
  | VDict d => match d with [] => false | _ => true end
  end.

Definition is_dict (v : value) : bool :=
  match v with VDict _ => true | _ => false end.

(** [str(z)] *)
Definition str_of_int (z : Z) : string := pretty z.

End Py.
Export Py.

(** ** State and exceptions *)

(** A computation over a mutable object of type [S]: it returns a result or
    raises, and in both cases leaves the object in some state. *)
Definition St (S A : Type) : Type := S -> result A * S.

#[global] Instance St_ret {S} : MRet (St S) :=
  fun A (a : A) s => (Ok a, s).

#[global] Instance St_bind {S} : MBind (St S) :=
  fun A B (k : A -> St S B) (m : St S A) s =>
    match m s with
    | (Ok a, s') => k a s'
    | (Raise e, s') => (Raise e, s')
    end.

Definition raise {S A} (e : exn) : St S A := fun s => (Raise e, s).

(** Read the object without changing it. *)
Definition inspect {S A} (f : S -> result A) : St S A := fun s => (f s, s).

(** Run [m] on the element at index [i] of a list (the object a reference
    obtained from the list points to). *)
Definition at_index {A} (i : nat) (m : St value A) : St (list value) A :=
  fun nodes =>
    match nodes !! i with
    | Some node => let (r, node') := m node in (r, <[i:=node']> nodes)
    | None => (Raise IndexError, nodes)
    end.

(** Run [m] on [obj[k]] for a dictionary [obj]. *)
Definition at_key {A} (k : key) (m : St value A) : St value A :=
  fun obj =>
    match obj with
    | VDict d =>
        match dict_get d k with
        | Some v => let (r, v') := m v in (r, VDict (dict_set d k v'))
        | None => (Raise (KeyError k), obj)
        end
    | _ => (Raise TypeError, obj)
    end.

(** ** Operations on Python objects *)

(** [obj.get(k, default)] *)
Definition py_get (k : key) (default : value) : St value value :=
  inspect (fun obj =>
    match obj with
    | VDict d => Ok (from_option id default (dict_get d k))
    | _ => Raise AttributeError
    end).

(** [obj.setdefault(k, default)]; the returned reference is [at_key k]. *)
Definition py_setdefault (k : key) (default : value) : St value unit :=
  fun obj =>
    match obj with
    | VDict d =>
        match dict_get d k with
        | Some _ => (Ok tt, obj)
        | None => (Ok tt, VDict (dict_set d k default))
        end
    | _ => (Raise AttributeError, obj)
    end.

(** [obj[k] = v] *)
Definition py_setitem (k : key) (v : value) : St value unit :=
  fun obj =>
    match obj with
    | VDict d => (Ok tt, VDict (dict_set d k v))
    | VList l =>
        match k with
        | KInt i =>
            let n := Z.of_nat (length l) in
            let j := if i <? 0 then i + n else i in
            if (0 <=? j) && (j <? n)
            then (Ok tt, VList (<[Z.to_nat j := v]> l))
            else (Raise IndexError, obj)
        | KStr _ => (Raise TypeError, obj)
        end
    | _ => (Raise TypeError, obj)
    end.

(** [len(obj)] *)
Definition py_len : St value nat :=
  inspect (fun obj =>
    match obj with
    | VList l => Ok (length l)
    | VDict d => Ok (length d)
    | VStr s => Ok (String.length s)
    | _ => Raise TypeError
    end).

(** [obj.append(x)] *)
Definition py_append (x : value) : St value unit :=
  fun obj =>
    match obj with
    | VList l => (Ok tt, VList (l ++ [x]))
    | _ => (Raise AttributeError, obj)
    end.

(** [obj.extend(xs)] *)
Definition py_extend (xs : list value) : St value unit :=
  fun obj =>
    match obj with
    | VList l => (Ok tt, VList (l ++ xs))
    | _ => (Raise AttributeError, obj)
    end.

(** [bool(obj)] *)
Definition py_bool : St value bool := inspect (fun obj => Ok (truthy obj)).

(** ** The program *)

Definition BASE_WORKFLOW : string := "4I2V Flow".

Definition LOAD_IMAGE_START_IDS : list Z := [142; 135].
Definition LOAD_IMAGE_END_IDS : list Z := [680; 683].
Definition MOTION_VIDEO_NODE_ID : Z := 568.
Definition CONTROLNET_APPLY_NODE_ID : Z := 125.
Definition MOTION_SCALE_NODE_ID : Z := 256.
Definition VIDEO_PREVIEW_NODE_ID : Z := 53.
Definition VIDEO_FINAL_NODE_ID : Z := 205.
Definition VIDEO_INTERPOLATED_NODE_ID : Z := 219.
Definition VIDEO_UPSCALED_MODEL_NODE_ID : Z := 272.

Record preset : Type := Preset {
  video : string;
  controlnet_strength : float;
  controlnet_end : float;
  motion_scale : float;
}.

Definition MOTION_PRESETS : list (string * preset) := [
  ("zoom", Preset "motions/zoom.mp4" 0.55 0.45 1.15);
  ("rotate_left", Preset "motions/rotate_left.mp4" 0.60 0.55 1.12);
  ("rotate_right", Preset "motions/rotate_right.mp4" 0.60 0.55 1.12);
  ("up", Preset "motions/tilt_up.mp4" 0.60 0.55 1.10);
  ("down", Preset "motions/tilt_down.mp4" 0.60 0.55 1.10)
]%float.

Fixpoint lookup_preset (table : list (string * preset)) (name : string)
  : option preset :=
  match table with
  | [] => None
  | (n, p) :: rest => if decide (n = name) then Some p else lookup_preset rest name
  end.

(** [find_node]: the loop over [nodes].  The node returned is represented
    by its position in [nodes]. *)
Fixpoint find_node (nodes : list value) (node_id : Z) : result nat :=
  match nodes with
  | [] => Raise (ValueError
            ("Node id " +:+ str_of_int node_id +:+ " not found in workflow"))
  | node :: rest =>
      match node with
      | VDict d =>
          if eq_int (from_option id VNone (dict_get d (KStr "id"))) node_id
          then Ok 0%nat
          else match find_node rest node_id with
               | Ok i => Ok (S i)
               | Raise e => Raise e
               end
      | _ => Raise AttributeError
      end
  end.

Definition WIDGETS : key := KStr "widgets_values".

Definition set_load_image (node_id : Z) (image_path : string)
  : St (list value) unit :=
  node ← inspect (fun nodes => find_node nodes node_id);
  at_index node (py_setdefault WIDGETS (VList [VStr ""; VStr "image"]));;
  at_index node (at_key WIDGETS (
    nonempty ← py_bool;
    (if negb nonempty then py_extend [VStr ""; VStr "image"] else mret tt);;
    py_setitem (KInt 0) (VStr image_path);;
    n ← py_len;
    if (n =? 1)%nat then py_append (VStr "image") else mret tt)).

(** The [while len(cn_widgets) < 3] loop, bounded by [fuel]. *)
Fixpoint pad_loop (fuel : nat) : St value unit :=
  n ← py_len;
  if (n <? 3)%nat then
    match fuel with
    | O => raise OutOfFuel
    | S fuel' => py_append (VInt 0);; pad_loop fuel'
    end
  else mret tt.

Definition set_motion_settings (motion : string) (override_video : option string)
  : St (list value) unit :=
  match lookup_preset MOTION_PRESETS motion with
  | None => raise (KeyError (KStr motion))
  | Some preset =>
      video_node ← inspect (fun nodes => find_node nodes MOTION_VIDEO_NODE_ID);
      at_index video_node (py_setdefault WIDGETS (VDict []));;
      let video_value :=
        match override_video with
        | Some o => if truthy (VStr o) then o else video preset
        | None => video preset
        end in
      at_index video_node (at_key WIDGETS (
        py_setitem (KStr "video") (VStr video_value);;
        videopreview ← py_get (KStr "videopreview") VNone;
        if is_dict videopreview then
          at_key (KStr "videopreview") (py_setdefault (KStr "params") (VDict []));;
          at_key (KStr "videopreview") (at_key (KStr "params") (
            py_setitem (KStr "filename") (VStr video_value)))
        else mret tt));;

      controlnet_node ←
        inspect (fun nodes => find_node nodes CONTROLNET_APPLY_NODE_ID);
      at_index controlnet_node
        (py_setdefault WIDGETS (VList [VFloat 0.45; VInt 0; VFloat 0.35]));;
      at_index controlnet_node (at_key WIDGETS (
        py_setitem (KInt 0) (VFloat (controlnet_strength preset));;
        n ← py_len;
        (if (n <? 3)%nat then pad_loop 3 else mret tt);;
        py_setitem (KInt 2) (VFloat (controlnet_end preset))));;

      motion_node ← inspect (fun nodes => find_node nodes MOTION_SCALE_NODE_ID);
      at_index motion_node (py_setdefault WIDGETS (VList [VFloat 1.0]));;
      at_index motion_node (at_key WIDGETS (
        py_setitem (KInt 0) (VFloat (motion_scale preset))))
  end.

Definition MODE : key := KStr "mode".

Definition set_quality (quality : string) : St (list value) unit :=
  preview ← inspect (fun nodes => find_node nodes VIDEO_PREVIEW_NODE_ID);
  final ← inspect (fun nodes => find_node nodes VIDEO_FINAL_NODE_ID);
  interp ← inspect (fun nodes => find_node nodes VIDEO_INTERPOLATED_NODE_ID);
  upscaled_model ←
    inspect (fun nodes => find_node nodes VIDEO_UPSCALED_MODEL_NODE_ID);
  if String.eqb quality "sample" then
    at_index preview (py_setitem MODE (VInt 0));;
    at_index final (py_setitem MODE (VInt 2));;
    at_index interp (py_setitem MODE (VInt 2));;
    at_index upscaled_model (py_setitem MODE (VInt 2))
  else
    at_index preview (py_setitem MODE (VInt 2));;
    at_index final (py_setitem MODE (VInt 0));;
    at_index interp (py_setitem MODE (VInt 2));;
    at_index upscaled_model (py_setitem MODE (VInt 2)).

(** [for x in xs: body(x)] *)
Fixpoint for_each {S A} (xs : list A) (body : A -> St S unit) : St S unit :=
  match xs with
  | [] => mret tt
  | x :: rest => body x;; for_each rest body
  end.

(** [k in obj] for a dictionary *)
Definition py_contains (k : key) : St value bool :=
  inspect (fun obj =>
    match obj with
    | VDict d => Ok (bool_decide (is_Some (dict_get d k)))
    | _ => Raise TypeError
    end).

Definition output_prefix (motion quality : string) : string :=
  let suffix := motion +:+ "_" +:+ quality in
  "%date:yyyy-MM-dd%/" +:+ quality +:+ "/" +:+ suffix +:+ "/AD".

(** [node.get("widgets_values", {})] yields the node's own object when the
    key is there and a fresh dictionary otherwise; a write into the fresh
    dictionary is lost with it. *)
Definition set_output_prefix (motion quality : string) : St (list value) unit :=
  for_each [VIDEO_PREVIEW_NODE_ID; VIDEO_FINAL_NODE_ID] (fun node_id =>
    node ← inspect (fun nodes => find_node nodes node_id);
    at_index node (
      widgets ← py_get WIDGETS (VDict []);
      if is_dict widgets then
        stored ← py_contains WIDGETS;
        if stored : bool
        then at_key WIDGETS (py_setitem (KStr "filename_prefix")
                               (VStr (output_prefix motion quality)))
        else mret tt
      else mret tt)).

(** The mutations [build_workflow] applies to [nodes], in order. *)
Definition patch_nodes (start_image end_image motion quality : string)
    (motion_video : option string) : St (list value) unit :=
  for_each LOAD_IMAGE_START_IDS (fun node_id => set_load_image node_id start_image);;
  for_each LOAD_IMAGE_END_IDS (fun node_id => set_load_image node_id end_image);;
  set_motion_settings motion motion_video;;
  set_quality quality;;
  set_output_prefix motion quality.

(** ** Files, [build_workflow] and [main] *)

(** The content of a file: [Dumps v] is the text [json.dumps(v, indent=2)],
    which [json.loads] decodes to [v] again for every document with string
    keys (all that a JSON text holds); [NotJson] is any text that
    [json.loads] rejects. *)
Inductive file : Type :=
  | Dumps (v : value)
  | NotJson.

(** The world of a run.  [files] is what reading each path gives.
    [write_text] is what the operating system makes of
    [Path(path).write_text(text)]: it may raise (a missing directory, no
    permission) and it decides what the paths read afterwards (two
    spellings of a path can name one file). *)
Record world : Type := World {
  files : gmap string file;
  stdout : list string;
  write_text : string -> file -> gmap string file -> result unit * gmap string file;
}.

(** [json.loads(path.read_text(encoding="utf-8"))] *)
Definition read_json (fs : gmap string file) (path : string) : result value :=
  match fs !! path with
  | None => Raise (FileNotFoundError path)
  | Some NotJson => Raise JSONDecodeError
  | Some (Dumps v) => Ok v
  end.

Definition key_value (k : key) : value :=
  match k with KStr s => VStr s | KInt z => VInt z end.

Fixpoint chars (s : string) : list value :=
  match s with
  | EmptyString => []
  | String c rest => VStr (String c EmptyString) :: chars rest
  end.

(** Run [m] on the sequence that [for node in obj] walks through.  A list
    is walked in place; a dictionary yields its keys and a string its
    characters, which are immutable; other values are not iterable. *)
Definition at_items {A} (m : St (list value) A) : St value A :=
  fun obj =>
    match obj with
    | VList l => let (r, l') := m l in (r, VList l')
    | VDict d => (fst (m (map (fun kv => key_value (fst kv)) d)), obj)
    | VStr s => (fst (m (chars s)), obj)
    | _ => (Raise TypeError, obj)
    end.

Definition build_workflow (fs : gmap string file) (base_workflow_path : string)
    (start_image end_image motion quality : string)
    (motion_video : option string) : result value :=
  match read_json fs base_workflow_path with
  | Raise e => Raise e
  | Ok data =>
      match at_key (KStr "nodes") (at_items
              (patch_nodes start_image end_image motion quality motion_video))
              data with
      | (Ok _, data') => Ok data'
      | (Raise e, _) => Raise e
      end
  end.

(** The options of a command line: for each option the values it is
    given, in the order of the command line (empty: the option is not
    there).  argparse resolves the option strings, their abbreviations
    and the [--option=value] form before the values get here. *)
Record flags : Type := Flags {
  flag_start_image : list string;
  flag_end_image : list string;
  flag_motion : list string;
  flag_quality : list string;
  flag_motion_video : list string;
  flag_base_workflow : list string;
  flag_output : list string;
}.

(** What argparse makes of [sys.argv[1:]] while it reads it from left to
    right.
    - [Help before text]: it comes to [-h] or [--help], with the options
      [before] read so far, and [text] is the help message it formats;
    - [Rejected]: it stops, before any [-h] or [--help], at what it cannot
      read as an option of this parser with its value: an option at the
      end of the line or followed by a token that looks like an option
      itself ([--start-image -a.png]), an abbreviation that fits two
      options ([--m]); or it reaches the end of the line with an option
      string that is not one of the parser's or a token that belongs to
      no option;
    - [Options f]: every token is an option of the parser or its value,
      and none is [-h] or [--help].
    The messages that argparse writes to the standard error stream are
    not part of the model. *)
Inductive argv : Type :=
  | Help (before : flags) (text : string)
  | Rejected
  | Options (f : flags).

Record namespace : Type := Namespace {
  start_image : string;
  end_image : string;
  motion : string;
  quality : string;
  motion_video : option string;
  base_workflow : string;
  output : string;
}.

(** [required=True]: argparse exits with status 2 when the option is not
    there; the last value given is the one stored. *)
Definition required (flag : list string) : result string :=
  match last flag with Some s => Ok s | None => Raise (SystemExit 2) end.

(** [choices=...]: argparse exits with status 2 at a value outside the
    choices, wherever on the line it stands. *)
Definition choice (choices : list string) (flag : list string) : result unit :=
  if forallb (fun s => bool_decide (s ∈ choices)) flag
  then Ok tt else Raise (SystemExit 2).

(** [Path(path).write_text(json.dumps(v, indent=2), encoding="utf-8")] *)
Definition write_json (path : string) (v : value) : St world unit :=
  fun w =>
    let (r, fs) := write_text w path (Dumps v) (files w) in
    (r, World fs (stdout w) (write_text w)).

(** [print(line)]; [stdout] holds what was written, one entry for each
    call. *)
Definition print (line : string) : St world unit :=
  fun w => (Ok tt, World (files w) (stdout w ++ [line]) (write_text w)).

(** The values of [--motion] and [--quality] are checked against their
    choices as they are read, the required options at the end of the
    line. *)
Definition read_choices (f : flags) : result unit :=
  match choice (map fst MOTION_PRESETS) (flag_motion f) with
  | Raise e => Raise e
  | Ok _ => choice ["sample"; "full"] (flag_quality f)
  end.

Definition parse_args (a : argv) : St world namespace :=
  match a with
  | Help before text =>
      inspect (fun _ => read_choices before);;
      print text;;
      raise (SystemExit 0)
  | Rejected => raise (SystemExit 2)
  | Options f =>
      inspect (fun _ => read_choices f);;
      inspect (fun _ =>
        match required (flag_start_image f) with Raise e => Raise e | Ok si =>
        match required (flag_end_image f) with Raise e => Raise e | Ok ei =>
        match required (flag_motion f) with Raise e => Raise e | Ok mo =>
        match required (flag_output f) with Raise e => Raise e | Ok out =>
          Ok (Namespace si ei mo (default "sample" (last (flag_quality f)))
                (last (flag_motion_video f))
                (default BASE_WORKFLOW (last (flag_base_workflow f))) out)
        end end end end)
  end.

Definition main (a : argv) : St world unit :=
  args ← parse_args a;
  workflow ← inspect (fun w =>
    build_workflow (files w) (base_workflow args) (start_image args)
      (end_image args) (motion args) (quality args) (motion_video args));
  write_json (output args) workflow;;
  print ("Generated workflow: " +:+ output args).

(** ** Examples *)

Module Examples.

Definition node (id : Z) (fields : dict) : value :=
  VDict ((KStr "id", VInt id) :: fields).

Definition base_nodes : list value := [
  node 142 [(WIDGETS, VList [VStr "old_start.png"; VStr "image"])];
  node 135 [];
  node 680 [(WIDGETS, VList [])];
  node 683 [(WIDGETS, VList [VStr "old_end.png"])];
  node 568 [(WIDGETS, VDict [(KStr "video", VStr "x.mp4");
                              (KStr "videopreview", VDict [(KStr "hidden", VBool false)])])];
  node 125 [(WIDGETS, VList [VFloat 0.45; VInt 7; VFloat 0.35])];
  node 256 [(WIDGETS, VList [VFloat 1.0])];
  node 53 [(MODE, VInt 2); (WIDGETS, VDict [(KStr "filename_prefix", VStr "AD")])];
  node 205 [(MODE, VInt 0); (WIDGETS, VList [VInt 8])];
  node 219 [(MODE, VInt 0)];
  node 272 []
].

Definition base_doc : value :=
  VDict [(KStr "last_node_id", VInt 700); (KStr "nodes", VList base_nodes);
         (KStr "links", VList []); (KStr "version", VFloat 0.4)].

(** The base nodes without the last one (node 272). *)
Definition short_nodes : list value := take 10 base_nodes.

Definition doc_of (nodes : list value) : value :=
  VDict [(KStr "last_node_id", VInt 700); (KStr "nodes", VList nodes);
         (KStr "links", VList [])].

(** A file system where every path can be written and names its own
    file, and one where the output directory is missing. *)
Definition plain_write (path : string) (f : file) (fs : gmap string file)
  : result unit * gmap string file :=
  (Ok tt, <[path := f]> fs).

Definition no_directory (path : string) (f : file) (fs : gmap string file)
  : result unit * gmap string file :=
  (Raise (FileNotFoundError path), fs).

Definition world_of (doc : value) : world :=
  World {[ BASE_WORKFLOW := Dumps doc ]} [] plain_write.

(** The base document in a world where the output directory is missing. *)
Definition world_no_directory (doc : value) : world :=
  World {[ BASE_WORKFLOW := Dumps doc ]} [] no_directory.

Definition zoom_full : argv :=
  Options (Flags ["s.png"] ["e.png"] ["zoom"] ["full"] [] [] ["out.json"]).

Definition zoom_full_args : namespace :=
  Namespace "s.png" "e.png" "zoom" "full" None BASE_WORKFLOW "out.json".

(** An image loader whose second widget is not ["image"]. *)
Definition mask_loader : list value :=
  [node 142 [(WIDGETS, VList [VStr "old.png"; VStr "mask"])]].

(** A workflow whose controlnet-apply node has an empty widget list. *)
Definition empty_controlnet : list value :=
  [node 568 [(WIDGETS, VDict [])];
   node 125 [(WIDGETS, VList [])];
   node 256 [(WIDGETS, VList [VFloat 1.0])]].



(** A workflow whose motion-video node has a list as the [params] of its
    [videopreview]. *)
Definition list_params : list value :=
  [node 568 [(WIDGETS, VDict [(KStr "videopreview",
                                VDict [(KStr "params", VList [])])])];
   node 125 [(WIDGETS, VList [VFloat 0.45; VInt 0; VFloat 0.35])];
   node 256 [(WIDGETS, VList [VFloat 1.0])]].

(** What the build returns for the base document, zoom preset, full
    quality. *)
Definition built_doc : value :=
  Eval vm_compute in
    match build_workflow {[ BASE_WORKFLOW := Dumps base_doc ]} BASE_WORKFLOW
            "s.png" "e.png" "zoom" "full" None with
    | Ok doc => doc
    | Raise _ => VNone
    end.

End Examples.

(** ** Observations used in the statements *)

(** The node that [find_node] returns for [node_id], if it returns one. *)
Definition node_of (nodes : list value) (node_id : Z) : option value :=
  match find_node nodes node_id with
  | Ok i => nodes !! i
  | Raise _ => None
  end.

(** [obj[k]] for a dictionary that has the key. *)
Definition field (k : key) (obj : value) : option value :=
  match obj with
  | VDict d => dict_get d k
  | _ => None
  end.


(** The [mode] and the [widgets_values] of the node with a given id. *)
Definition mode_of (nodes : list value) (node_id : Z) : option value :=
  node_of nodes node_id ≫= field MODE.

Definition widgets_of (nodes : list value) (node_id : Z) : option value :=
  node_of nodes node_id ≫= field WIDGETS.

(** What [find_node] reads of a node: whether it is a dictionary, and its
    ["id"] entry. *)
Definition id_view (v : value) : option (option value) :=
  match v with
  | VDict d => Some (dict_get d (KStr "id"))
  | _ => None
  end.

(** [node.get("id") == node_id] for a dictionary [node]. *)
Definition has_id (node_id : Z) (v : value) : bool :=
  match v with
  | VDict d => eq_int (from_option id VNone (dict_get d (KStr "id"))) node_id
  | _ => false
  end.

Definition not_found (node_id : Z) : exn :=
  ValueError ("Node id " +:+ str_of_int node_id +:+ " not found in workflow").

(** Every node id that [build_workflow] looks up. *)
Definition REQUIRED_IDS : list Z :=
  LOAD_IMAGE_START_IDS ++ LOAD_IMAGE_END_IDS ++
  [MOTION_VIDEO_NODE_ID; CONTROLNET_APPLY_NODE_ID; MOTION_SCALE_NODE_ID;
   VIDEO_PREVIEW_NODE_ID; VIDEO_FINAL_NODE_ID; VIDEO_INTERPOLATED_NODE_ID;
   VIDEO_UPSCALED_MODEL_NODE_ID].

(** A computation on a node that leaves what [find_node] reads of it. *)
Definition keeps_id {A} (m : St value A) : Prop :=
  forall v, id_view (snd (m v)) = id_view v.

(** A computation on [nodes] that leaves what [find_node] reads of them. *)
Definition ids_stable {A} (m : St (list value) A) : Prop :=
  forall nodes, map id_view (snd (m nodes)) = map id_view nodes.

(** A computation on [nodes] that cannot return unless [node_id] is found. *)
Definition needs_node {A} (node_id : Z) (m : St (list value) A) : Prop :=
  forall nodes, is_ok (fst (m nodes)) = true ->
                is_ok (find_node nodes node_id) = true.

(** A computation that never reports the bound of a loop of the model:
    its loops end as the Python loops do. *)
Definition fuel_free {S A} (m : St S A) : Prop :=
  forall s, fst (m s) <> Raise OutOfFuel.

(** ** Closed forms used in the proofs *)

(** The mode table of [set_quality]. *)
Definition preview_mode (quality : string) : Z :=
  if String.eqb quality "sample" then 0 else 2.

Definition final_mode (quality : string) : Z :=
  if String.eqb quality "sample" then 2 else 0.

(** What the loop body of [set_output_prefix] does to one node. *)
Definition with_prefix (prefix : string) (node : value) : value :=
  match node with
  | VDict d =>
      match dict_get d WIDGETS with
      | Some (VDict w) =>
          VDict (dict_set d WIDGETS
                   (VDict (dict_set w (KStr "filename_prefix") (VStr prefix))))
      | _ => node
      end
  | _ => node
  end.

(** The widgets of an image loader after [set_load_image], for widgets
    that were the list [l] (or absent, with [l] empty). *)
Definition loaded (image_path : string) (l : list value) : list value :=
  VStr image_path ::
    match l with
    | [] | [_] => [VStr "image"]
    | _ :: rest => rest
    end.

(** With the node of id [t] at position [i], the computation does not
    change what is at position [i]. *)
Definition frame_at {A} (i : nat) (t : Z) (m : St (list value) A) : Prop :=
  forall nodes, find_node nodes t = Ok i -> snd (m nodes) !! i = nodes !! i.

(** The widgets of the motion-video node after the video step, whether it
    returns or raises; [w] is what they were before.  A [params] entry that
    is not a mapping is one that was there before. *)
Definition video_post (v : string) (w : dict) (w' : value) : Prop :=
  exists d',
    w' = VDict d' /\
    dict_get d' (KStr "video") = Some (VStr v) /\
    forall vp, dict_get d' (KStr "videopreview") = Some (VDict vp) ->
      (exists ps, dict_get vp (KStr "params") = Some (VDict ps) /\
                  dict_get ps (KStr "filename") = Some (VStr v)) \/
      (exists x, dict_get vp (KStr "params") = Some x /\ is_dict x = false /\
                 field (KStr "videopreview") (VDict w) ≫= field (KStr "params")
                   = Some x).

(** The video the motion-video node gets: the override when there is a
    non-empty one, the preset's video otherwise. *)
Definition resolved_video (p : preset) (override_video : option string) : string :=
  match override_video with
  | Some o => if String.eqb o "" then video p else o
  | None => video p
  end.

(** The widgets of the controlnet-apply node after the controlnet step,
    for widgets that were the non-empty list [l]. *)
Definition controlnet_widgets (p : preset) (l : list value) : list value :=
  <[2%nat := VFloat (controlnet_end p)]>
    (<[0%nat := VFloat (controlnet_strength p)]> l
       ++ replicate (3 - length l) (VInt 0)).

(** [obj[i]] read on a list or on a dictionary with the integer key [i]. *)
Definition getitem (i : nat) (obj : value) : option value :=
  match obj with
  | VList l => l !! i
  | VDict d => dict_get d (KInt (Z.of_nat i))
  | _ => None
  end.

(** When the computation returns, the node of id [t] satisfies [Q]. *)
Definition ensures {A} (t : Z) (Q : value -> Prop) (m : St (list value) A) : Prop :=
  forall nodes a nodes',
    m nodes = (Ok a, nodes') -> exists v, node_of nodes' t = Some v /\ Q v.

(** If the node of id [t] satisfies [Q], it does so after the computation,
    whether it returns or raises. *)
Definition keeps {A} (t : Z) (Q : value -> Prop) (m : St (list value) A) : Prop :=
  forall nodes v,
    node_of nodes t = Some v -> Q v ->
    exists v', node_of (snd (m nodes)) t = Some v' /\ Q v'.

(** The widgets of the motion-video node after a video step that returned:
    a mapping with the video, and with the file name in the [params] of a
    [videopreview] that is a mapping. *)
Definition video_set (v : string) (w' : value) : Prop :=
  exists d',
    w' = VDict d' /\
    dict_get d' (KStr "video") = Some (VStr v) /\
    forall vp, dict_get d' (KStr "videopreview") = Some (VDict vp) ->
      exists ps, dict_get vp (KStr "params") = Some (VDict ps) /\
                 dict_get ps (KStr "filename") = Some (VStr v).

(** Shapes of [widgets_values] that the setters can work on. *)
Definition widgets_absent_or (P : value -> Prop) (node : value) : Prop :=
  field WIDGETS node = None \/ exists w, field WIDGETS node = Some w /\ P w.

Definition a_list (w : value) : Prop := exists l, w = VList l.

Definition a_nonempty_list (w : value) : Prop := exists x l, w = VList (x :: l).

(** A mapping whose [videopreview], when a mapping, has no [params] or a
    mapping there. *)
Definition video_widgets (w : value) : Prop :=
  exists d, w = VDict d /\
    forall vp x, dict_get d (KStr "videopreview") = Some (VDict vp) ->
                 dict_get vp (KStr "params") = Some x -> is_dict x = true.

(** The nodes named, each there and of the shape asked. *)
Definition shaped (reqs : list (Z * (value -> Prop))) (nodes : list value) : Prop :=
  Forall (fun r => exists v, node_of nodes (fst r) = Some v /\ snd r v) reqs.

(** A workflow on which every step of the build can run: the eleven nodes
    are there, the image loaders have no widgets or a list, the
    motion-video node no widgets or a mapping, the controlnet-apply and
    motion-scale nodes no widgets or a non-empty list. *)
Definition well_shaped (nodes : list value) : Prop :=
  (forall t, t ∈ LOAD_IMAGE_START_IDS ++ LOAD_IMAGE_END_IDS ->
     exists v, node_of nodes t = Some v /\ widgets_absent_or a_list v) /\
  (exists v, node_of nodes MOTION_VIDEO_NODE_ID = Some v /\
             widgets_absent_or video_widgets v) /\
  (exists v, node_of nodes CONTROLNET_APPLY_NODE_ID = Some v /\
             widgets_absent_or a_nonempty_list v) /\
  (exists v, node_of nodes MOTION_SCALE_NODE_ID = Some v /\
             widgets_absent_or a_nonempty_list v) /\
  (forall t, t ∈ [VIDEO_PREVIEW_NODE_ID; VIDEO_FINAL_NODE_ID;
                  VIDEO_INTERPOLATED_NODE_ID; VIDEO_UPSCALED_MODEL_NODE_ID] ->
     is_ok (find_node nodes t) = true).

(** From nodes that satisfy [P], the computation returns and leaves nodes
    that satisfy [P']. *)
Definition triple {A} (P : list value -> Prop) (m : St (list value) A)
    (P' : list value -> Prop) : Prop :=
  forall nodes, P nodes -> exists a nodes', m nodes = (Ok a, nodes') /\ P' nodes'.

(** The nodes of a document: [doc["nodes"]] when that is a list. *)
Definition nodes_of_doc (doc : value) : list value :=
  match field (KStr "nodes") doc with
  | Some (VList nodes) => nodes
  | _ => []
  end.

(** * Properties *)

Import Examples.

(** ** Dictionaries *)

Section Dicts.

Implicit Types (d : dict) (k : key) (v : value).

Lemma dict_get_set_eq d k v : dict_get (dict_set d k v) k = Some v.
Proof.
  induction d as [|[k' v'] d IH]; simpl.
  - by rewrite decide_True.
  - destruct (decide (k' = k)) as [->|Hne]; simpl.
    + by rewrite decide_True.
    + by rewrite decide_False.
Qed.

Lemma dict_get_set_ne d k k' v :
  k <> k' -> dict_get (dict_set d k v) k' = dict_get d k'.
Proof.
  intros Hne. induction d as [|[k0 v0] d IH]; simpl.
  - by rewrite decide_False.
  - destruct (decide (k0 = k)) as [->|Hk]; simpl.
    + by rewrite !decide_False.
    + destruct (decide (k0 = k')); [done | apply IH].
Qed.

Lemma dict_set_set d k v v' : dict_set (dict_set d k v) k v' = dict_set d k v'.
Proof.
  induction d as [|[k0 v0] d IH]; simpl.
  - by rewrite decide_True.
  - destruct (decide (k0 = k)) as [->|Hk]; simpl.
    + by rewrite decide_True.
    + by rewrite decide_False, IH.
Qed.

Lemma dict_set_keys d k v v0 :
  dict_get d k = Some v0 -> map fst (dict_set d k v) = map fst d.
Proof.
  induction d as [|[k' v'] d IH]; simpl; [done|].
  destruct (decide (k' = k)) as [->|Hk]; simpl; [done|].
  intros H. by rewrite IH.
Qed.

Lemma dict_set_length d k v v0 :
  dict_get d k = Some v0 -> length (dict_set d k v) = length d.
Proof.
  intros H. by rewrite <- (length_map fst), (dict_set_keys _ _ _ _ H), length_map.
Qed.

End Dicts.

(** ** The state monad *)

Section Monad.

Context {S A B : Type}.

Lemma bind_run (m : St S A) (k : A -> St S B) (s : S) :
  (m ≫= k) s =
    match m s with
    | (Ok a, s') => k a s'
    | (Raise e, s') => (Raise e, s')
    end.
Proof. reflexivity. Qed.

Lemma bind_ok (m : St S A) (k : A -> St S B) s a s' :
  m s = (Ok a, s') -> (m ≫= k) s = k a s'.
Proof. intros H. by rewrite bind_run, H. Qed.

Lemma bind_raise (m : St S A) (k : A -> St S B) s e s' :
  m s = (Raise e, s') -> (m ≫= k) s = (Raise e, s').
Proof. intros H. by rewrite bind_run, H. Qed.

(** If the sequence returns, its first part returned. *)
Lemma bind_is_ok (m : St S A) (k : A -> St S B) s :
  is_ok (fst ((m ≫= k) s)) = true ->
  exists a s', m s = (Ok a, s') /\ is_ok (fst (k a s')) = true.
Proof.
  rewrite bind_run. destruct (m s) as [[a|e] s']; simpl; [eauto | done].
Qed.

End Monad.

(** ** Node lookup *)

Section Lookup.

Implicit Types (nodes : list value) (t : Z) (i : nat).

Lemma find_node_cons_dict d nodes t :
  find_node (VDict d :: nodes) t =
    if has_id t (VDict d) then Ok 0%nat
    else match find_node nodes t with Ok i => Ok (S i) | Raise e => Raise e end.
Proof. reflexivity. Qed.

(** [find_node] returns a position only for the first node with the id,
    all nodes before it being dictionaries with another id. *)
Lemma find_node_Ok nodes t i :
  find_node nodes t = Ok i ->
  (exists d, nodes !! i = Some (VDict d) /\ has_id t (VDict d) = true) /\
  (forall j, (j < i)%nat ->
     exists d, nodes !! j = Some (VDict d) /\ has_id t (VDict d) = false).
Proof.
  revert i. induction nodes as [|v nodes IH]; intros i; simpl; [done|].
  destruct v as [| | | | | |d]; try done.
  fold (has_id t (VDict d)). destruct (has_id t (VDict d)) eqn:Hid.
  - intros [= <-]. split; [eauto | intros j Hj; lia].
  - destruct (find_node nodes t) as [i'|e] eqn:Hf; [|done].
    intros [= <-]. destruct (IH i' eq_refl) as [Hi Hbefore]. split; [exact Hi|].
    intros [|j] Hj; [eauto | apply Hbefore; lia].
Qed.

Lemma find_node_first nodes t i d :
  nodes !! i = Some (VDict d) -> has_id t (VDict d) = true ->
  (forall j, (j < i)%nat ->
     exists dj, nodes !! j = Some (VDict dj) /\ has_id t (VDict dj) = false) ->
  find_node nodes t = Ok i.
Proof.
  revert i. induction nodes as [|v nodes IH]; intros i Hi Hid Hbefore; [done|].
  destruct i as [|i]; simpl in Hi.
  - injection Hi as ->. rewrite find_node_cons_dict. by rewrite Hid.
  - destruct (Hbefore 0%nat) as (d0 & H0 & Hid0); [lia|].
    simpl in H0. injection H0 as ->. rewrite find_node_cons_dict, Hid0.
    rewrite (IH i Hi Hid); [done|].
    intros j Hj. apply (Hbefore (S j)). lia.
Qed.

Lemma find_node_none nodes t :
  Forall (fun v => is_dict v = true /\ has_id t v = false) nodes ->
  find_node nodes t = Raise (not_found t).
Proof.
  induction 1 as [|v nodes [Hd Hid] _ IH]; [done|].
  destruct v; try done. rewrite find_node_cons_dict, Hid, IH. done.
Qed.

(** Two ids found at the same position are the same id. *)
Lemma find_node_inj nodes t1 t2 i :
  find_node nodes t1 = Ok i -> find_node nodes t2 = Ok i -> t1 = t2.
Proof.
  intros H1 H2.
  apply find_node_Ok in H1 as [(d1 & Hl1 & Hid1) _].
  apply find_node_Ok in H2 as [(d2 & Hl2 & Hid2) _].
  rewrite Hl1 in Hl2. injection Hl2 as <-.
  unfold has_id, eq_int in *.
  destruct (as_int _); [|done].
  apply Z.eqb_eq in Hid1, Hid2. congruence.
Qed.

(** [find_node] reads nothing of the nodes but their [id_view]. *)
Lemma find_node_ext nodes nodes' t :
  map id_view nodes = map id_view nodes' ->
  find_node nodes t = find_node nodes' t.
Proof.
  revert nodes'. induction nodes as [|v nodes IH]; intros [|v' nodes']; try done.
  simpl. intros [= Hv Hrest].
  destruct v, v'; try done. simpl in Hv. injection Hv as Hv.
  rewrite Hv, (IH _ Hrest). done.
Qed.

Lemma id_view_insert nodes i v v' :
  nodes !! i = Some v -> id_view v' = id_view v ->
  map id_view (<[i:=v']> nodes) = map id_view nodes.
Proof.
  intros Hi Hv. change (map id_view) with (fmap (M:=list) id_view).
  rewrite list_fmap_insert, Hv. apply list_insert_id.
  by rewrite list_lookup_fmap, Hi.
Qed.

End Lookup.

(** ** Running a computation on one node *)

Section AtIndex.

Context {A B : Type}.
Implicit Types (nodes : list value) (i : nat).

Lemma at_index_run (m : St value A) nodes i v :
  nodes !! i = Some v ->
  at_index i m nodes = (fst (m v), <[i := snd (m v)]> nodes).
Proof. intros H. unfold at_index. rewrite H. by destruct (m v). Qed.

(** Two computations in a row on the same node are one computation on it. *)
Lemma at_index_bind (m : St value A) (k : A -> St value B) nodes i :
  (at_index i m ≫= fun a => at_index i (k a)) nodes = at_index i (m ≫= k) nodes.
Proof.
  rewrite bind_run. unfold at_index at 1 3.
  destruct (nodes !! i) as [v|] eqn:Hi; [|done].
  rewrite bind_run. destruct (m v) as [[a|e] v']; [|done].
  assert (Hlt : (i < length nodes)%nat) by (by eapply lookup_lt_Some).
  unfold at_index. rewrite list_lookup_insert_eq by done.
  destruct (k a v') as [r v'']. by rewrite list_insert_insert_eq.
Qed.

End AtIndex.

(** ** Computations that leave the ids alone *)

Section Ids.

Context {A B : Type}.

Lemma keeps_id_ret (a : A) : keeps_id (mret a).
Proof. by intros v. Qed.

Lemma keeps_id_raise e : keeps_id (raise e : St value A).
Proof. by intros v. Qed.

Lemma keeps_id_inspect (f : value -> result A) : keeps_id (inspect f).
Proof. by intros v. Qed.

Lemma keeps_id_get k x : keeps_id (py_get k x).
Proof. by intros v. Qed.

Lemma keeps_id_contains k : keeps_id (py_contains k).
Proof. by intros v. Qed.

Lemma keeps_id_bind (m : St value A) (k : A -> St value B) :
  keeps_id m -> (forall a, keeps_id (k a)) -> keeps_id (m ≫= k).
Proof.
  intros Hm Hk v. rewrite bind_run. specialize (Hm v).
  destruct (m v) as [[a|e] v']; simpl in *; [|done].
  by rewrite Hk.
Qed.

Lemma keeps_id_setitem k x : k <> KStr "id" -> keeps_id (py_setitem k x).
Proof.
  intros Hk [| | | | |l|d]; try done; simpl.
  - destruct k; [done|]. by case_match.
  - by rewrite dict_get_set_ne.
Qed.

Lemma keeps_id_setdefault k x : k <> KStr "id" -> keeps_id (py_setdefault k x).
Proof.
  intros Hk [| | | | |l|d]; try done; simpl.
  destruct (dict_get d k); simpl; [done|]. by rewrite dict_get_set_ne.
Qed.

Lemma keeps_id_at_key k (m : St value A) : k <> KStr "id" -> keeps_id (at_key k m).
Proof.
  intros Hk [| | | | |l|d]; try done; simpl.
  destruct (dict_get d k); [|done].
  destruct (m v); simpl. by rewrite dict_get_set_ne.
Qed.

Lemma ids_stable_ret (a : A) : ids_stable (mret a).
Proof. by intros nodes. Qed.

Lemma ids_stable_raise e : ids_stable (raise e : St (list value) A).
Proof. by intros nodes. Qed.

Lemma ids_stable_inspect (f : list value -> result A) : ids_stable (inspect f).
Proof. by intros nodes. Qed.

Lemma ids_stable_bind (m : St (list value) A) (k : A -> St (list value) B) :
  ids_stable m -> (forall a, ids_stable (k a)) -> ids_stable (m ≫= k).
Proof.
  intros Hm Hk nodes. rewrite bind_run. specialize (Hm nodes).
  destruct (m nodes) as [[a|e] nodes']; simpl in *; [|done].
  by rewrite Hk.
Qed.

Lemma ids_stable_at_index i (m : St value A) : keeps_id m -> ids_stable (at_index i m).
Proof.
  intros Hm nodes. unfold at_index.
  destruct (nodes !! i) as [v|] eqn:Hi; [|done].
  specialize (Hm v). destruct (m v) as [r v']; simpl in *.
  by eapply id_view_insert.
Qed.

Lemma ids_stable_find (m : St (list value) A) nodes t :
  ids_stable m -> find_node (snd (m nodes)) t = find_node nodes t.
Proof. intros Hm. by apply find_node_ext. Qed.

End Ids.

Lemma ids_stable_for_each {A} (xs : list A) (body : A -> St (list value) unit) :
  (forall x, ids_stable (body x)) -> ids_stable (for_each xs body).
Proof.
  intros Hb. induction xs as [|x xs IH]; simpl.
  - apply ids_stable_ret.
  - apply ids_stable_bind; [apply Hb | intros _; exact IH].
Qed.


Create HintDb ids.
#[local] Hint Resolve keeps_id_ret keeps_id_raise keeps_id_inspect keeps_id_setitem
  keeps_id_get keeps_id_contains
  keeps_id_setdefault keeps_id_at_key ids_stable_ret ids_stable_raise
  ids_stable_inspect ids_stable_at_index : ids.

(** Decompose a computation along its binds and branches. *)
Ltac stable :=
  repeat first
    [ progress intros
    | apply ids_stable_bind | apply keeps_id_bind
    | apply ids_stable_for_each | apply ids_stable_at_index
    | match goal with
      | |- ids_stable (if ?b then _ else _) => destruct b
      | |- keeps_id (if ?b then _ else _) => destruct b
      | |- ids_stable (match ?o with _ => _ end) => destruct o
      end
    | solve [auto with ids]
    | done ].

Lemma set_load_image_stable node_id image_path :
  ids_stable (set_load_image node_id image_path).
Proof. unfold set_load_image. stable. Qed.

Lemma set_motion_settings_stable motion override_video :
  ids_stable (set_motion_settings motion override_video).
Proof. unfold set_motion_settings. stable. Qed.

Lemma set_quality_stable quality : ids_stable (set_quality quality).
Proof. unfold set_quality. stable. Qed.

Lemma set_output_prefix_stable motion quality :
  ids_stable (set_output_prefix motion quality).
Proof. unfold set_output_prefix. stable. Qed.

(** ** Lookups a computation cannot do without *)

Section Needs.

Context {A B : Type}.
Implicit Types (t : Z).

Lemma needs_node_raise t e : needs_node t (raise e : St (list value) A).
Proof. by intros nodes. Qed.

Lemma needs_node_find t (k : nat -> St (list value) B) :
  needs_node t (inspect (fun nodes => find_node nodes t) ≫= k).
Proof.
  intros nodes H. apply bind_is_ok in H as (i & s' & Hm & _).
  unfold inspect in Hm. injection Hm as Hm _. by rewrite Hm.
Qed.

Lemma needs_node_bind_l t (m : St (list value) A) (k : A -> St (list value) B) :
  needs_node t m -> needs_node t (m ≫= k).
Proof.
  intros Hm nodes H. apply bind_is_ok in H as (a & s' & Hrun & _).
  apply Hm. by rewrite Hrun.
Qed.

Lemma needs_node_bind_r t (m : St (list value) A) (k : A -> St (list value) B) :
  ids_stable m -> (forall a, needs_node t (k a)) -> needs_node t (m ≫= k).
Proof.
  intros Hm Hk nodes H. apply bind_is_ok in H as (a & s' & Hrun & Hok).
  apply Hk in Hok. rewrite <- (ids_stable_find m nodes t Hm). by rewrite Hrun.
Qed.

End Needs.

Lemma needs_node_for_each {A} t (xs : list A) (body : A -> St (list value) unit) x :
  x ∈ xs -> (forall y, ids_stable (body y)) -> needs_node t (body x) ->
  needs_node t (for_each xs body).
Proof.
  intros Hx Hst Hb. induction xs as [|y xs IH]; [by apply not_elem_of_nil in Hx|].
  simpl. apply elem_of_cons in Hx as [<-|Hx].
  - by apply needs_node_bind_l.
  - apply needs_node_bind_r; [apply Hst | intros _; by apply IH].
Qed.

(** Find the lookup of the id along the binds of a computation. *)
Ltac needs :=
  first
    [ apply needs_node_find
    | apply needs_node_raise
    | apply needs_node_bind_r; [solve [stable] | intros; needs] ].

Lemma set_load_image_needs node_id image_path :
  needs_node node_id (set_load_image node_id image_path).
Proof. unfold set_load_image. needs. Qed.

Lemma set_motion_settings_needs motion override_video t :
  t ∈ [MOTION_VIDEO_NODE_ID; CONTROLNET_APPLY_NODE_ID; MOTION_SCALE_NODE_ID] ->
  needs_node t (set_motion_settings motion override_video).
Proof.
  intros Ht. unfold set_motion_settings.
  destruct (lookup_preset _ _); [|apply needs_node_raise].
  repeat (apply elem_of_cons in Ht as [->|Ht]); [needs..|].
  by apply not_elem_of_nil in Ht.
Qed.

Lemma set_quality_needs quality t :
  t ∈ [VIDEO_PREVIEW_NODE_ID; VIDEO_FINAL_NODE_ID; VIDEO_INTERPOLATED_NODE_ID;
       VIDEO_UPSCALED_MODEL_NODE_ID] ->
  needs_node t (set_quality quality).
Proof.
  intros Ht. unfold set_quality.
  repeat (apply elem_of_cons in Ht as [->|Ht]); [needs..|].
  by apply not_elem_of_nil in Ht.
Qed.

(** [build_workflow] returns only if every required node is there. *)
Lemma patch_nodes_needs start_image end_image motion quality motion_video t :
  t ∈ REQUIRED_IDS ->
  needs_node t (patch_nodes start_image end_image motion quality motion_video).
Proof.
  intros Ht. unfold patch_nodes.
  pose proof set_load_image_stable as Hload.
  pose proof set_motion_settings_stable as Hmotion.
  pose proof set_quality_stable as Hquality.
  unfold REQUIRED_IDS in Ht. rewrite !elem_of_app in Ht.
  destruct Ht as [Ht|[Ht|Ht]].
  - apply needs_node_bind_l.
    eapply needs_node_for_each; [exact Ht | auto | apply set_load_image_needs].
  - apply needs_node_bind_r; [by apply ids_stable_for_each | intros _].
    apply needs_node_bind_l.
    eapply needs_node_for_each; [exact Ht | auto | apply set_load_image_needs].
  - do 2 (apply needs_node_bind_r; [by apply ids_stable_for_each | intros _]).
    rewrite !elem_of_cons in Ht.
    destruct Ht as [->|[->|[->|Ht]]];
      [apply needs_node_bind_l, set_motion_settings_needs; set_solver ..|].
    apply needs_node_bind_r; [apply Hmotion | intros _].
    apply needs_node_bind_l, set_quality_needs.
    rewrite !elem_of_cons. tauto.
Qed.

(** ** The run *)

(** When [parse_args] returns, the command line held options only, and
    the world is as it was. *)
Lemma parse_args_returns a w args :
  fst (parse_args a w) = Ok args ->
  parse_args a w = (Ok args, w) /\ exists f, a = Options f.
Proof.
  destruct a as [before text| |f]; unfold parse_args.
  - rewrite bind_run. unfold inspect at 1.
    by destruct (read_choices before).
  - done.
  - rewrite bind_run. unfold inspect.
    destruct (read_choices f); [|done].
    intros H. split; [|by exists f]. simpl in H. by rewrite H.
Qed.

Lemma main_aborts a w args e :
  fst (parse_args a w) = Ok args ->
  build_workflow (files w) (base_workflow args) (start_image args)
    (end_image args) (motion args) (quality args) (motion_video args) = Raise e ->
  main a w = (Raise e, w).
Proof.
  intros [Hparse _]%parse_args_returns Hbuild. unfold main.
  rewrite bind_run, Hparse.
  rewrite bind_run. unfold inspect. by rewrite Hbuild.
Qed.

Lemma build_workflow_needs fs path si ei mo qu mv d nodes t :
  read_json fs path = Ok (VDict d) ->
  dict_get d (KStr "nodes") = Some (VList nodes) ->
  t ∈ REQUIRED_IDS ->
  is_ok (find_node nodes t) = false ->
  exists e, build_workflow fs path si ei mo qu mv = Raise e.
Proof.
  intros Hread Hnodes Ht Hfind. unfold build_workflow. rewrite Hread.
  unfold at_key, at_items. rewrite Hnodes.
  pose proof (patch_nodes_needs si ei mo qu mv t Ht nodes) as Hneeds.
  destruct (patch_nodes si ei mo qu mv nodes) as [[u|e] nodes'].
  - rewrite Hneeds in Hfind; done.
  - eauto.
Qed.

(** C6. Node lookup over a sequence of nodes (dictionaries) returns the
    first node, in sequence order, whose [id] equals the target.  If no
    node has the id, it raises the error that names the id; when the id is
    one that the build looks up, the run raises as well, and it leaves the
    files and the standard output as they were: no document is written. *)
Theorem find_node_first_match_or_abort (nodes : list value) (t : Z) :
  Forall (fun v => is_dict v = true) nodes ->
  (forall i v,
      nodes !! i = Some v -> has_id t v = true ->
      (forall j w, (j < i)%nat -> nodes !! j = Some w -> has_id t w = false) ->
      find_node nodes t = Ok i /\ node_of nodes t = Some v) /\
  ((forall v, v ∈ nodes -> has_id t v = false) ->
      find_node nodes t =
        Raise (ValueError ("Node id " +:+ str_of_int t +:+ " not found in workflow")) /\
      (t ∈ REQUIRED_IDS ->
       forall a w args d,
         fst (parse_args a w) = Ok args ->
         read_json (files w) (base_workflow args) = Ok (VDict d) ->
         dict_get d (KStr "nodes") = Some (VList nodes) ->
         exists e, main a w = (Raise e, w))).
Proof.
  intros Hdicts. split.
  - intros i v Hi Hid Hbefore.
    assert (Hfind : find_node nodes t = Ok i).
    { destruct v; try done. eapply find_node_first; [exact Hi | exact Hid |].
      intros j Hj. destruct (lookup_lt_is_Some_2 nodes j) as [w Hw].
      { apply lookup_lt_Some in Hi. lia. }
      pose proof (Forall_lookup_1 _ _ _ _ Hdicts Hw) as Hd.
      destruct w; try done. eauto. }
    split; [exact Hfind|]. unfold node_of. by rewrite Hfind.
  - intros Hnone.
    assert (Hfind : find_node nodes t = Raise (not_found t)).
    { apply find_node_none, Forall_forall. intros v Hv. split.
      - by eapply Forall_forall in Hdicts.
      - by apply Hnone. }
    split; [exact Hfind|].
    intros Ht a w args d Hparse Hread Hnodes.
    destruct (build_workflow_needs (files w) (base_workflow args)
                (start_image args) (end_image args) (motion args) (quality args)
                (motion_video args) d nodes t Hread Hnodes Ht) as [e He].
    { by rewrite Hfind. }
    exists e. by eapply main_aborts.
Qed.

Lemma find_node_first_match_or_abort_witness :
  (find_node base_nodes 53 = Ok 7%nat /\
   node_of base_nodes 53 = base_nodes !! 7%nat) /\
  (find_node short_nodes 272 =
     Raise (ValueError "Node id 272 not found in workflow") /\
   exists e, main zoom_full (world_of (doc_of short_nodes))
             = (Raise e, world_of (doc_of short_nodes))).
Proof.
  split.
  - assert (Hd : Forall (fun v => is_dict v = true) base_nodes)
      by (repeat constructor).
    destruct (find_node_first_match_or_abort base_nodes 53 Hd) as [Hfirst _].
    destruct (base_nodes !! 7%nat) as [v|] eqn:Hv; [|discriminate Hv].
    apply (Hfirst 7%nat v Hv).
    + vm_compute in Hv. injection Hv as <-. reflexivity.
    + intros j w Hj Hw.
      do 7 (destruct j as [|j]; [vm_compute in Hw; injection Hw as <-; reflexivity|]).
      lia.
  - assert (Hd : Forall (fun v => is_dict v = true) short_nodes)
      by (repeat constructor).
    destruct (find_node_first_match_or_abort short_nodes 272 Hd) as [_ Hnone].
    destruct Hnone as [Hfind Hrun].
    + intros v Hv. vm_compute in Hv.
      repeat (apply elem_of_cons in Hv as [->|Hv]; [reflexivity|]).
      by apply not_elem_of_nil in Hv.
    + split; [exact Hfind|].
      assert (Hreq : 272 ∈ REQUIRED_IDS) by compute_done.
      apply (Hrun Hreq zoom_full _ zoom_full_args
               [(KStr "last_node_id", VInt 700);
                (KStr "nodes", VList short_nodes); (KStr "links", VList [])]);
        reflexivity.
Defined.

(** ** Presets *)

Lemma lookup_preset_None table name :
  name ∉ map fst table -> lookup_preset table name = None.
Proof.
  induction table as [|[n p] table IH]; simpl; [done|].
  rewrite not_elem_of_cons. intros [Hne Hrest].
  rewrite decide_False by done. by apply IH.
Qed.

Lemma lookup_preset_Some table name :
  name ∈ map fst table -> exists p, lookup_preset table name = Some p.
Proof.
  induction table as [|[n p] table IH]; simpl.
  - by intros ?%not_elem_of_nil.
  - destruct (decide (n = name)); [eauto|].
    rewrite elem_of_cons. intros [?|?]; [congruence | by apply IH].
Qed.

(** C7. With a preset name that is not in the preset table, the motion
    settings setter raises the unknown-key error for that name and leaves
    every node as it was. *)
Theorem set_motion_settings_unknown_preset
    (nodes : list value) (motion : string) (override_video : option string) :
  motion ∉ map fst MOTION_PRESETS ->
  set_motion_settings motion override_video nodes
    = (Raise (KeyError (KStr motion)), nodes).
Proof.
  intros Hm. unfold set_motion_settings.
  by rewrite (lookup_preset_None _ _ Hm).
Qed.

Lemma set_motion_settings_unknown_preset_witness :
  set_motion_settings "pan" (Some "pan.mp4") base_nodes
    = (Raise (KeyError (KStr "pan")), base_nodes).
Proof.
  apply set_motion_settings_unknown_preset. compute_done.
Defined.

(** ** The document around the nodes *)

(** C9. When the build returns a document, the input document is a
    dictionary, and every top-level key of it other than ["nodes"] has the
    same value in the output; the keys and their order are the same too. *)
Theorem build_workflow_keeps_other_keys
    (fs : gmap string file) (path si ei mo qu : string) (mv : option string)
    (out : value) :
  build_workflow fs path si ei mo qu mv = Ok out ->
  exists d d',
    read_json fs path = Ok (VDict d) /\ out = VDict d' /\
    map fst d' = map fst d /\
    forall k, k <> KStr "nodes" -> dict_get d' k = dict_get d k.
Proof.
  unfold build_workflow. destruct (read_json fs path) as [data|e]; [|done].
  destruct data as [| | | | | |d]; try done.
  unfold at_key. destruct (dict_get d (KStr "nodes")) as [nodes|] eqn:Hn; [|done].
  destruct (at_items _ nodes) as [[u|e] nodes']; [|done].
  intros [= <-]. exists d, (dict_set d (KStr "nodes") nodes').
  repeat split.
  - by eapply dict_set_keys.
  - intros k Hk. by apply dict_get_set_ne.
Qed.

Lemma build_workflow_keeps_other_keys_witness :
  exists d d',
    read_json {[ BASE_WORKFLOW := Dumps base_doc ]} BASE_WORKFLOW = Ok (VDict d) /\
    built_doc = VDict d' /\
    map fst d' = map fst d /\
    forall k, k <> KStr "nodes" -> dict_get d' k = dict_get d k.
Proof.
  apply (build_workflow_keeps_other_keys _ BASE_WORKFLOW
           "s.png" "e.png" "zoom" "full" None built_doc).
  vm_compute. reflexivity.
Defined.

(** ** Stepping through a computation on [nodes] *)

Lemma run_find {B} (k : nat -> St (list value) B) nodes t i :
  find_node nodes t = Ok i ->
  (inspect (fun nodes => find_node nodes t) ≫= k) nodes = k i nodes.
Proof. intros H. rewrite bind_run. unfold inspect. by rewrite H. Qed.

Lemma run_at_index {A B} (m : St value A) (k : A -> St (list value) B)
    nodes i v a v' :
  nodes !! i = Some v -> m v = (Ok a, v') ->
  (at_index i m ≫= k) nodes = k a (<[i:=v']> nodes).
Proof.
  intros Hi Hm. rewrite bind_run, (at_index_run _ _ _ _ Hi). by rewrite Hm.
Qed.

Lemma found_is_dict nodes t i :
  find_node nodes t = Ok i -> exists d, nodes !! i = Some (VDict d).
Proof. intros H. apply find_node_Ok in H as [(d & Hd & _) _]. eauto. Qed.

Lemma is_ok_find nodes t :
  is_ok (find_node nodes t) = true -> exists i, find_node nodes t = Ok i.
Proof. destruct (find_node nodes t); [eauto | done]. Qed.

(** After a computation that leaves the ids alone, the node with a given
    id is at the position where it was. *)
Lemma node_of_stable {A} (m : St (list value) A) nodes t i :
  ids_stable m -> find_node nodes t = Ok i ->
  node_of (snd (m nodes)) t = snd (m nodes) !! i.
Proof.
  intros Hm Hf. unfold node_of. by rewrite (ids_stable_find m nodes t Hm), Hf.
Qed.

(** ** Quality *)

Lemma set_quality_run quality nodes i1 i2 i3 i4 d1 d2 d3 d4 :
  find_node nodes VIDEO_PREVIEW_NODE_ID = Ok i1 ->
  find_node nodes VIDEO_FINAL_NODE_ID = Ok i2 ->
  find_node nodes VIDEO_INTERPOLATED_NODE_ID = Ok i3 ->
  find_node nodes VIDEO_UPSCALED_MODEL_NODE_ID = Ok i4 ->
  nodes !! i1 = Some (VDict d1) -> nodes !! i2 = Some (VDict d2) ->
  nodes !! i3 = Some (VDict d3) -> nodes !! i4 = Some (VDict d4) ->
  set_quality quality nodes =
    (Ok tt,
     <[i4 := VDict (dict_set d4 MODE (VInt 2))]>
       (<[i3 := VDict (dict_set d3 MODE (VInt 2))]>
          (<[i2 := VDict (dict_set d2 MODE (VInt (final_mode quality)))]>
             (<[i1 := VDict (dict_set d1 MODE (VInt (preview_mode quality)))]> nodes)))).
Proof.
  intros H1 H2 H3 H4 L1 L2 L3 L4.
  assert (i1 <> i2) by (intros ->; by pose proof (find_node_inj _ _ _ _ H1 H2)).
  assert (i1 <> i3) by (intros ->; by pose proof (find_node_inj _ _ _ _ H1 H3)).
  assert (i1 <> i4) by (intros ->; by pose proof (find_node_inj _ _ _ _ H1 H4)).
  assert (i2 <> i3) by (intros ->; by pose proof (find_node_inj _ _ _ _ H2 H3)).
  assert (i2 <> i4) by (intros ->; by pose proof (find_node_inj _ _ _ _ H2 H4)).
  assert (i3 <> i4) by (intros ->; by pose proof (find_node_inj _ _ _ _ H3 H4)).
  unfold set_quality, preview_mode, final_mode.
  rewrite (run_find _ _ _ _ H1), (run_find _ _ _ _ H2),
    (run_find _ _ _ _ H3), (run_find _ _ _ _ H4).
  destruct (String.eqb quality "sample").
  all: erewrite run_at_index; [|exact L1|reflexivity].
  all: erewrite run_at_index;
    [|rewrite list_lookup_insert_ne by done; exact L2|reflexivity].
  all: erewrite run_at_index;
    [|rewrite !list_lookup_insert_ne by done; exact L3|reflexivity].
  all: erewrite at_index_run by (rewrite !list_lookup_insert_ne by done; exact L4).
  all: reflexivity.
Qed.

Lemma set_quality_modes_of quality nodes :
  (forall t, t ∈ [VIDEO_PREVIEW_NODE_ID; VIDEO_FINAL_NODE_ID;
                  VIDEO_INTERPOLATED_NODE_ID; VIDEO_UPSCALED_MODEL_NODE_ID] ->
             is_ok (find_node nodes t) = true) ->
  let (r, nodes') := set_quality quality nodes in
  r = Ok tt /\
  mode_of nodes' VIDEO_PREVIEW_NODE_ID = Some (VInt (preview_mode quality)) /\
  mode_of nodes' VIDEO_FINAL_NODE_ID = Some (VInt (final_mode quality)) /\
  mode_of nodes' VIDEO_INTERPOLATED_NODE_ID = Some (VInt 2) /\
  mode_of nodes' VIDEO_UPSCALED_MODEL_NODE_ID = Some (VInt 2).
Proof.
  intros Hall.
  destruct (is_ok_find nodes VIDEO_PREVIEW_NODE_ID) as [i1 H1];
    [apply Hall; set_solver|].
  destruct (is_ok_find nodes VIDEO_FINAL_NODE_ID) as [i2 H2];
    [apply Hall; set_solver|].
  destruct (is_ok_find nodes VIDEO_INTERPOLATED_NODE_ID) as [i3 H3];
    [apply Hall; set_solver|].
  destruct (is_ok_find nodes VIDEO_UPSCALED_MODEL_NODE_ID) as [i4 H4];
    [apply Hall; set_solver|].
  destruct (found_is_dict _ _ _ H1) as [d1 L1].
  destruct (found_is_dict _ _ _ H2) as [d2 L2].
  destruct (found_is_dict _ _ _ H3) as [d3 L3].
  destruct (found_is_dict _ _ _ H4) as [d4 L4].
  assert (i1 <> i2) by (intros ->; by pose proof (find_node_inj _ _ _ _ H1 H2)).
  assert (i1 <> i3) by (intros ->; by pose proof (find_node_inj _ _ _ _ H1 H3)).
  assert (i1 <> i4) by (intros ->; by pose proof (find_node_inj _ _ _ _ H1 H4)).
  assert (i2 <> i3) by (intros ->; by pose proof (find_node_inj _ _ _ _ H2 H3)).
  assert (i2 <> i4) by (intros ->; by pose proof (find_node_inj _ _ _ _ H2 H4)).
  assert (i3 <> i4) by (intros ->; by pose proof (find_node_inj _ _ _ _ H3 H4)).
  pose proof (node_of_stable (set_quality quality) nodes _ _
                (set_quality_stable quality) H1) as N1.
  pose proof (node_of_stable (set_quality quality) nodes _ _
                (set_quality_stable quality) H2) as N2.
  pose proof (node_of_stable (set_quality quality) nodes _ _
                (set_quality_stable quality) H3) as N3.
  pose proof (node_of_stable (set_quality quality) nodes _ _
                (set_quality_stable quality) H4) as N4.
  rewrite (set_quality_run quality nodes i1 i2 i3 i4 d1 d2 d3 d4) in * by done.
  simpl in N1, N2, N3, N4. unfold mode_of. rewrite N1, N2, N3, N4.
  apply lookup_lt_Some in L1 as ?, L2 as ?, L3 as ?, L4 as ?.
  rewrite !list_lookup_insert_ne by done.
  rewrite (list_lookup_insert_ne _ i4 i3) by done.
  rewrite (list_lookup_insert_ne _ i4 i2), (list_lookup_insert_ne _ i3 i2) by done.
  rewrite !list_lookup_insert_eq by (by rewrite ?length_insert).
  simpl. by rewrite !dict_get_set_eq.
Qed.

(** C1. On a workflow that has the four output nodes (53, 205, 219, 272),
    the quality setter returns, and with quality ["sample"] the preview
    node has mode 0 and the final, interpolated and upscaled nodes have
    mode 2; with quality ["full"] the final node has mode 0 and the
    preview, interpolated and upscaled nodes have mode 2. *)
Theorem set_quality_modes (nodes : list value) :
  (forall t, t ∈ [53; 205; 219; 272] -> is_ok (find_node nodes t) = true) ->
  (fst (set_quality "sample" nodes) = Ok tt /\
   mode_of (snd (set_quality "sample" nodes)) 53 = Some (VInt 0) /\
   mode_of (snd (set_quality "sample" nodes)) 205 = Some (VInt 2) /\
   mode_of (snd (set_quality "sample" nodes)) 219 = Some (VInt 2) /\
   mode_of (snd (set_quality "sample" nodes)) 272 = Some (VInt 2)) /\
  (fst (set_quality "full" nodes) = Ok tt /\
   mode_of (snd (set_quality "full" nodes)) 53 = Some (VInt 2) /\
   mode_of (snd (set_quality "full" nodes)) 205 = Some (VInt 0) /\
   mode_of (snd (set_quality "full" nodes)) 219 = Some (VInt 2) /\
   mode_of (snd (set_quality "full" nodes)) 272 = Some (VInt 2)).
Proof.
  intros Hall. split.
  - pose proof (set_quality_modes_of "sample" nodes Hall) as H.
    by destruct (set_quality "sample" nodes).
  - pose proof (set_quality_modes_of "full" nodes Hall) as H.
    by destruct (set_quality "full" nodes).
Qed.

Lemma set_quality_modes_witness :
  (fst (set_quality "sample" base_nodes) = Ok tt /\
   mode_of (snd (set_quality "sample" base_nodes)) 53 = Some (VInt 0) /\
   mode_of (snd (set_quality "sample" base_nodes)) 205 = Some (VInt 2) /\
   mode_of (snd (set_quality "sample" base_nodes)) 219 = Some (VInt 2) /\
   mode_of (snd (set_quality "sample" base_nodes)) 272 = Some (VInt 2)) /\
  (fst (set_quality "full" base_nodes) = Ok tt /\
   mode_of (snd (set_quality "full" base_nodes)) 53 = Some (VInt 2) /\
   mode_of (snd (set_quality "full" base_nodes)) 205 = Some (VInt 0) /\
   mode_of (snd (set_quality "full" base_nodes)) 219 = Some (VInt 2) /\
   mode_of (snd (set_quality "full" base_nodes)) 272 = Some (VInt 2)).
Proof.
  apply (set_quality_modes base_nodes). intros t Ht.
  repeat (apply elem_of_cons in Ht as [->|Ht]; [reflexivity|]).
  by apply not_elem_of_nil in Ht.
Defined.

(** ** Output prefix *)

Lemma append_assoc (s1 s2 s3 : string) : (s1 +:+ s2) +:+ s3 = s1 +:+ s2 +:+ s3.
Proof. induction s1 as [|c s1 IH]; [done|]. change (String c ((s1 +:+ s2) +:+ s3) = String c (s1 +:+ s2 +:+ s3)). by rewrite IH. Qed.

Lemma output_prefix_eq motion quality :
  output_prefix motion quality =
    "%date:yyyy-MM-dd%/" +:+ quality +:+ "/" +:+ motion +:+ "_" +:+ quality +:+ "/AD".
Proof. unfold output_prefix. cbv zeta. by rewrite !append_assoc. Qed.

Lemma with_prefix_id_view prefix node :
  id_view (with_prefix prefix node) = id_view node.
Proof.
  destruct node as [| | | | | |d]; try done. simpl.
  destruct (dict_get d WIDGETS) as [[]|]; try done.
  simpl. by rewrite dict_get_set_ne.
Qed.

Lemma prefix_body_run motion quality nodes t i d :
  find_node nodes t = Ok i -> nodes !! i = Some (VDict d) ->
  (node ← inspect (fun nodes => find_node nodes t);
   at_index node (
     widgets ← py_get WIDGETS (VDict []);
     if is_dict widgets then
       stored ← py_contains WIDGETS;
       if stored : bool
       then at_key WIDGETS (py_setitem (KStr "filename_prefix")
                              (VStr (output_prefix motion quality)))
       else mret tt
     else mret tt)) nodes
  = (Ok tt, <[i := with_prefix (output_prefix motion quality) (VDict d)]> nodes).
Proof.
  intros Hf Hl. rewrite (run_find _ _ _ _ Hf), (at_index_run _ _ _ _ Hl).
  rewrite bind_run. simpl.
  destruct (dict_get d WIDGETS) as [w|] eqn:Hw; simpl.
  - destruct w; simpl; try done.
    rewrite bind_run. simpl. rewrite Hw. simpl. by rewrite Hw.
  - rewrite bind_run. simpl. by rewrite Hw.
Qed.

Lemma set_output_prefix_run motion quality nodes i1 i2 d1 d2 :
  find_node nodes VIDEO_PREVIEW_NODE_ID = Ok i1 ->
  find_node nodes VIDEO_FINAL_NODE_ID = Ok i2 ->
  nodes !! i1 = Some (VDict d1) -> nodes !! i2 = Some (VDict d2) ->
  set_output_prefix motion quality nodes =
    (Ok tt,
     <[i2 := with_prefix (output_prefix motion quality) (VDict d2)]>
       (<[i1 := with_prefix (output_prefix motion quality) (VDict d1)]> nodes)).
Proof.
  intros H1 H2 L1 L2.
  assert (i1 <> i2) by (intros ->; by pose proof (find_node_inj _ _ _ _ H1 H2)).
  unfold set_output_prefix. simpl for_each.
  rewrite bind_run, (prefix_body_run motion quality nodes _ i1 d1 H1 L1).
  rewrite bind_run, (prefix_body_run motion quality _ _ i2 d2); [done| |].
  - rewrite <- H2. apply find_node_ext.
    eapply id_view_insert; [exact L1 | apply with_prefix_id_view].
  - by rewrite list_lookup_insert_ne.
Qed.

Lemma with_prefix_mapping prefix d w :
  dict_get d WIDGETS = Some (VDict w) ->
  field WIDGETS (with_prefix prefix (VDict d)) =
    Some (VDict (dict_set w (KStr "filename_prefix") (VStr prefix))) /\
  forall k, k <> WIDGETS -> field k (with_prefix prefix (VDict d)) = dict_get d k.
Proof.
  intros Hw. simpl. rewrite Hw. simpl. split.
  - apply dict_get_set_eq.
  - intros k Hk. by apply dict_get_set_ne.
Qed.

Lemma with_prefix_other prefix d :
  (forall w, dict_get d WIDGETS <> Some (VDict w)) ->
  with_prefix prefix (VDict d) = VDict d.
Proof.
  intros Hw. simpl. destruct (dict_get d WIDGETS) as [[]|]; try done.
  by destruct (Hw d0).
Qed.

(** The two nodes before and after [set_output_prefix]. *)
Lemma set_output_prefix_nodes motion quality nodes t :
  is_ok (find_node nodes VIDEO_PREVIEW_NODE_ID) = true ->
  is_ok (find_node nodes VIDEO_FINAL_NODE_ID) = true ->
  t ∈ [VIDEO_PREVIEW_NODE_ID; VIDEO_FINAL_NODE_ID] ->
  exists d,
    node_of nodes t = Some (VDict d) /\
    node_of (snd (set_output_prefix motion quality nodes)) t =
      Some (with_prefix (output_prefix motion quality) (VDict d)).
Proof.
  intros [i1 H1]%is_ok_find [i2 H2]%is_ok_find Ht.
  destruct (found_is_dict _ _ _ H1) as [d1 L1].
  destruct (found_is_dict _ _ _ H2) as [d2 L2].
  assert (i1 <> i2) by (intros ->; by pose proof (find_node_inj _ _ _ _ H1 H2)).
  apply lookup_lt_Some in L1 as ?, L2 as ?.
  pose proof (set_output_prefix_stable motion quality) as Hst.
  apply elem_of_cons in Ht as [->|Ht]; [|apply elem_of_cons in Ht as [->|Ht]].
  - exists d1. unfold node_of at 1. rewrite H1. split; [done|].
    rewrite (node_of_stable _ _ _ _ Hst H1).
    rewrite (set_output_prefix_run _ _ _ _ _ _ _ H1 H2 L1 L2). simpl.
    rewrite list_lookup_insert_ne by done. by rewrite list_lookup_insert_eq.
  - exists d2. unfold node_of at 1. rewrite H2. split; [done|].
    rewrite (node_of_stable _ _ _ _ Hst H2).
    rewrite (set_output_prefix_run _ _ _ _ _ _ _ H1 H2 L1 L2). simpl.
    by rewrite list_lookup_insert_eq by (by rewrite length_insert).
  - by apply not_elem_of_nil in Ht.
Qed.

(** C8. On a workflow with the preview and the final node, the output
    prefix setter returns.  For each of the two nodes: if its
    [widgets_values] is a mapping, the key ["filename_prefix"] of that
    mapping becomes ["%date:yyyy-MM-dd%/" + q + "/" + m + "_" + q + "/AD"],
    the other keys of the mapping and the other fields of the node stay;
    if its [widgets_values] is absent or not a mapping, the node stays as
    it is.  No other node changes. *)
Theorem set_output_prefix_spec (nodes : list value) (m q : string) :
  is_ok (find_node nodes 53) = true ->
  is_ok (find_node nodes 205) = true ->
  let prefix :=
    "%date:yyyy-MM-dd%/" +:+ q +:+ "/" +:+ m +:+ "_" +:+ q +:+ "/AD" in
  let nodes' := snd (set_output_prefix m q nodes) in
  fst (set_output_prefix m q nodes) = Ok tt /\
  (forall t, t ∈ [53; 205] ->
     (forall w, widgets_of nodes t = Some (VDict w) ->
        exists w',
          widgets_of nodes' t = Some (VDict w') /\
          dict_get w' (KStr "filename_prefix") = Some (VStr prefix) /\
          (forall k, k <> KStr "filename_prefix" -> dict_get w' k = dict_get w k) /\
          (forall k, k <> WIDGETS ->
             node_of nodes' t ≫= field k = node_of nodes t ≫= field k)) /\
     ((forall w, widgets_of nodes t <> Some (VDict w)) ->
        node_of nodes' t = node_of nodes t)) /\
  length nodes' = length nodes /\
  (forall j, find_node nodes 53 <> Ok j -> find_node nodes 205 <> Ok j ->
             nodes' !! j = nodes !! j).
Proof.
  intros Hp Hf prefix nodes'. subst prefix nodes'.
  rewrite <- output_prefix_eq. split; [|split; [|split]].
  - apply is_ok_find in Hp as [i1 H1]. apply is_ok_find in Hf as [i2 H2].
    destruct (found_is_dict _ _ _ H1) as [d1 L1].
    destruct (found_is_dict _ _ _ H2) as [d2 L2].
    by rewrite (set_output_prefix_run _ _ _ _ _ _ _ H1 H2 L1 L2).
  - intros t Ht.
    destruct (set_output_prefix_nodes m q nodes t Hp Hf Ht) as (d & Hn & Hn').
    unfold widgets_of. rewrite Hn, Hn'. split.
    + intros w Hw. simpl in Hw.
      destruct (with_prefix_mapping (output_prefix m q) d w Hw) as [Hwid Hrest].
      exists (dict_set w (KStr "filename_prefix") (VStr (output_prefix m q))).
      split; [exact Hwid|]. split; [apply dict_get_set_eq|]. split.
      * intros k Hk. by apply dict_get_set_ne.
      * intros k Hk. exact (Hrest k Hk).
    + intros Hw. by rewrite with_prefix_other.
  - apply is_ok_find in Hp as [i1 H1]. apply is_ok_find in Hf as [i2 H2].
    destruct (found_is_dict _ _ _ H1) as [d1 L1].
    destruct (found_is_dict _ _ _ H2) as [d2 L2].
    rewrite (set_output_prefix_run _ _ _ _ _ _ _ H1 H2 L1 L2). simpl.
    by rewrite !length_insert.
  - intros j Hj1 Hj2.
    apply is_ok_find in Hp as [i1 H1]. apply is_ok_find in Hf as [i2 H2].
    destruct (found_is_dict _ _ _ H1) as [d1 L1].
    destruct (found_is_dict _ _ _ H2) as [d2 L2].
    rewrite (set_output_prefix_run _ _ _ _ _ _ _ H1 H2 L1 L2). simpl.
    rewrite !list_lookup_insert_ne; [done | congruence | congruence].
Qed.

Lemma set_output_prefix_spec_witness :
  fst (set_output_prefix "zoom" "full" base_nodes) = Ok tt /\
  (exists w',
     widgets_of (snd (set_output_prefix "zoom" "full" base_nodes)) 53
       = Some (VDict w') /\
     dict_get w' (KStr "filename_prefix")
       = Some (VStr "%date:yyyy-MM-dd%/full/zoom_full/AD")) /\
  node_of (snd (set_output_prefix "zoom" "full" base_nodes)) 205
    = node_of base_nodes 205.
Proof.
  destruct (set_output_prefix_spec base_nodes "zoom" "full" eq_refl eq_refl)
    as (Hok & Hnodes & _ & _).
  split; [exact Hok|]. split.
  - destruct (Hnodes 53) as [Hmap _]; [compute_done|].
    destruct (Hmap [(KStr "filename_prefix", VStr "AD")] eq_refl)
      as (w' & Hw' & Hpre & _).
    exists w'. split; [exact Hw' | exact Hpre].
  - destruct (Hnodes 205) as [_ Hother]; [compute_done|].
    apply Hother. intros w Hw. vm_compute in Hw. discriminate Hw.
Defined.

(** ** Image slots *)

Lemma load_widgets_run image_path l :
  (nonempty ← py_bool;
   (if negb nonempty then py_extend [VStr ""; VStr "image"] else mret tt);;
   py_setitem (KInt 0) (VStr image_path);;
   n ← py_len;
   if (n =? 1)%nat then py_append (VStr "image") else mret tt) (VList l)
  = (Ok tt, VList (loaded image_path l)).
Proof. by destruct l as [|x [|y rest]]. Qed.

Lemma set_load_image_run nodes t image_path i d l :
  find_node nodes t = Ok i -> nodes !! i = Some (VDict d) ->
  dict_get d WIDGETS = None /\ l = [] \/ dict_get d WIDGETS = Some (VList l) ->
  set_load_image t image_path nodes =
    (Ok tt, <[i := VDict (dict_set d WIDGETS (VList (loaded image_path l)))]> nodes).
Proof.
  intros Hf Hl Hw. unfold set_load_image.
  rewrite (run_find _ _ _ _ Hf), at_index_bind, (at_index_run _ _ _ _ Hl).
  rewrite bind_run. simpl py_setdefault.
  destruct Hw as [[Hw ->]|Hw]; rewrite Hw; unfold at_key.
  - rewrite dict_get_set_eq, load_widgets_run. simpl. by rewrite dict_set_set.
  - by rewrite Hw, load_widgets_run.
Qed.

Lemma set_load_image_widgets nodes t image_path l :
  is_ok (find_node nodes t) = true ->
  widgets_of nodes t = None /\ l = [] \/ widgets_of nodes t = Some (VList l) ->
  fst (set_load_image t image_path nodes) = Ok tt /\
  widgets_of (snd (set_load_image t image_path nodes)) t
    = Some (VList (loaded image_path l)).
Proof.
  intros [i Hf]%is_ok_find Hw.
  destruct (found_is_dict _ _ _ Hf) as [d Hl].
  unfold widgets_of at 1 2 in Hw. unfold node_of in Hw. rewrite Hf, Hl in Hw.
  simpl in Hw. unfold widgets_of.
  rewrite (node_of_stable _ _ _ _ (set_load_image_stable t image_path) Hf).
  rewrite (set_load_image_run _ _ image_path _ _ l Hf Hl Hw). simpl.
  split; [done|].
  rewrite list_lookup_insert_eq by (by eapply lookup_lt_Some).
  simpl. apply dict_get_set_eq.
Qed.

(** C4. On a node that has no [widgets_values] field, and on a node whose
    [widgets_values] is the empty sequence, the image-slot setter with
    path [p] returns and leaves [widgets_values] equal to [[p, "image"]]. *)
Theorem set_load_image_fresh (nodes : list value) (node_id : Z) (p : string) :
  is_ok (find_node nodes node_id) = true ->
  widgets_of nodes node_id = None \/ widgets_of nodes node_id = Some (VList []) ->
  fst (set_load_image node_id p nodes) = Ok tt /\
  widgets_of (snd (set_load_image node_id p nodes)) node_id
    = Some (VList [VStr p; VStr "image"]).
Proof.
  intros Hf Hw. apply (set_load_image_widgets nodes node_id p []); [done|].
  destruct Hw; auto.
Qed.

Lemma set_load_image_fresh_witness :
  (fst (set_load_image 135 "s.png" base_nodes) = Ok tt /\
   widgets_of (snd (set_load_image 135 "s.png" base_nodes)) 135
     = Some (VList [VStr "s.png"; VStr "image"])) /\
  (fst (set_load_image 680 "e.png" base_nodes) = Ok tt /\
   widgets_of (snd (set_load_image 680 "e.png" base_nodes)) 680
     = Some (VList [VStr "e.png"; VStr "image"])).
Proof.
  split.
  - apply (set_load_image_fresh base_nodes 135 "s.png"); [reflexivity|].
    left. reflexivity.
  - apply (set_load_image_fresh base_nodes 680 "e.png"); [reflexivity|].
    right. reflexivity.
Defined.

(** C3, as the code has it.  On a node whose [widgets_values] is absent
    or a sequence, the image-slot setter with path [p] returns; an absent,
    empty or one-element [widgets_values] becomes [[p, "image"]], and a
    longer one gets [p] as its first element and keeps the others. *)
Theorem set_load_image_first_slot
    (nodes : list value) (node_id : Z) (p : string) (l : list value) :
  is_ok (find_node nodes node_id) = true ->
  widgets_of nodes node_id = None /\ l = [] \/
  widgets_of nodes node_id = Some (VList l) ->
  fst (set_load_image node_id p nodes) = Ok tt /\
  exists l',
    widgets_of (snd (set_load_image node_id p nodes)) node_id = Some (VList l') /\
    l' !! 0%nat = Some (VStr p) /\
    ((length l <= 1)%nat -> l' = [VStr p; VStr "image"]) /\
    ((2 <= length l)%nat -> l' = VStr p :: drop 1 l).
Proof.
  intros Hf Hw.
  destruct (set_load_image_widgets nodes node_id p l Hf Hw) as [Hok Hwid].
  split; [exact Hok|]. exists (loaded p l). split; [exact Hwid|].
  split; [done|]. destruct l as [|x [|y rest]]; simpl; split; intros; (done || lia).
Qed.

Lemma set_load_image_first_slot_witness :
  fst (set_load_image 142 "new.png" mask_loader) = Ok tt /\
  exists l',
    widgets_of (snd (set_load_image 142 "new.png" mask_loader)) 142
      = Some (VList l') /\
    l' !! 0%nat = Some (VStr "new.png") /\
    ((2 <= 1)%nat -> l' = [VStr "new.png"; VStr "image"]) /\
    ((2 <= 2)%nat -> l' = [VStr "new.png"; VStr "mask"]).
Proof.
  apply (set_load_image_first_slot mask_loader 142 "new.png"
           [VStr "old.png"; VStr "mask"]); [reflexivity|].
  right. reflexivity.
Defined.

(** C3 as stated fails: a loader whose widgets are [["old.png", "mask"]]
    keeps ["mask"] as its second widget. *)
Lemma set_load_image_keeps_second_widget :
  fst (set_load_image 142 "new.png" mask_loader) = Ok tt /\
  widgets_of (snd (set_load_image 142 "new.png" mask_loader)) 142
    = Some (VList [VStr "new.png"; VStr "mask"]) /\
  widgets_of (snd (set_load_image 142 "new.png" mask_loader)) 142
    <> Some (VList [VStr "new.png"; VStr "image"]).
Proof. repeat split. vm_compute. discriminate. Qed.

(** ** Computations that leave one node alone *)

Section Frame.

Context {A B : Type}.
Implicit Types (i j : nat) (t : Z).

Lemma frame_ret i t (a : A) : frame_at i t (mret a).
Proof. by intros nodes. Qed.

Lemma frame_raise i t e : frame_at i t (raise e : St (list value) A).
Proof. by intros nodes. Qed.

Lemma frame_at_index i j t (m : St value A) : j <> i -> frame_at i t (at_index j m).
Proof.
  intros Hne nodes _. unfold at_index.
  destruct (nodes !! j) as [v|]; [|done].
  destruct (m v) as [r v']. simpl. by rewrite list_lookup_insert_ne.
Qed.

Lemma frame_bind i t (m : St (list value) A) (k : A -> St (list value) B) :
  ids_stable m -> frame_at i t m -> (forall a, frame_at i t (k a)) ->
  frame_at i t (m ≫= k).
Proof.
  intros Hst Hm Hk nodes Hf. rewrite bind_run.
  specialize (Hm nodes Hf). pose proof (ids_stable_find m nodes t Hst) as Hf'.
  destruct (m nodes) as [[a|e] nodes']; simpl in *; [|done].
  rewrite Hk; [done | congruence].
Qed.

(** A lookup of another id yields another position. *)
Lemma frame_find i t t' (k : nat -> St (list value) B) :
  t' <> t -> (forall j, j <> i -> frame_at i t (k j)) ->
  frame_at i t (inspect (fun nodes => find_node nodes t') ≫= k).
Proof.
  intros Hne Hk nodes Hf. rewrite bind_run. unfold inspect.
  destruct (find_node nodes t') as [j|e] eqn:Hj; [|done].
  apply Hk; [|done]. intros ->. by pose proof (find_node_inj _ _ _ _ Hj Hf).
Qed.

End Frame.

(** Decompose a computation that looks up and changes other nodes. *)
Ltac frame :=
  repeat first
    [ progress intros
    | apply frame_find; [done|]
    | apply frame_bind; [solve [stable] | |]
    | apply frame_at_index; done
    | apply frame_ret | apply frame_raise ].

(** ** Motion settings: the motion-video node *)

Lemma video_widgets_run v w :
  video_post v w (snd (
    (py_setitem (KStr "video") (VStr v);;
     videopreview ← py_get (KStr "videopreview") VNone;
     if is_dict videopreview then
       at_key (KStr "videopreview") (py_setdefault (KStr "params") (VDict []));;
       at_key (KStr "videopreview") (at_key (KStr "params") (
         py_setitem (KStr "filename") (VStr v)))
     else mret tt) (VDict w))).
Proof.
  rewrite bind_run. simpl py_setitem. cbv beta iota.
  set (w1 := dict_set w (KStr "video") (VStr v)).
  assert (Hvideo : dict_get w1 (KStr "video") = Some (VStr v))
    by apply dict_get_set_eq.
  assert (Hsame : dict_get w1 (KStr "videopreview") = dict_get w (KStr "videopreview"))
    by (by apply dict_get_set_ne).
  rewrite bind_run. unfold py_get, inspect. cbv beta iota.
  destruct (dict_get w1 (KStr "videopreview")) as [x|] eqn:Hvp; simpl from_option.
  2: { exists w1. split; [reflexivity|]. split; [done|]. intros vp Hvp'. congruence. }
  destruct x as [| | | | | |vp]; simpl is_dict; cbv iota;
    try (exists w1; split; [reflexivity|]; split; [done|]; intros vp' Hvp';
         rewrite Hvp in Hvp'; discriminate Hvp').
  change (is_dict (default VNone (Some (VDict vp)))) with true. cbv iota.
  rewrite bind_run. unfold at_key at 1. rewrite Hvp. simpl py_setdefault.
  assert (Hparams : exists vp1 x,
            match dict_get vp (KStr "params") with
            | Some _ => (Ok tt, VDict vp)
            | None => (Ok tt, VDict (dict_set vp (KStr "params") (VDict [])))
            end = (Ok tt, VDict vp1) /\
            dict_get vp1 (KStr "params") = Some x /\
            (is_dict x = false -> dict_get vp (KStr "params") = Some x)).
  { destruct (dict_get vp (KStr "params")) as [x|] eqn:Hp.
    - by exists vp, x.
    - exists (dict_set vp (KStr "params") (VDict [])), (VDict []).
      split; [done|]. split; [apply dict_get_set_eq | done]. }
  destruct Hparams as (vp1 & x & -> & Hp & Hold). cbv beta iota.
  unfold at_key. rewrite dict_get_set_eq, Hp.
  assert (Hset : exists x',
            py_setitem (KStr "filename") (VStr v) x
              = (fst (py_setitem (KStr "filename") (VStr v) x), x') /\
            ((exists ps, x' = VDict ps /\
                         dict_get ps (KStr "filename") = Some (VStr v)) \/
             (x' = x /\ is_dict x = false))).
  { destruct x; simpl; eexists; (split; [reflexivity|]); try (by right).
    left. eexists. split; [reflexivity | apply dict_get_set_eq]. }
  destruct Hset as (x' & -> & Hfile). cbv beta iota. simpl snd.
  rewrite dict_set_set.
  eexists. split; [reflexivity|]. split.
  - by rewrite dict_get_set_ne.
  - intros vp'. rewrite dict_get_set_eq. intros [= <-].
    rewrite dict_get_set_eq.
    destruct Hfile as [(ps & -> & Hps)|[-> Hnd]]; [left; eauto|].
    right. exists x. split; [done|]. split; [done|].
    simpl. rewrite <- Hsame. simpl. by apply Hold.
Qed.

(** A computation on the node of id [t], followed by computations on
    other nodes: the node ends as the first computation leaves it. *)
Lemma frame_after {A B} i t (m : St value A) (k : A -> St (list value) B) nodes v :
  find_node nodes t = Ok i -> nodes !! i = Some v -> keeps_id m ->
  (forall a, frame_at i t (k a)) ->
  snd ((at_index i m ≫= k) nodes) !! i = Some (snd (m v)).
Proof.
  intros Hf Hl Hm Hk. rewrite bind_run, (at_index_run _ _ _ _ Hl).
  pose proof (Hm v) as Hid. apply lookup_lt_Some in Hl as Hlt.
  destruct (m v) as [[a|e] v']; simpl in *.
  - rewrite Hk; [by rewrite list_lookup_insert_eq|].
    rewrite <- Hf. apply find_node_ext. by eapply id_view_insert.
  - by rewrite list_lookup_insert_eq.
Qed.

Lemma set_motion_settings_video nodes motion override_video p :
  lookup_preset MOTION_PRESETS motion = Some p ->
  is_ok (find_node nodes MOTION_VIDEO_NODE_ID) = true ->
  widgets_of nodes MOTION_VIDEO_NODE_ID = None \/
    (exists w, widgets_of nodes MOTION_VIDEO_NODE_ID = Some (VDict w)) ->
  exists w',
    widgets_of (snd (set_motion_settings motion override_video nodes))
      MOTION_VIDEO_NODE_ID = Some w' /\
    video_post (resolved_video p override_video)
      (match widgets_of nodes MOTION_VIDEO_NODE_ID with
       | Some (VDict w) => w
       | _ => []
       end) w'.
Proof.
  intros Hp [i Hf]%is_ok_find Hw.
  destruct (found_is_dict _ _ _ Hf) as [d Hl].
  assert (Hwid : widgets_of nodes MOTION_VIDEO_NODE_ID = dict_get d WIDGETS).
  { unfold widgets_of, node_of. by rewrite Hf, Hl. }
  rewrite Hwid in Hw |- *. clear Hwid.
  unfold widgets_of.
  rewrite (node_of_stable _ _ _ _
             (set_motion_settings_stable motion override_video) Hf).
  unfold set_motion_settings. rewrite Hp, (run_find _ _ _ _ Hf).
  assert (Hdefault : exists d1,
            py_setdefault WIDGETS (VDict []) (VDict d) = (Ok tt, VDict d1) /\
            dict_get d1 WIDGETS =
              Some (VDict match dict_get d WIDGETS with
                          | Some (VDict w) => w
                          | _ => []
                          end) /\
            dict_get d1 (KStr "id") = dict_get d (KStr "id")).
  { simpl. destruct Hw as [Hw|[w Hw]]; rewrite Hw.
    - exists (dict_set d WIDGETS (VDict [])). split; [done|].
      split; [apply dict_get_set_eq | by apply dict_get_set_ne].
    - by exists d. }
  destruct Hdefault as (d1 & Hrun & Hw0 & Hid).
  rewrite (run_at_index _ _ _ _ _ _ _ Hl Hrun).
  assert (Hv : (match override_video with
                | Some o => if truthy (VStr o) then o else video p
                | None => video p
                end) = resolved_video p override_video).
  { unfold resolved_video. destruct override_video as [o|]; [|done].
    simpl. by destruct (String.eqb o ""). }
  rewrite Hv. cbv zeta. apply lookup_lt_Some in Hl as Hlt.
  erewrite frame_after; cycle 1.
  - rewrite <- Hf. apply find_node_ext.
    eapply id_view_insert; [exact Hl|]. simpl. by rewrite Hid.
  - by rewrite list_lookup_insert_eq.
  - by apply keeps_id_at_key.
  - frame.
  - unfold at_key. rewrite Hw0.
    match goal with |- context [let (_, _) := ?m (VDict ?w0) in _] =>
      exists (snd (m (VDict w0))); split;
      [destruct (m (VDict w0)); simpl; by rewrite dict_get_set_eq|]
    end.
    apply video_widgets_run.
Qed.

(** ** Motion settings: the controlnet-apply node *)

Lemma bind_inv {S A B} (m : St S A) (k : A -> St S B) s b s'' :
  (m ≫= k) s = (Ok b, s'') ->
  exists a s', m s = (Ok a, s') /\ k a s' = (Ok b, s'').
Proof.
  rewrite bind_run. destruct (m s) as [[a|e] s']; [eauto | done].
Qed.

Lemma at_index_inv {A} i (m : St value A) nodes a nodes' :
  at_index i m nodes = (Ok a, nodes') ->
  exists v v', nodes !! i = Some v /\ m v = (Ok a, v') /\ nodes' = <[i:=v']> nodes.
Proof.
  unfold at_index. destruct (nodes !! i) as [v|]; [|done].
  destruct (m v) as [r v'] eqn:Hm. intros [= -> <-]. eauto.
Qed.

Lemma py_setitem_list (i : nat) x l :
  (i < length l)%nat ->
  py_setitem (KInt (Z.of_nat i)) x (VList l) = (Ok tt, VList (<[i:=x]> l)).
Proof.
  intros Hi. simpl.
  destruct (Z.ltb_spec (Z.of_nat i) 0) as [?|_]; [lia|].
  destruct (Z.leb_spec 0 (Z.of_nat i)) as [_|?]; [|lia].
  destruct (Z.ltb_spec (Z.of_nat i) (Z.of_nat (length l))) as [_|?]; [|lia].
  simpl. by rewrite Nat2Z.id.
Qed.

Lemma controlnet_widgets_run p l :
  l <> [] ->
  (py_setitem (KInt 0) (VFloat (controlnet_strength p));;
   n ← py_len;
   (if (n <? 3)%nat then pad_loop 3 else mret tt);;
   py_setitem (KInt 2) (VFloat (controlnet_end p))) (VList l)
  = (Ok tt, VList (controlnet_widgets p l)).
Proof.
  intros Hl. destruct l as [|a [|b [|c rest]]]; [done | done | done |].
  unfold controlnet_widgets.
  rewrite bind_run.
  rewrite (py_setitem_list 0 _ (a :: b :: c :: rest)) by (simpl; lia).
  cbv beta iota. rewrite bind_run. unfold py_len, inspect. cbv beta iota.
  rewrite bind_run, length_insert.
  change (length (a :: b :: c :: rest) <? 3)%nat with false. cbv beta iota.
  unfold mret, St_ret. cbv beta iota.
  change (KInt 2) with (KInt (Z.of_nat 2)).
  rewrite py_setitem_list by (simpl; lia).
  simpl. by rewrite app_nil_r.
Qed.

Lemma controlnet_widgets_items p l :
  l <> [] ->
  controlnet_widgets p l !! 0%nat = Some (VFloat (controlnet_strength p)) /\
  controlnet_widgets p l !! 1%nat = Some (default (VInt 0) (l !! 1%nat)) /\
  controlnet_widgets p l !! 2%nat = Some (VFloat (controlnet_end p)) /\
  length (controlnet_widgets p l) = Nat.max 3 (length l) /\
  forall j, (3 <= j)%nat -> controlnet_widgets p l !! j = l !! j.
Proof.
  intros Hl. destruct l as [|a [|b [|c rest]]]; [done|..]; unfold controlnet_widgets;
    simpl; repeat split; try done.
  - by intros [|[|[|j]]] Hj; try lia.
  - by intros [|[|[|j]]] Hj; try lia.
  - by rewrite app_nil_r.
  - intros [|[|[|j]]] Hj; try lia. simpl. by rewrite app_nil_r.
Qed.

Lemma at_index_view {A} j (m : St value A) nodes r nodes' t :
  at_index j m nodes = (r, nodes') -> keeps_id m ->
  find_node nodes' t = find_node nodes t.
Proof.
  intros Hrun Hm. apply find_node_ext.
  pose proof (ids_stable_at_index j m Hm nodes) as H. by rewrite Hrun in H.
Qed.

Lemma at_index_other {A} i j (m : St value A) nodes r nodes' :
  at_index j m nodes = (r, nodes') -> j <> i -> nodes' !! i = nodes !! i.
Proof.
  intros Hrun Hne. unfold at_index in Hrun.
  destruct (nodes !! j) as [v|]; [|by injection Hrun as _ <-].
  destruct (m v) as [r' v']. injection Hrun as _ <-.
  by rewrite list_lookup_insert_ne.
Qed.

(** When the setter returns, the controlnet-apply node had a non-empty
    widget list (the default one if it had none), and has the widgets that
    the controlnet step makes of it. *)
Lemma set_motion_settings_controlnet nodes motion override_video p l nodes' :
  lookup_preset MOTION_PRESETS motion = Some p ->
  set_motion_settings motion override_video nodes = (Ok tt, nodes') ->
  widgets_of nodes CONTROLNET_APPLY_NODE_ID = None /\
    l = [VFloat 0.45; VInt 0; VFloat 0.35] \/
  widgets_of nodes CONTROLNET_APPLY_NODE_ID = Some (VList l) ->
  l <> [] /\
  widgets_of nodes' CONTROLNET_APPLY_NODE_ID = Some (VList (controlnet_widgets p l)).
Proof.
  intros Hp Hrun Hw.
  pose proof (ids_stable_find _ nodes CONTROLNET_APPLY_NODE_ID
                (set_motion_settings_stable motion override_video)) as Hstable.
  rewrite Hrun in Hstable. simpl in Hstable.
  unfold set_motion_settings in Hrun. rewrite Hp in Hrun.
  apply bind_inv in Hrun as (iv & s0 & Hfv & Hrun).
  unfold inspect in Hfv. injection Hfv as Hfv <-.
  apply bind_inv in Hrun as ([] & s1 & HA1 & Hrun).
  apply bind_inv in Hrun as ([] & s2 & HA2 & Hrun).
  apply bind_inv in Hrun as (ic & s2' & Hfc & Hrun).
  unfold inspect in Hfc. injection Hfc as Hfc <-.
  apply bind_inv in Hrun as ([] & s3 & HB1 & Hrun).
  apply bind_inv in Hrun as ([] & s4 & HB2 & Hrun).
  apply bind_inv in Hrun as (im & s4' & Hfm & Hrun).
  unfold inspect in Hfm. injection Hfm as Hfm <-.
  apply bind_inv in Hrun as ([] & s5 & HC1 & HC2).
  (* the controlnet-apply node is where it was, and as it was, after the
     video step *)
  assert (Hfc0 : find_node nodes CONTROLNET_APPLY_NODE_ID = Ok ic).
  { rewrite <- Hfc.
    rewrite (at_index_view _ _ _ _ _ _ HA2) by (by apply keeps_id_at_key).
    by rewrite (at_index_view _ _ _ _ _ _ HA1) by (by apply keeps_id_setdefault). }
  assert (iv <> ic) by (intros ->; by pose proof (find_node_inj _ _ _ _ Hfv Hfc0)).
  destruct (found_is_dict _ _ _ Hfc0) as [d Hl].
  assert (Hl2 : s2 !! ic = Some (VDict d)).
  { by rewrite (at_index_other _ _ _ _ _ _ HA2), (at_index_other _ _ _ _ _ _ HA1). }
  assert (Hwid : widgets_of nodes CONTROLNET_APPLY_NODE_ID = dict_get d WIDGETS).
  { unfold widgets_of, node_of. by rewrite Hfc0, Hl. }
  rewrite Hwid in Hw. clear Hwid.
  (* the controlnet step *)
  apply at_index_inv in HB1 as (v & v1 & Hv & HB1 & ->).
  rewrite Hl2 in Hv. injection Hv as <-.
  assert (Hd1 : exists d1, v1 = VDict d1 /\ dict_get d1 WIDGETS = Some (VList l)).
  { simpl in HB1. destruct Hw as [[Hw ->]|Hw]; rewrite Hw in HB1;
      injection HB1 as <-; eexists; (split; [reflexivity|]);
      [apply dict_get_set_eq | done]. }
  destruct Hd1 as (d1 & -> & Hw1).
  apply lookup_lt_Some in Hl2 as Hlt.
  apply at_index_inv in HB2 as (v & v2 & Hv & HB2 & ->).
  rewrite list_lookup_insert_eq in Hv by done. injection Hv as <-.
  unfold at_key in HB2. rewrite Hw1 in HB2.
  assert (Hne : l <> []).
  { intros ->. by vm_compute in HB2. }
  rewrite (controlnet_widgets_run p l Hne) in HB2. injection HB2 as <-.
  split; [exact Hne|].
  (* the motion-scale step leaves the node alone *)
  assert (Hfc4 : find_node
            (<[ic:=VDict (dict_set d1 WIDGETS (VList (controlnet_widgets p l)))]>
               (<[ic:=VDict d1]> s2)) CONTROLNET_APPLY_NODE_ID = Ok ic).
  { rewrite <- Hfc. apply find_node_ext.
    change (map id_view) with (fmap (M:=list) id_view).
    rewrite !list_fmap_insert, list_insert_insert_eq. simpl.
    rewrite dict_get_set_ne by done.
    assert (Hid : dict_get d1 (KStr "id") = dict_get d (KStr "id")).
    { simpl in HB1. destruct (dict_get d WIDGETS); injection HB1 as <-;
        [done | by apply dict_get_set_ne]. }
    rewrite Hid. apply list_insert_id. by rewrite list_lookup_fmap, Hl2. }
  assert (im <> ic) by (intros ->; by pose proof (find_node_inj _ _ _ _ Hfm Hfc4)).
  unfold widgets_of, node_of. rewrite Hstable, Hfc0.
  rewrite (at_index_other _ _ _ _ _ _ HC2), (at_index_other _ _ _ _ _ _ HC1) by done.
  rewrite list_lookup_insert_eq by (by rewrite length_insert).
  simpl. apply dict_get_set_eq.
Qed.


(** C10 fails on the code: with an empty widget list on the
    controlnet-apply node, the setter writes index 0 before it pads the
    list, and raises [IndexError]; the list stays empty. *)
Theorem set_motion_settings_empty_controlnet :
  fst (set_motion_settings "zoom" None empty_controlnet) = Raise IndexError /\
  widgets_of (snd (set_motion_settings "zoom" None empty_controlnet)) 125
    = Some (VList []).
Proof. split; reflexivity. Qed.

(** ** The loops of the model end before their bound *)

Lemma pad_loop_list fuel l :
  (3 <= fuel + length l)%nat ->
  pad_loop fuel (VList l) = (Ok tt, VList (l ++ replicate (3 - length l) (VInt 0))).
Proof.
  revert l. induction fuel as [|fuel IH]; intros l Hlen.
  - simpl. rewrite bind_run. unfold py_len, inspect. cbv beta iota.
    destruct (Nat.ltb_spec (length l) 3) as [?|Hge]; [lia|].
    replace (3 - length l)%nat with 0%nat by lia. simpl. by rewrite app_nil_r.
  - simpl. rewrite bind_run. unfold py_len, inspect. cbv beta iota.
    destruct (Nat.ltb_spec (length l) 3) as [Hlt|Hge].
    + rewrite bind_run. simpl py_append. cbv beta iota.
      rewrite IH by (rewrite length_app; simpl; lia).
      rewrite length_app. simpl length.
      replace (3 - length l)%nat with (S (3 - (length l + 1))) by lia.
      simpl. by rewrite <- app_assoc.
    + replace (3 - length l)%nat with 0%nat by lia. simpl. by rewrite app_nil_r.
Qed.

Lemma pad_loop_fuel_free fuel : (3 <= fuel)%nat -> fuel_free (pad_loop fuel).
Proof.
  intros Hfuel v. destruct v as [| | | | | l | d]; try (by destruct fuel).
  - destruct fuel as [|fuel]; [lia|]. simpl. rewrite bind_run.
    unfold py_len, inspect. cbv beta iota. by destruct (_ <? _)%nat.
  - by rewrite pad_loop_list by lia.
  - destruct fuel as [|fuel]; [lia|]. simpl. rewrite bind_run.
    unfold py_len, inspect. cbv beta iota. by destruct (_ <? _)%nat.
Qed.

Lemma find_node_fuel_free nodes t : find_node nodes t <> Raise OutOfFuel.
Proof.
  induction nodes as [|v nodes IH]; [done|].
  destruct v; try done. rewrite find_node_cons_dict.
  destruct (has_id t _); [done|]. by destruct (find_node nodes t).
Qed.

Section FuelFree.

Context {S A B : Type}.

Lemma fuel_free_ret (a : A) : fuel_free (mret a : St S A).
Proof. by intros s. Qed.

Lemma fuel_free_bind (m : St S A) (k : A -> St S B) :
  fuel_free m -> (forall a, fuel_free (k a)) -> fuel_free (m ≫= k).
Proof.
  intros Hm Hk s. rewrite bind_run. specialize (Hm s).
  destruct (m s) as [[a|e] s']; simpl in *; [apply Hk|].
  intros [= ->]. by apply Hm.
Qed.

End FuelFree.

Lemma fuel_free_find {B} t (k : nat -> St (list value) B) :
  (forall i, fuel_free (k i)) ->
  fuel_free (inspect (fun nodes => find_node nodes t) ≫= k).
Proof.
  intros Hk. apply fuel_free_bind; [|exact Hk].
  intros nodes. apply find_node_fuel_free.
Qed.

Lemma fuel_free_at_index {A} i (m : St value A) : fuel_free m -> fuel_free (at_index i m).
Proof.
  intros Hm nodes. unfold at_index. destruct (nodes !! i) as [v|]; [|done].
  specialize (Hm v). by destruct (m v).
Qed.

Lemma fuel_free_at_key {A} k (m : St value A) : fuel_free m -> fuel_free (at_key k m).
Proof.
  intros Hm [| | | | | |d]; try done. simpl.
  destruct (dict_get d k) as [v|]; [|done].
  specialize (Hm v). by destruct (m v).
Qed.

Lemma fuel_free_for_each {S A} (xs : list A) (body : A -> St S unit) :
  (forall x, fuel_free (body x)) -> fuel_free (for_each xs body).
Proof.
  intros Hb. induction xs as [|x xs IH]; simpl.
  - apply fuel_free_ret.
  - apply fuel_free_bind; [apply Hb | intros _; exact IH].
Qed.

Lemma fuel_free_prim :
  (forall k x, fuel_free (py_get k x)) /\
  (forall k x, fuel_free (py_setdefault k x)) /\
  (forall k x, fuel_free (py_setitem k x)) /\
  fuel_free py_len /\ fuel_free py_bool /\
  (forall x, fuel_free (py_append x)) /\
  (forall xs, fuel_free (py_extend xs)) /\
  (forall k, fuel_free (py_contains k)).
Proof.
  repeat split; intros; intros [| | | | |l|d]; simpl; try done.
  - by destruct (dict_get d k).
  - destruct k; [done|]. by case_match.
Qed.

(** Decompose a computation down to the Python operations. *)
Ltac fuel :=
  repeat first
    [ progress intros
    | apply pad_loop_fuel_free; lia
    | apply fuel_free_find
    | apply fuel_free_bind
    | apply fuel_free_for_each
    | apply fuel_free_at_index
    | apply fuel_free_at_key
    | apply fuel_free_ret
    | apply fuel_free_prim
    | match goal with
      | |- fuel_free (if ?b then _ else _) => destruct b
      | |- fuel_free (match ?o with _ => _ end) => destruct o
      | |- fuel_free (raise _) => by intros ?
      end ].

(** Every exception of the build is a Python exception. *)
Lemma patch_nodes_fuel_free start_image end_image motion quality motion_video :
  fuel_free (patch_nodes start_image end_image motion quality motion_video).
Proof.
  unfold patch_nodes, set_load_image, set_motion_settings, set_quality,
    set_output_prefix.
  fuel.
Qed.

(** * Further properties of the code *)

(** ** The ids and the number of nodes *)

Lemma patch_nodes_stable start_image end_image motion quality motion_video :
  ids_stable (patch_nodes start_image end_image motion quality motion_video).
Proof.
  unfold patch_nodes.
  do 2 (apply ids_stable_bind;
        [apply ids_stable_for_each; intros; apply set_load_image_stable | intros _]).
  apply ids_stable_bind; [apply set_motion_settings_stable | intros _].
  apply ids_stable_bind; [apply set_quality_stable | intros _].
  apply set_output_prefix_stable.
Qed.

Lemma id_view_field v : field (KStr "id") v = default None (id_view v).
Proof. by destruct v. Qed.

(** X1. The mutations of [build_workflow], whether they all run or one of
    them raises, leave the number of nodes, the ["id"] of every node and
    so the result of every node lookup as they were. *)
Theorem patch_nodes_keeps_ids
    (start_image end_image motion quality : string) (motion_video : option string)
    (nodes : list value) :
  let nodes' :=
    snd (patch_nodes start_image end_image motion quality motion_video nodes) in
  length nodes' = length nodes /\
  (forall j, (nodes' !! j ≫= field (KStr "id")) = (nodes !! j ≫= field (KStr "id"))) /\
  (forall j, (is_dict <$> nodes' !! j) = (is_dict <$> nodes !! j)) /\
  (forall t, find_node nodes' t = find_node nodes t).
Proof.
  intros nodes'.
  pose proof (patch_nodes_stable start_image end_image motion quality motion_video
                nodes) as Hview.
  fold nodes' in Hview.
  assert (Hj : forall j, (id_view <$> nodes' !! j) = (id_view <$> nodes !! j)).
  { intros j. rewrite <- !list_lookup_fmap.
    change (fmap (M:=list) id_view) with (map id_view). by rewrite Hview. }
  split; [|split; [|split]].
  - by rewrite <- (length_map id_view), Hview, length_map.
  - intros j. specialize (Hj j).
    destruct (nodes' !! j) as [v'|], (nodes !! j) as [v|]; try done.
    simpl in *. injection Hj as Hj. by rewrite !id_view_field, Hj.
  - intros j. specialize (Hj j).
    destruct (nodes' !! j) as [v'|], (nodes !! j) as [v|]; try done.
    simpl in *. injection Hj as Hj. by destruct v', v.
  - intros t. by apply find_node_ext.
Qed.

(** ** The run: what is written, and when *)

Lemma choice_elem choices flag s :
  choice choices flag = Ok tt -> last flag = Some s -> s ∈ choices.
Proof.
  unfold choice. destruct (forallb _ flag) eqn:Hall; [|done]. intros _ Hlast.
  rewrite forallb_forall in Hall.
  assert (Hin : In s flag).
  { apply list_elem_of_In, list_elem_of_lookup. exists (pred (length flag)).
    by rewrite <- last_lookup. }
  by apply Hall, bool_decide_eq_true in Hin.
Qed.

Lemma choice_default choices flag d :
  choice choices flag = Ok tt -> d ∈ choices -> default d (last flag) ∈ choices.
Proof.
  intros Hc Hd. destruct (last flag) as [s|] eqn:Hlast; [|done].
  by eapply choice_elem.
Qed.

(** X3. The arguments that [parse_args] accepts come from a command line
    of options only, with nothing printed; they carry the last value given
    to each required option, a motion that has a preset in the table, a
    quality that is ["sample"] (also when the option is left out) or
    ["full"], and the base workflow ["4I2V Flow"] when that option is left
    out. *)
Theorem parse_args_accepted (a : argv) (w : world) (args : namespace) :
  fst (parse_args a w) = Ok args ->
  snd (parse_args a w) = w /\
  exists f,
    a = Options f /\
    last (flag_start_image f) = Some (start_image args) /\
    last (flag_end_image f) = Some (end_image args) /\
    last (flag_output f) = Some (output args) /\
    last (flag_motion f) = Some (motion args) /\
    (exists p, lookup_preset MOTION_PRESETS (motion args) = Some p) /\
    quality args = default "sample" (last (flag_quality f)) /\
    (quality args = "sample" \/ quality args = "full") /\
    base_workflow args = default "4I2V Flow" (last (flag_base_workflow f)) /\
    motion_video args = last (flag_motion_video f).
Proof.
  intros Hok. destruct (parse_args_returns a w args Hok) as [Hrun [f ->]].
  rewrite Hrun. split; [done|]. exists f. split; [done|].
  clear Hok. unfold parse_args in Hrun. rewrite bind_run in Hrun.
  unfold inspect, read_choices, required in Hrun.
  destruct (choice _ (flag_motion f)) as [[]|] eqn:Hmo; [|done].
  destruct (choice _ (flag_quality f)) as [[]|] eqn:Hqu; [|done].
  destruct (last (flag_start_image f)) as [si|]; [|done].
  destruct (last (flag_end_image f)) as [ei|]; [|done].
  destruct (last (flag_motion f)) as [mo|] eqn:Hlast; [|done].
  destruct (last (flag_output f)) as [out|]; [|done].
  injection Hrun as <-.
  cbn [start_image end_image output motion quality base_workflow motion_video].
  repeat split; try done.
  - apply lookup_preset_Some. by eapply choice_elem.
  - assert (Hin : default "sample" (last (flag_quality f)) ∈ ["sample"; "full"]).
    { apply choice_default; [done | set_solver]. }
    rewrite !elem_of_cons in Hin.
    destruct Hin as [?|[?|?%not_elem_of_nil]]; auto. done.
Qed.

Lemma parse_args_accepted_witness :
  snd (parse_args zoom_full (world_of base_doc)) = world_of base_doc /\
  exists f,
    zoom_full = Options f /\
    last (flag_start_image f) = Some (start_image zoom_full_args) /\
    last (flag_end_image f) = Some (end_image zoom_full_args) /\
    last (flag_output f) = Some (output zoom_full_args) /\
    last (flag_motion f) = Some (motion zoom_full_args) /\
    (exists p, lookup_preset MOTION_PRESETS (motion zoom_full_args) = Some p) /\
    quality zoom_full_args = default "sample" (last (flag_quality f)) /\
    (quality zoom_full_args = "sample" \/ quality zoom_full_args = "full") /\
    base_workflow zoom_full_args = default "4I2V Flow" (last (flag_base_workflow f)) /\
    motion_video zoom_full_args = last (flag_motion_video f).
Proof. apply parse_args_accepted. reflexivity. Defined.

(** ** The shape of the documents that can be built *)

Lemma find_node_no_dict nodes t :
  Forall (fun v => is_dict v = false) nodes -> is_ok (find_node nodes t) = false.
Proof. intros [|v l Hv _]; [done|]. by destruct v. Qed.

Lemma build_workflow_inv
    (fs : gmap string file) (path si ei mo qu : string) (mv : option string)
    (out : value) :
  build_workflow fs path si ei mo qu mv = Ok out ->
  exists d nodes nodes',
    read_json fs path = Ok (VDict d) /\
    dict_get d (KStr "nodes") = Some (VList nodes) /\
    patch_nodes si ei mo qu mv nodes = (Ok tt, nodes') /\
    field (KStr "nodes") out = Some (VList nodes') /\
    length nodes' = length nodes.
Proof.
  unfold build_workflow. destruct (read_json fs path) as [data|e]; [|done].
  destruct data as [| | | | | |d]; try done.
  unfold at_key. destruct (dict_get d (KStr "nodes")) as [nodes|] eqn:Hn; [|done].
  assert (Hreq : 142 ∈ REQUIRED_IDS) by compute_done.
  pose proof (patch_nodes_needs si ei mo qu mv 142 Hreq) as Hneeds.
  destruct nodes as [| | | | s |nodes|d0]; try done; unfold at_items.
  - (* a string: its characters are no nodes *)
    specialize (Hneeds (chars s)).
    destruct (patch_nodes si ei mo qu mv (chars s)) as [[u|e] l']; simpl; [|done].
    rewrite find_node_no_dict in Hneeds; [by specialize (Hneeds eq_refl)|].
    clear. induction s; by constructor.
  - destruct (patch_nodes si ei mo qu mv nodes) as [[[]|e] nodes'] eqn:Hrun; [|done].
    intros [= <-]. exists d, nodes, nodes'. repeat split; try done.
    + simpl. apply dict_get_set_eq.
    + pose proof (patch_nodes_stable si ei mo qu mv nodes) as Hview.
      rewrite Hrun in Hview. simpl in Hview.
      by rewrite <- (length_map id_view), Hview, length_map.
  - (* a mapping: its keys are no nodes *)
    specialize (Hneeds (map (fun kv => key_value (fst kv)) d0)).
    destruct (patch_nodes si ei mo qu mv _) as [[u|e] l']; simpl; [|done].
    rewrite find_node_no_dict in Hneeds; [by specialize (Hneeds eq_refl)|].
    clear. induction d0 as [|[[] ?] ? ?]; by constructor.
Qed.

(** X4. When the build returns a document, the input file holds a mapping
    whose ["nodes"] is a list (not a mapping or a string, though those can
    be iterated too), and the output document holds under ["nodes"] the
    list that the mutations leave, with as many nodes. *)
Theorem build_workflow_nodes_list
    (fs : gmap string file) (path si ei mo qu : string) (mv : option string)
    (out : value) :
  build_workflow fs path si ei mo qu mv = Ok out ->
  exists d nodes nodes',
    read_json fs path = Ok (VDict d) /\
    dict_get d (KStr "nodes") = Some (VList nodes) /\
    patch_nodes si ei mo qu mv nodes = (Ok tt, nodes') /\
    field (KStr "nodes") out = Some (VList nodes') /\
    length nodes' = length nodes.
Proof. apply build_workflow_inv. Qed.

Lemma build_workflow_nodes_list_witness :
  exists d nodes nodes',
    read_json {[ BASE_WORKFLOW := Dumps base_doc ]} BASE_WORKFLOW = Ok (VDict d) /\
    dict_get d (KStr "nodes") = Some (VList nodes) /\
    patch_nodes "s.png" "e.png" "zoom" "full" None nodes = (Ok tt, nodes') /\
    field (KStr "nodes") built_doc = Some (VList nodes') /\
    length nodes' = length nodes.
Proof.
  apply (build_workflow_nodes_list _ BASE_WORKFLOW "s.png" "e.png" "zoom" "full"
           None built_doc).
  vm_compute. reflexivity.
Defined.

(** ** What a computation establishes and what it keeps *)

Section Ensures.

Context {A B : Type}.
Implicit Types (t : Z) (Q : value -> Prop).

Lemma keeps_of_frame t Q (m : St (list value) A) :
  ids_stable m -> (forall i, frame_at i t m) -> keeps t Q m.
Proof.
  intros Hst Hfr nodes v Hv HQ. exists v. split; [|done].
  unfold node_of in *. rewrite (ids_stable_find m nodes t Hst).
  destruct (find_node nodes t) as [i|] eqn:Hf; [|done].
  by rewrite (Hfr i nodes Hf).
Qed.

Lemma keeps_ret t Q (a : A) : keeps t Q (mret a).
Proof. intros nodes v Hv HQ. by exists v. Qed.

Lemma keeps_bind t Q (m : St (list value) A) (k : A -> St (list value) B) :
  keeps t Q m -> (forall a, keeps t Q (k a)) -> keeps t Q (m ≫= k).
Proof.
  intros Hm Hk nodes v Hv HQ. rewrite bind_run.
  destruct (Hm nodes v Hv HQ) as (v' & Hv' & HQ').
  destruct (m nodes) as [[a|e] nodes']; simpl in *; [|by exists v'].
  by apply (Hk a nodes' v').
Qed.

Lemma ensures_bind_l t Q (m : St (list value) A) (k : A -> St (list value) B) :
  ensures t Q m -> (forall a, keeps t Q (k a)) -> ensures t Q (m ≫= k).
Proof.
  intros Hm Hk nodes b nodes' Hrun.
  apply bind_inv in Hrun as (a & s & Hrun & Hrest).
  destruct (Hm nodes a s Hrun) as (v & Hv & HQ).
  destruct (Hk a s v Hv HQ) as (v' & Hv' & HQ').
  rewrite Hrest in Hv'. by exists v'.
Qed.

Lemma ensures_bind_r t Q (m : St (list value) A) (k : A -> St (list value) B) :
  (forall a, ensures t Q (k a)) -> ensures t Q (m ≫= k).
Proof.
  intros Hk nodes b nodes' Hrun.
  apply bind_inv in Hrun as (a & s & _ & Hrest). by apply (Hk a s b).
Qed.

End Ensures.

Lemma keeps_for_each {A} t Q (xs : list A) (body : A -> St (list value) unit) :
  (forall x, keeps t Q (body x)) -> keeps t Q (for_each xs body).
Proof.
  intros Hb. induction xs as [|x xs IH]; simpl.
  - apply keeps_ret.
  - apply keeps_bind; [apply Hb | intros _; exact IH].
Qed.

Lemma ensures_for_each {A} t Q (xs : list A) (body : A -> St (list value) unit) x :
  x ∈ xs -> ensures t Q (body x) -> (forall y, keeps t Q (body y)) ->
  ensures t Q (for_each xs body).
Proof.
  intros Hx Hb Hk. induction xs as [|y xs IH]; [by apply not_elem_of_nil in Hx|].
  simpl. apply elem_of_cons in Hx as [<-|Hx].
  - apply ensures_bind_l; [exact Hb | intros _; by apply keeps_for_each].
  - apply ensures_bind_r. intros _. by apply IH.
Qed.

(** A computation on the node found for [t]: when it returns, the node of
    id [t] is what the computation made of it. *)
Lemma at_found_inv {A} t (m : St value A) nodes i a nodes' :
  find_node nodes t = Ok i -> keeps_id m ->
  at_index i m nodes = (Ok a, nodes') ->
  exists v v', nodes !! i = Some v /\ m v = (Ok a, v') /\
               find_node nodes' t = Ok i /\ nodes' !! i = Some v'.
Proof.
  intros Hf Hm Hrun.
  pose proof (at_index_view _ _ _ _ _ t Hrun Hm) as Hview.
  apply at_index_inv in Hrun as (v & v' & Hv & Hrun & ->).
  exists v, v'. repeat split; try done; [congruence|].
  apply list_lookup_insert_eq. by eapply lookup_lt_Some.
Qed.

(** ** Setters and the nodes they do not look up *)

Ltac frame_ne :=
  repeat first
    [ progress intros
    | apply frame_find; [first [done | congruence]|]
    | apply frame_bind; [solve [stable] | |]
    | apply frame_at_index; first [done | congruence]
    | apply frame_ret | apply frame_raise ].

Lemma frame_for_each {A} i t (xs : list A) (body : A -> St (list value) unit) :
  (forall x, ids_stable (body x)) -> (forall x, x ∈ xs -> frame_at i t (body x)) ->
  frame_at i t (for_each xs body).
Proof.
  intros Hst Hb. induction xs as [|x xs IH]; simpl.
  - apply frame_ret.
  - apply frame_bind; [apply Hst | apply Hb; left | intros _].
    apply IH. intros y Hy. apply Hb. by right.
Qed.

Lemma set_load_image_frame i t node_id image_path :
  t <> node_id -> frame_at i t (set_load_image node_id image_path).
Proof. intros Hne. unfold set_load_image. frame_ne. Qed.

Lemma set_motion_settings_frame i t motion override_video :
  t ∉ [MOTION_VIDEO_NODE_ID; CONTROLNET_APPLY_NODE_ID; MOTION_SCALE_NODE_ID] ->
  frame_at i t (set_motion_settings motion override_video).
Proof.
  rewrite !not_elem_of_cons. intros (? & ? & ? & _).
  unfold set_motion_settings. destruct (lookup_preset _ _); frame_ne.
Qed.

Lemma set_quality_frame i t quality :
  t ∉ [VIDEO_PREVIEW_NODE_ID; VIDEO_FINAL_NODE_ID; VIDEO_INTERPOLATED_NODE_ID;
       VIDEO_UPSCALED_MODEL_NODE_ID] ->
  frame_at i t (set_quality quality).
Proof.
  rewrite !not_elem_of_cons. intros (? & ? & ? & ? & _).
  unfold set_quality. frame_ne. destruct (String.eqb _ _); frame_ne.
Qed.

Lemma set_output_prefix_frame i t motion quality :
  t ∉ [VIDEO_PREVIEW_NODE_ID; VIDEO_FINAL_NODE_ID] ->
  frame_at i t (set_output_prefix motion quality).
Proof.
  rewrite !not_elem_of_cons. intros (? & ? & _).
  unfold set_output_prefix. apply frame_for_each.
  - intros x. stable.
  - intros x Hx. rewrite !elem_of_cons in Hx.
    destruct Hx as [->|[->|?%not_elem_of_nil]]; [frame_ne..|done].
Qed.

(** ** What each setter establishes when it returns *)

Ltac run_prims :=
  unfold mbind, St_bind, mret, St_ret, py_bool, py_len, py_get, inspect,
    py_setitem, py_setdefault, py_extend, py_append.

Lemma load_widgets_post image_path w w' :
  (nonempty ← py_bool;
   (if negb nonempty then py_extend [VStr ""; VStr "image"] else mret tt);;
   py_setitem (KInt 0) (VStr image_path);;
   n ← py_len;
   if (n =? 1)%nat then py_append (VStr "image") else mret tt) w
  = (Ok tt, w') ->
  getitem 0 w' = Some (VStr image_path).
Proof.
  destruct w as [|b|z|f|s|l|d].
  - by run_prims.
  - by destruct b; run_prims.
  - run_prims. simpl. by destruct (z =? 0).
  - run_prims. simpl. by destruct (PrimFloat.eqb f 0).
  - run_prims. simpl. by destruct (String.eqb s "").
  - rewrite load_widgets_run. by intros [= <-].
  - destruct d as [|kv d]; [by run_prims|].
    run_prims. cbn [truthy negb]. cbv beta iota.
    match goal with |- context [(?n =? 1)%nat] => destruct (n =? 1)%nat end;
      [done|].
    intros [= <-]. apply (dict_get_set_eq (kv :: d)).
Qed.

Lemma setdefault_inv k x v v1 :
  py_setdefault k x v = (Ok tt, v1) ->
  exists d d1 w, v = VDict d /\ v1 = VDict d1 /\ dict_get d1 k = Some w /\
                 (dict_get d k = Some w \/ dict_get d k = None /\ w = x).
Proof.
  destruct v as [| | | | | |d]; try done. simpl.
  destruct (dict_get d k) as [w|] eqn:Hk; intros [= <-].
  - exists d, d, w. repeat split; auto.
  - exists d, (dict_set d k x), x. rewrite dict_get_set_eq. repeat split; auto.
Qed.

Lemma at_key_inv {A} k (m : St value A) v a v' :
  at_key k m v = (Ok a, v') ->
  exists d w w', v = VDict d /\ dict_get d k = Some w /\ m w = (Ok a, w') /\
                 v' = VDict (dict_set d k w').
Proof.
  destruct v as [| | | | | |d]; try done. simpl.
  destruct (dict_get d k) as [w|] eqn:Hk; [|done].
  destruct (m w) as [r w'] eqn:Hm. intros [= -> <-]. by exists d, w, w'.
Qed.

Lemma set_load_image_ensures node_id image_path :
  ensures node_id
    (fun v => (field WIDGETS v ≫= getitem 0) = Some (VStr image_path))
    (set_load_image node_id image_path).
Proof.
  intros nodes [] nodes' Hrun. unfold set_load_image in Hrun.
  apply bind_inv in Hrun as (i & s & Hf & Hrun).
  unfold inspect in Hf. injection Hf as Hf <-.
  rewrite at_index_bind in Hrun.
  apply at_found_inv with (t := node_id) in Hrun as (v & v' & Hv & Hm & Hf' & Hv');
    [|done|stable].
  exists v'. split; [unfold node_of; by rewrite Hf'|].
  apply bind_inv in Hm as ([] & v1 & Hsd & Hload).
  apply setdefault_inv in Hsd as (d & d1 & w & -> & -> & Hw & _).
  apply at_key_inv in Hload as (d1' & w0 & w' & [= <-] & Hw0 & Hload & ->).
  simpl. rewrite dict_get_set_eq. simpl.
  by apply load_widgets_post in Hload.
Qed.

Lemma setitem_post (i : nat) x w w' :
  py_setitem (KInt (Z.of_nat i)) x w = (Ok tt, w') -> getitem i w' = Some x.
Proof.
  destruct w as [| | | | |l|d]; try done; simpl.
  - destruct (Z.ltb_spec (Z.of_nat i) 0) as [?|_]; [lia|].
    destruct (Z.leb_spec 0 (Z.of_nat i)) as [_|?]; [|lia].
    destruct (Z.ltb_spec (Z.of_nat i) (Z.of_nat (length l))) as [Hlt|?]; [|done].
    simpl. intros [= <-]. simpl. rewrite Nat2Z.id.
    apply list_lookup_insert_eq. lia.
  - intros [= <-]. apply dict_get_set_eq.
Qed.

Lemma setitem_str_inv k x w w' :
  py_setitem (KStr k) x w = (Ok tt, w') ->
  exists d, w = VDict d /\ w' = VDict (dict_set d (KStr k) x).
Proof. destruct w as [| | | | |l|d]; try done. intros [= <-]. by exists d. Qed.

(** A computation on the node found for [t], then computations that keep
    [Q] on that node. *)
Lemma ensures_found {A B} t (Q : value -> Prop)
    (m1 : St value unit) (m2 : St value A) (k : A -> St (list value) B) :
  keeps_id m1 -> keeps_id m2 ->
  (forall v v1 a v2, m1 v = (Ok tt, v1) -> m2 v1 = (Ok a, v2) -> Q v2) ->
  (forall a, keeps t Q (k a)) ->
  ensures t Q
    (i ← inspect (fun nodes => find_node nodes t);
     at_index i m1;; at_index i m2 ≫= k).
Proof.
  intros Hk1 Hk2 Hpost Hkeep nodes b nodes' Hrun.
  apply bind_inv in Hrun as (i & s & Hf & Hrun).
  unfold inspect in Hf. injection Hf as Hf <-.
  apply bind_inv in Hrun as ([] & s1 & H1 & Hrun).
  apply at_found_inv with (t := t) in H1 as (v & v1 & Hv & Hm1 & Hf1 & Hv1);
    [|done..].
  apply bind_inv in Hrun as (a & s2 & H2 & Hrun).
  apply at_found_inv with (t := t) in H2 as (v1' & v2 & Hv1' & Hm2 & Hf2 & Hv2);
    [|done..].
  rewrite Hv1 in Hv1'. injection Hv1' as <-.
  destruct (Hkeep a s2 v2) as (v' & Hv' & HQ).
  - unfold node_of. by rewrite Hf2.
  - by eapply Hpost.
  - rewrite Hrun in Hv'. by exists v'.
Qed.

Lemma ensures_found_last {A} t (Q : value -> Prop)
    (m1 : St value unit) (m2 : St value A) :
  keeps_id m1 -> keeps_id m2 ->
  (forall v v1 a v2, m1 v = (Ok tt, v1) -> m2 v1 = (Ok a, v2) -> Q v2) ->
  ensures t Q
    (i ← inspect (fun nodes => find_node nodes t);
     at_index i m1;; at_index i m2).
Proof.
  intros Hk1 Hk2 Hpost nodes b nodes' Hrun.
  apply bind_inv in Hrun as (i & s & Hf & Hrun).
  unfold inspect in Hf. injection Hf as Hf <-.
  apply bind_inv in Hrun as ([] & s1 & H1 & H2).
  apply at_found_inv with (t := t) in H1 as (v & v1 & Hv & Hm1 & Hf1 & Hv1);
    [|done..].
  apply at_found_inv with (t := t) in H2 as (v1' & v2 & Hv1' & Hm2 & Hf2 & Hv2);
    [|done..].
  rewrite Hv1 in Hv1'. injection Hv1' as <-.
  exists v2. split; [unfold node_of; by rewrite Hf2 | by eapply Hpost].
Qed.

(** A computation on the node found for some id keeps [Q] on the node of
    id [t] if it keeps [Q] on every node. *)
Lemma keeps_at_found {A} t n (Q : value -> Prop) (m : St value A) :
  keeps_id m -> (forall v, Q v -> Q (snd (m v))) ->
  keeps t Q (i ← inspect (fun nodes => find_node nodes n); at_index i m).
Proof.
  intros Hid HQ nodes v Hv Hq. rewrite bind_run. unfold inspect.
  destruct (find_node nodes n) as [i|e] eqn:Hn; [|by exists v].
  unfold node_of in Hv |- *.
  pose proof (ids_stable_find (at_index i m) nodes t (ids_stable_at_index i m Hid)) as Hst.
  rewrite Hst. destruct (find_node nodes t) as [j|] eqn:Hj; [|done].
  unfold at_index. destruct (nodes !! i) as [vi|] eqn:Hi; [|by exists v].
  specialize (HQ vi). destruct (m vi) as [r vi']. simpl in *.
  destruct (decide (i = j)) as [->|Hne].
  - rewrite list_lookup_insert_eq by (by eapply lookup_lt_Some).
    exists vi'. split; [done|]. apply HQ. congruence.
  - rewrite list_lookup_insert_ne by done. by exists v.
Qed.

Lemma video_widgets_post v w w' :
  (py_setitem (KStr "video") (VStr v);;
   videopreview ← py_get (KStr "videopreview") VNone;
   if is_dict videopreview then
     at_key (KStr "videopreview") (py_setdefault (KStr "params") (VDict []));;
     at_key (KStr "videopreview") (at_key (KStr "params") (
       py_setitem (KStr "filename") (VStr v)))
   else mret tt) w = (Ok tt, w') ->
  video_set v w'.
Proof.
  intros Hrun.
  apply bind_inv in Hrun as ([] & w1 & Hset & Hrun).
  apply setitem_str_inv in Hset as (d & -> & ->).
  set (d1 := dict_set d (KStr "video") (VStr v)) in *.
  assert (Hvideo : dict_get d1 (KStr "video") = Some (VStr v))
    by apply dict_get_set_eq.
  apply bind_inv in Hrun as (x & w1 & Hget & Hrun).
  unfold py_get, inspect in Hget. injection Hget as <- <-.
  destruct (dict_get d1 (KStr "videopreview")) as [x|] eqn:Hvp; simpl in Hrun.
  2: { injection Hrun as <-. exists d1. split; [done|]. split; [done|].
       intros vp Hvp'. congruence. }
  destruct x as [| | | | | |vp]; simpl in Hrun;
    try (injection Hrun as <-; exists d1; split; [done|]; split; [done|];
         intros vp' Hvp'; congruence).
  apply bind_inv in Hrun as ([] & w2 & Hsd & Hrun).
  apply at_key_inv in Hsd as (d1' & vp0 & vp1 & [= <-] & Hvp0 & Hsd & ->).
  rewrite Hvp in Hvp0. injection Hvp0 as <-.
  apply setdefault_inv in Hsd as (vpd & vpd1 & x & [= <-] & -> & Hx & _).
  apply at_key_inv in Hrun as (d2 & vp2 & vp3 & [= <-] & Hvp2 & Hrun & ->).
  rewrite dict_get_set_eq in Hvp2. injection Hvp2 as <-.
  apply at_key_inv in Hrun as (vpd2 & x0 & x1 & [= <-] & Hx0 & Hrun & ->).
  apply setitem_str_inv in Hrun as (ps & -> & ->).
  eexists. split; [reflexivity|]. split.
  - by rewrite !dict_get_set_ne.
  - intros vp'. rewrite dict_get_set_eq. intros [= <-].
    eexists. split; [apply dict_get_set_eq | apply dict_get_set_eq].
Qed.

Lemma controlnet_widgets_post p w w' :
  (py_setitem (KInt 0) (VFloat (controlnet_strength p));;
   n ← py_len;
   (if (n <? 3)%nat then pad_loop 3 else mret tt);;
   py_setitem (KInt 2) (VFloat (controlnet_end p))) w = (Ok tt, w') ->
  getitem 0 w' = Some (VFloat (controlnet_strength p)) /\
  getitem 2 w' = Some (VFloat (controlnet_end p)).
Proof.
  destruct w as [| | | | |l|d]; try done.
  - destruct l as [|a l]; [done|].
    rewrite controlnet_widgets_run by done. intros [= <-].
    destruct (controlnet_widgets_items p (a :: l)) as (H0 & _ & H2 & _); done.
  - intros Hrun.
    apply bind_inv in Hrun as ([] & w1 & Hset & Hrun). injection Hset as <-.
    apply bind_inv in Hrun as (n & w1 & Hlen & Hrun).
    unfold py_len, inspect in Hlen. injection Hlen as <- <-.
    apply bind_inv in Hrun as ([] & w2 & Hpad & Hrun).
    assert (w2 = VDict (dict_set d (KInt 0) (VFloat (controlnet_strength p)))) as ->.
    { destruct (_ <? 3)%nat; [|by injection Hpad].
      simpl in Hpad. rewrite bind_run in Hpad. unfold py_len, inspect in Hpad.
      match type of Hpad with context [(?n <? 3)%nat] =>
        destruct (n <? 3)%nat; [done | by injection Hpad] end. }
    injection Hrun as <-. split.
    + change (getitem 0 ?x) with (field (KInt 0) x). simpl.
      rewrite dict_get_set_ne by done. apply dict_get_set_eq.
    + apply dict_get_set_eq.
Qed.

(** The three nodes of [set_motion_settings], when it returns. *)
Lemma set_motion_settings_ensures motion override_video p :
  lookup_preset MOTION_PRESETS motion = Some p ->
  ensures MOTION_VIDEO_NODE_ID
    (fun v => exists w, field WIDGETS v = Some w /\
                        video_set (resolved_video p override_video) w)
    (set_motion_settings motion override_video) /\
  ensures CONTROLNET_APPLY_NODE_ID
    (fun v => (field WIDGETS v ≫= getitem 0) = Some (VFloat (controlnet_strength p)) /\
              (field WIDGETS v ≫= getitem 2) = Some (VFloat (controlnet_end p)))
    (set_motion_settings motion override_video) /\
  ensures MOTION_SCALE_NODE_ID
    (fun v => (field WIDGETS v ≫= getitem 0) = Some (VFloat (motion_scale p)))
    (set_motion_settings motion override_video).
Proof.
  intros Hp. unfold set_motion_settings. rewrite Hp.
  assert (Hv : (match override_video with
                | Some o => if truthy (VStr o) then o else video p
                | None => video p
                end) = resolved_video p override_video).
  { unfold resolved_video. destruct override_video as [o|]; [|done].
    simpl. by destruct (String.eqb o ""). }
  rewrite Hv. cbv zeta. split; [|split].
  - apply ensures_found; [stable | stable | |].
    + intros v v1 [] v2 Hsd Hrun.
      apply setdefault_inv in Hsd as (d & d1 & w & -> & -> & Hw & _).
      apply at_key_inv in Hrun as (d1' & w0 & w' & [= <-] & Hw0 & Hrun & ->).
      exists w'. split; [apply dict_get_set_eq|].
      by apply video_widgets_post in Hrun.
    + intros _. apply keeps_of_frame; [stable | intros i; frame_ne].
  - do 3 (apply ensures_bind_r; intros ?).
    apply ensures_found; [stable | stable | |].
    + intros v v1 [] v2 Hsd Hrun.
      apply setdefault_inv in Hsd as (d & d1 & w & -> & -> & Hw & _).
      apply at_key_inv in Hrun as (d1' & w0 & w' & [= <-] & Hw0 & Hrun & ->).
      simpl. rewrite dict_get_set_eq. simpl.
      by apply controlnet_widgets_post in Hrun.
    + intros _. apply keeps_of_frame; [stable | intros i; frame_ne].
  - do 6 (apply ensures_bind_r; intros ?).
    apply ensures_found_last; [stable | stable |].
    intros v v1 [] v2 Hsd Hrun.
    apply setdefault_inv in Hsd as (d & d1 & w & -> & -> & Hw & _).
    apply at_key_inv in Hrun as (d1' & w0 & w' & [= <-] & Hw0 & Hrun & ->).
    simpl. rewrite dict_get_set_eq. simpl.
    by apply (setitem_post 0) in Hrun.
Qed.

Lemma set_quality_ensures quality t x :
  (t = VIDEO_PREVIEW_NODE_ID /\ x = preview_mode quality) \/
  (t = VIDEO_FINAL_NODE_ID /\ x = final_mode quality) \/
  (t = VIDEO_INTERPOLATED_NODE_ID /\ x = 2) \/
  (t = VIDEO_UPSCALED_MODEL_NODE_ID /\ x = 2) ->
  ensures t (fun v => field MODE v = Some (VInt x)) (set_quality quality).
Proof.
  intros Ht nodes [] nodes' Hrun.
  assert (Hall : forall t',
            t' ∈ [VIDEO_PREVIEW_NODE_ID; VIDEO_FINAL_NODE_ID;
                  VIDEO_INTERPOLATED_NODE_ID; VIDEO_UPSCALED_MODEL_NODE_ID] ->
            is_ok (find_node nodes t') = true).
  { intros t' Ht'. apply (set_quality_needs quality t' Ht' nodes). by rewrite Hrun. }
  pose proof (set_quality_modes_of quality nodes Hall) as Hm.
  rewrite Hrun in Hm. destruct Hm as (_ & M1 & M2 & M3 & M4).
  unfold mode_of in *.
  destruct Ht as [[-> ->]|[[-> ->]|[[-> ->]|[-> ->]]]];
    match goal with |- context [node_of nodes' ?t] =>
      destruct (node_of nodes' t) as [v|]; [by exists v | done] end.
Qed.

(** The loop body of [set_output_prefix] on one node. *)
Lemma prefix_node_run prefix v :
  snd ((widgets ← py_get WIDGETS (VDict []);
        if is_dict widgets then
          stored ← py_contains WIDGETS;
          if stored : bool
          then at_key WIDGETS (py_setitem (KStr "filename_prefix") (VStr prefix))
          else mret tt
        else mret tt) v) = with_prefix prefix v.
Proof.
  destruct v as [| | | | | |d]; try done.
  rewrite bind_run. unfold py_get, inspect. cbv beta iota. simpl with_prefix.
  destruct (dict_get d WIDGETS) as [w|] eqn:Hw; cbn [from_option id is_dict].
  - destruct w; try done. cbn [is_dict]. cbv iota.
    rewrite bind_run. unfold py_contains, inspect. cbv beta iota.
    rewrite Hw. simpl. by rewrite Hw.
  - cbv iota.
    rewrite bind_run. unfold py_contains, inspect. cbv beta iota.
    by rewrite Hw.
Qed.

Lemma with_prefix_field prefix k v :
  k <> WIDGETS -> field k (with_prefix prefix v) = field k v.
Proof.
  intros Hk. destruct v as [| | | | | |d]; try done. simpl.
  destruct (dict_get d WIDGETS) as [[]|]; try done.
  simpl. by rewrite dict_get_set_ne.
Qed.

Lemma with_prefix_widgets prefix v w :
  field WIDGETS (with_prefix prefix v) = Some (VDict w) ->
  dict_get w (KStr "filename_prefix") = Some (VStr prefix).
Proof.
  destruct v as [| | | | | |d]; try done. simpl.
  destruct (dict_get d WIDGETS) as [x|] eqn:Hx; simpl; [|congruence].
  destruct x; simpl; try congruence.
  rewrite dict_get_set_eq. intros [= <-]. apply dict_get_set_eq.
Qed.

(** [set_output_prefix] leaves the fields of every node other than its
    [widgets_values]. *)
Lemma set_output_prefix_keeps_field motion quality t k x :
  k <> WIDGETS ->
  keeps t (fun v => field k v = Some x) (set_output_prefix motion quality).
Proof.
  intros Hk. unfold set_output_prefix. apply keeps_for_each. intros n.
  apply keeps_at_found; [stable|].
  intros v Hv. by rewrite prefix_node_run, with_prefix_field.
Qed.

Lemma set_output_prefix_ensures motion quality t :
  t ∈ [VIDEO_PREVIEW_NODE_ID; VIDEO_FINAL_NODE_ID] ->
  ensures t
    (fun v => forall w, field WIDGETS v = Some (VDict w) ->
       dict_get w (KStr "filename_prefix") = Some (VStr (output_prefix motion quality)))
    (set_output_prefix motion quality).
Proof.
  intros Ht. unfold set_output_prefix.
  eapply ensures_for_each; [exact Ht | |].
  - intros nodes [] nodes' Hrun.
    apply bind_inv in Hrun as (i & s & Hf & Hrun).
    unfold inspect in Hf. injection Hf as Hf <-.
    apply at_found_inv with (t := t) in Hrun as (v & v' & Hv & Hm & Hf' & Hv');
      [|done|stable].
    exists v'. split; [unfold node_of; by rewrite Hf'|].
    intros w Hw. apply (with_prefix_widgets _ v).
    rewrite <- prefix_node_run.
    match type of Hm with ?m v = _ =>
      replace (snd (m v)) with v' by (by rewrite Hm) end.
    exact Hw.
  - intros n. apply keeps_at_found; [stable|].
    intros v _ w. rewrite prefix_node_run. apply with_prefix_widgets.
Qed.

(** ** The document that a build returns *)

Lemma built_ensures t (Q : value -> Prop) fs path si ei mo qu mv out :
  ensures t Q (patch_nodes si ei mo qu mv) ->
  build_workflow fs path si ei mo qu mv = Ok out ->
  exists v, node_of (nodes_of_doc out) t = Some v /\ Q v.
Proof.
  intros Hens Hbuild.
  apply build_workflow_inv in Hbuild as (d & nodes & nodes' & _ & _ & Hrun & Hout & _).
  unfold nodes_of_doc. rewrite Hout. by eapply Hens.
Qed.

(** The setters that do not look the node up keep it as it is. *)
Ltac keeps_frames :=
  repeat first
    [ progress intros
    | apply keeps_ret
    | apply keeps_of_frame;
      [ first [ apply set_load_image_stable | apply set_motion_settings_stable
              | apply set_quality_stable | apply set_output_prefix_stable ]
      | intros;
        first [ apply set_load_image_frame; done
              | apply set_motion_settings_frame; compute_done
              | apply set_quality_frame; compute_done
              | apply set_output_prefix_frame; compute_done ] ]
    | apply keeps_bind ].

Lemma patch_nodes_loaders si ei mo qu mv t :
  (t ∈ LOAD_IMAGE_START_IDS ->
   ensures t (fun v => (field WIDGETS v ≫= getitem 0) = Some (VStr si))
     (patch_nodes si ei mo qu mv)) /\
  (t ∈ LOAD_IMAGE_END_IDS ->
   ensures t (fun v => (field WIDGETS v ≫= getitem 0) = Some (VStr ei))
     (patch_nodes si ei mo qu mv)).
Proof.
  unfold patch_nodes, LOAD_IMAGE_START_IDS, LOAD_IMAGE_END_IDS.
  cbn [for_each]. split; intros Ht; rewrite !elem_of_cons in Ht;
    destruct Ht as [->|[->|?%not_elem_of_nil]]; try done.
  - apply ensures_bind_l; [|keeps_frames].
    apply ensures_bind_l; [apply set_load_image_ensures | keeps_frames].
  - apply ensures_bind_l; [|keeps_frames].
    apply ensures_bind_r; intros _.
    apply ensures_bind_l; [apply set_load_image_ensures | keeps_frames].
  - apply ensures_bind_r; intros _. apply ensures_bind_l; [|keeps_frames].
    apply ensures_bind_l; [apply set_load_image_ensures | keeps_frames].
  - apply ensures_bind_r; intros _. apply ensures_bind_l; [|keeps_frames].
    apply ensures_bind_r; intros _.
    apply ensures_bind_l; [apply set_load_image_ensures | keeps_frames].
Qed.

(** X5. In the document that a build returns, the two start-image nodes
    (142, 135) have the start image as the first of their widgets, and the
    two end-image nodes (680, 683) the end image: no later step of the
    build changes them. *)
Theorem build_workflow_images
    (fs : gmap string file) (path si ei mo qu : string) (mv : option string)
    (out : value) :
  build_workflow fs path si ei mo qu mv = Ok out ->
  (forall t, t ∈ [142; 135] ->
     (widgets_of (nodes_of_doc out) t ≫= getitem 0) = Some (VStr si)) /\
  (forall t, t ∈ [680; 683] ->
     (widgets_of (nodes_of_doc out) t ≫= getitem 0) = Some (VStr ei)).
Proof.
  intros Hbuild. split; intros t Ht.
  - destruct (patch_nodes_loaders si ei mo qu mv t) as [Hens _].
    destruct (built_ensures _ _ _ _ _ _ _ _ _ _ (Hens Ht) Hbuild) as (v & Hv & HQ).
    unfold widgets_of. by rewrite Hv.
  - destruct (patch_nodes_loaders si ei mo qu mv t) as [_ Hens].
    destruct (built_ensures _ _ _ _ _ _ _ _ _ _ (Hens Ht) Hbuild) as (v & Hv & HQ).
    unfold widgets_of. by rewrite Hv.
Qed.

Lemma build_workflow_images_witness :
  (forall t, t ∈ [142; 135] ->
     (widgets_of (nodes_of_doc built_doc) t ≫= getitem 0) = Some (VStr "s.png")) /\
  (forall t, t ∈ [680; 683] ->
     (widgets_of (nodes_of_doc built_doc) t ≫= getitem 0) = Some (VStr "e.png")).
Proof.
  apply (build_workflow_images {[ BASE_WORKFLOW := Dumps base_doc ]} BASE_WORKFLOW
           "s.png" "e.png" "zoom" "full" None built_doc).
  vm_compute. reflexivity.
Defined.

Lemma patch_nodes_needs_preset si ei mo qu mv nodes nodes' :
  patch_nodes si ei mo qu mv nodes = (Ok tt, nodes') ->
  exists p, lookup_preset MOTION_PRESETS mo = Some p.
Proof.
  intros Hrun. unfold patch_nodes in Hrun.
  do 2 apply bind_inv in Hrun as (? & ? & _ & Hrun).
  apply bind_inv in Hrun as (? & ? & Hrun & _).
  unfold set_motion_settings in Hrun.
  destruct (lookup_preset MOTION_PRESETS mo) as [p|]; [by exists p | done].
Qed.

(** X6. In the document that a build returns, the motion has a preset in
    the table, the motion-video node (568) has a mapping as widgets, with
    the override (when given and not empty) or the preset's video under
    ["video"] and, when ["videopreview"] is a mapping, under the
    ["filename"] of its ["params"]; the controlnet-apply node (125) has the
    preset's strength and end as its widgets 0 and 2, and the motion-scale
    node (256) the preset's motion scale as its widget 0. *)
Theorem build_workflow_motion
    (fs : gmap string file) (path si ei mo qu : string) (mv : option string)
    (out : value) :
  build_workflow fs path si ei mo qu mv = Ok out ->
  exists p,
    lookup_preset MOTION_PRESETS mo = Some p /\
    (exists w,
       widgets_of (nodes_of_doc out) 568 = Some (VDict w) /\
       dict_get w (KStr "video") = Some (VStr (resolved_video p mv)) /\
       forall vp, dict_get w (KStr "videopreview") = Some (VDict vp) ->
         exists ps, dict_get vp (KStr "params") = Some (VDict ps) /\
                    dict_get ps (KStr "filename") = Some (VStr (resolved_video p mv))) /\
    (widgets_of (nodes_of_doc out) 125 ≫= getitem 0)
      = Some (VFloat (controlnet_strength p)) /\
    (widgets_of (nodes_of_doc out) 125 ≫= getitem 2)
      = Some (VFloat (controlnet_end p)) /\
    (widgets_of (nodes_of_doc out) 256 ≫= getitem 0)
      = Some (VFloat (motion_scale p)).
Proof.
  intros Hbuild.
  assert (Hp : exists p, lookup_preset MOTION_PRESETS mo = Some p).
  { apply build_workflow_inv in Hbuild as (? & ? & ? & _ & _ & Hrun & _).
    by eapply patch_nodes_needs_preset. }
  destruct Hp as [p Hp]. exists p. split; [exact Hp|].
  destruct (set_motion_settings_ensures mo mv p Hp) as (Hvideo & Hcn & Hscale).
  assert (Hlift : forall t Q,
            t ∈ [MOTION_VIDEO_NODE_ID; CONTROLNET_APPLY_NODE_ID;
                 MOTION_SCALE_NODE_ID] ->
            ensures t Q (set_motion_settings mo mv) ->
            exists v, node_of (nodes_of_doc out) t = Some v /\ Q v).
  { intros t Q Ht Hens. eapply built_ensures; [|exact Hbuild].
    unfold patch_nodes. do 2 (apply ensures_bind_r; intros _).
    apply ensures_bind_l; [exact Hens|].
    rewrite !elem_of_cons in Ht.
    destruct Ht as [->|[->|[->|?%not_elem_of_nil]]]; [keeps_frames..|done]. }
  destruct (Hlift MOTION_VIDEO_NODE_ID _ ltac:(compute_done) Hvideo)
    as (v1 & Hv1 & w & Hw & d' & -> & Hvid & Hvp).
  destruct (Hlift CONTROLNET_APPLY_NODE_ID _ ltac:(compute_done) Hcn)
    as (v2 & Hv2 & H0 & H2).
  destruct (Hlift MOTION_SCALE_NODE_ID _ ltac:(compute_done) Hscale)
    as (v3 & Hv3 & Hs).
  unfold widgets_of.
  fold MOTION_VIDEO_NODE_ID CONTROLNET_APPLY_NODE_ID MOTION_SCALE_NODE_ID.
  rewrite Hv1, Hv2, Hv3. simpl.
  split; [|by repeat split].
  exists d'. by repeat split.
Qed.

Lemma build_workflow_motion_witness :
  exists p,
    lookup_preset MOTION_PRESETS "zoom" = Some p /\
    (exists w,
       widgets_of (nodes_of_doc built_doc) 568 = Some (VDict w) /\
       dict_get w (KStr "video") = Some (VStr (resolved_video p None)) /\
       forall vp, dict_get w (KStr "videopreview") = Some (VDict vp) ->
         exists ps, dict_get vp (KStr "params") = Some (VDict ps) /\
                    dict_get ps (KStr "filename")
                      = Some (VStr (resolved_video p None))) /\
    (widgets_of (nodes_of_doc built_doc) 125 ≫= getitem 0)
      = Some (VFloat (controlnet_strength p)) /\
    (widgets_of (nodes_of_doc built_doc) 125 ≫= getitem 2)
      = Some (VFloat (controlnet_end p)) /\
    (widgets_of (nodes_of_doc built_doc) 256 ≫= getitem 0)
      = Some (VFloat (motion_scale p)).
Proof.
  apply (build_workflow_motion {[ BASE_WORKFLOW := Dumps base_doc ]} BASE_WORKFLOW
           "s.png" "e.png" "zoom" "full" None built_doc).
  vm_compute. reflexivity.
Defined.

(** X7. In the document that a build returns, the preview node (53) has
    mode 0 and the final node (205) mode 2 when the quality is ["sample"];
    for any other quality string it is the other way round; the
    interpolated (219) and upscaled (272) nodes have mode 2.  The output
    prefix step that follows does not change a mode. *)
Theorem build_workflow_modes
    (fs : gmap string file) (path si ei mo qu : string) (mv : option string)
    (out : value) :
  build_workflow fs path si ei mo qu mv = Ok out ->
  mode_of (nodes_of_doc out) 53
    = Some (VInt (if String.eqb qu "sample" then 0 else 2)) /\
  mode_of (nodes_of_doc out) 205
    = Some (VInt (if String.eqb qu "sample" then 2 else 0)) /\
  mode_of (nodes_of_doc out) 219 = Some (VInt 2) /\
  mode_of (nodes_of_doc out) 272 = Some (VInt 2).
Proof.
  intros Hbuild.
  assert (Hlift : forall t x,
            (t = VIDEO_PREVIEW_NODE_ID /\ x = preview_mode qu) \/
            (t = VIDEO_FINAL_NODE_ID /\ x = final_mode qu) \/
            (t = VIDEO_INTERPOLATED_NODE_ID /\ x = 2) \/
            (t = VIDEO_UPSCALED_MODEL_NODE_ID /\ x = 2) ->
            mode_of (nodes_of_doc out) t = Some (VInt x)).
  { intros t x Ht.
    destruct (built_ensures t (fun v => field MODE v = Some (VInt x))
                fs path si ei mo qu mv out) as (v & Hv & HQ); [|exact Hbuild|].
    - unfold patch_nodes. do 3 (apply ensures_bind_r; intros _).
      apply ensures_bind_l; [by apply set_quality_ensures|].
      intros _. by apply set_output_prefix_keeps_field.
    - unfold mode_of. by rewrite Hv. }
  repeat split; apply Hlift; tauto.
Qed.

Lemma build_workflow_modes_witness :
  mode_of (nodes_of_doc built_doc) 53 = Some (VInt 2) /\
  mode_of (nodes_of_doc built_doc) 205 = Some (VInt 0) /\
  mode_of (nodes_of_doc built_doc) 219 = Some (VInt 2) /\
  mode_of (nodes_of_doc built_doc) 272 = Some (VInt 2).
Proof.
  apply (build_workflow_modes {[ BASE_WORKFLOW := Dumps base_doc ]} BASE_WORKFLOW
           "s.png" "e.png" "zoom" "full" None built_doc).
  vm_compute. reflexivity.
Defined.

(** X8. In the document that a build returns, the preview node (53) and
    the final node (205) each have, when their widgets are a mapping, the
    prefix ["%date:yyyy-MM-dd%/<quality>/<motion>_<quality>/AD"] under
    ["filename_prefix"]. *)
Theorem build_workflow_prefix
    (fs : gmap string file) (path si ei mo qu : string) (mv : option string)
    (out : value) :
  build_workflow fs path si ei mo qu mv = Ok out ->
  forall t w,
    t ∈ [53; 205] ->
    widgets_of (nodes_of_doc out) t = Some (VDict w) ->
    dict_get w (KStr "filename_prefix")
      = Some (VStr ("%date:yyyy-MM-dd%/" +:+ qu +:+ "/" +:+ mo +:+ "_" +:+ qu +:+ "/AD")).
Proof.
  intros Hbuild t w Ht Hw. rewrite <- output_prefix_eq.
  destruct (built_ensures t
              (fun v => forall w, field WIDGETS v = Some (VDict w) ->
                 dict_get w (KStr "filename_prefix")
                   = Some (VStr (output_prefix mo qu)))
              fs path si ei mo qu mv out) as (v & Hv & HQ); [|exact Hbuild|].
  - unfold patch_nodes. do 4 (apply ensures_bind_r; intros _).
    by apply set_output_prefix_ensures.
  - apply HQ. unfold widgets_of in Hw. by rewrite Hv in Hw.
Qed.

Lemma build_workflow_prefix_witness :
  dict_get [(KStr "filename_prefix", VStr "%date:yyyy-MM-dd%/full/zoom_full/AD")]
    (KStr "filename_prefix")
  = Some (VStr ("%date:yyyy-MM-dd%/" +:+ "full" +:+ "/" +:+ "zoom" +:+ "_"
                +:+ "full" +:+ "/AD")).
Proof.
  apply (build_workflow_prefix {[ BASE_WORKFLOW := Dumps base_doc ]} BASE_WORKFLOW
           "s.png" "e.png" "zoom" "full" None built_doc) with (t := 53).
  - vm_compute. reflexivity.
  - compute_done.
  - reflexivity.
Defined.

(** ** Node lookup: every outcome *)

(** X9. Node lookup has three outcomes: a position, the not-found error,
    or [AttributeError]; the last one exactly when an element that is not
    a mapping (a JSON null, number, string or list among the nodes) comes
    before any node with the id. *)
Theorem find_node_outcomes (nodes : list value) (t : Z) :
  ((exists i, find_node nodes t = Ok i) \/
   find_node nodes t = Raise (not_found t) \/
   find_node nodes t = Raise AttributeError) /\
  (find_node nodes t = Raise AttributeError <->
   exists i v,
     nodes !! i = Some v /\ is_dict v = false /\
     forall j w, (j < i)%nat -> nodes !! j = Some w ->
                 is_dict w = true /\ has_id t w = false).
Proof.
  induction nodes as [|v nodes [IHcases IHattr]].
  - split; [by right; left|]. split; [done|]. by intros (i & v & Hi & _).
  - assert (Hnd : is_dict v = false ->
              find_node (v :: nodes) t = Raise AttributeError).
    { by destruct v. }
    destruct (is_dict v) eqn:Hd.
    2: { rewrite (Hnd eq_refl). split; [by right; right|]. split; [|done].
         intros _. exists 0%nat, v. split; [done|]. split; [done|].
         intros j w Hj. lia. }
    clear Hnd. destruct v as [| | | | | |d]; try done.
    rewrite find_node_cons_dict. destruct (has_id t (VDict d)) eqn:Hid.
    + split; [left; by exists 0%nat|]. split; [done|].
      intros (i & v & Hi & Hv & Hbefore). destruct i as [|i].
      * simpl in Hi. by injection Hi as <-.
      * destruct (Hbefore 0%nat (VDict d)) as [_ Hid']; [lia|done|congruence].
    + split.
      * destruct IHcases as [[i Hi]|[Hi|Hi]]; rewrite Hi;
          [left; by exists (S i) | auto..].
      * split.
        -- intros Hf. destruct (find_node nodes t) as [i|e] eqn:Hrest; [done|].
           injection Hf as ->.
           destruct (proj1 IHattr eq_refl) as (i & v & Hi & Hv & Hbefore).
           exists (S i), v. split; [done|]. split; [done|].
           intros [|j] w Hj Hw; simpl in Hw.
           ++ by injection Hw as <-.
           ++ apply (Hbefore j w); [lia|done].
        -- intros (i & v & Hi & Hv & Hbefore). destruct i as [|i].
           { simpl in Hi. by injection Hi as <-. }
           rewrite (proj2 IHattr); [done|].
           exists i, v. split; [done|]. split; [done|].
           intros j w Hj Hw. apply (Hbefore (S j) w); [lia|done].
Qed.

(** ** Image slots: writing twice, and widgets that are no list *)

Lemma loaded_loaded p1 p2 l : loaded p2 (loaded p1 l) = loaded p2 l.
Proof. by destruct l as [|x [|y rest]]. Qed.

Lemma dict_set_same (d : dict) k v : dict_get d k = Some v -> dict_set d k v = d.
Proof.
  induction d as [|[k' v'] d IH]; simpl; [done|].
  destruct (decide (k' = k)) as [->|Hk]; [by intros [= ->]|].
  intros H. by rewrite IH.
Qed.

(** X10. Setting the image of a node twice is setting it to the second
    path: on a node whose [widgets_values] is absent or a list, both calls
    return and the nodes end as after a single call with the second path
    (so the setter is idempotent). *)
Theorem set_load_image_twice
    (nodes : list value) (node_id : Z) (p1 p2 : string) (l : list value) :
  is_ok (find_node nodes node_id) = true ->
  widgets_of nodes node_id = None /\ l = [] \/
  widgets_of nodes node_id = Some (VList l) ->
  fst (set_load_image node_id p1 nodes) = Ok tt /\
  set_load_image node_id p2 (snd (set_load_image node_id p1 nodes))
    = set_load_image node_id p2 nodes.
Proof.
  intros [i Hf]%is_ok_find Hw.
  destruct (found_is_dict _ _ _ Hf) as [d Hl].
  unfold widgets_of, node_of in Hw. rewrite Hf, Hl in Hw. simpl in Hw.
  rewrite (set_load_image_run _ _ p1 _ _ l Hf Hl Hw). simpl. split; [done|].
  rewrite (set_load_image_run _ _ p2 _ _ l Hf Hl Hw).
  apply lookup_lt_Some in Hl as Hlt.
  rewrite (set_load_image_run _ node_id p2 i
             (dict_set d WIDGETS (VList (loaded p1 l))) (loaded p1 l)).
  - by rewrite list_insert_insert_eq, dict_set_set, loaded_loaded.
  - rewrite <- Hf. apply find_node_ext.
    eapply id_view_insert; [exact Hl|]. simpl. by rewrite dict_get_set_ne.
  - by rewrite list_lookup_insert_eq.
  - right. apply dict_get_set_eq.
Qed.

Lemma set_load_image_twice_witness :
  fst (set_load_image 683 "a.png" base_nodes) = Ok tt /\
  set_load_image 683 "b.png" (snd (set_load_image 683 "a.png" base_nodes))
    = set_load_image 683 "b.png" base_nodes.
Proof.
  apply (set_load_image_twice base_nodes 683 "a.png" "b.png" [VStr "old_end.png"]).
  - reflexivity.
  - right. reflexivity.
Defined.

(** X11. On a node whose [widgets_values] is there and is neither a list
    nor a non-empty mapping (a JSON null, boolean, number or string, or an
    empty mapping), the image-slot setter raises: [AttributeError] when
    the value is falsy (it has no [extend]), [TypeError] otherwise (it
    takes no item assignment); the nodes stay as they were. *)
Theorem set_load_image_bad_widgets
    (nodes : list value) (node_id : Z) (p : string) (w : value) :
  is_ok (find_node nodes node_id) = true ->
  widgets_of nodes node_id = Some w ->
  (forall l, w <> VList l) ->
  (forall d, w = VDict d -> d = []) ->
  set_load_image node_id p nodes
    = (Raise (if truthy w then TypeError else AttributeError), nodes).
Proof.
  intros [i Hf]%is_ok_find Hw Hlist Hdict.
  destruct (found_is_dict _ _ _ Hf) as [d Hl].
  unfold widgets_of, node_of in Hw. rewrite Hf, Hl in Hw. simpl in Hw.
  unfold set_load_image.
  rewrite (run_find _ _ _ _ Hf), at_index_bind, (at_index_run _ _ _ _ Hl).
  rewrite bind_run. simpl py_setdefault. rewrite Hw. unfold at_key. rewrite Hw.
  assert (Hstate : <[i := VDict (dict_set d WIDGETS w)]> nodes = nodes).
  { rewrite (dict_set_same _ _ _ Hw). by apply list_insert_id. }
  destruct w as [|b|z|f|s|l|dw].
  - run_prims. simpl. by rewrite Hstate.
  - destruct b; run_prims; simpl; by rewrite Hstate.
  - run_prims. simpl. destruct (z =? 0); simpl; by rewrite Hstate.
  - run_prims. simpl. destruct (PrimFloat.eqb f 0); simpl; by rewrite Hstate.
  - run_prims. simpl. destruct (String.eqb s ""); simpl; by rewrite Hstate.
  - by destruct (Hlist l).
  - rewrite (Hdict dw eq_refl) in *. run_prims. simpl. by rewrite Hstate.
Qed.

Lemma set_load_image_bad_widgets_witness :
  set_load_image 142 "s.png" [node 142 [(WIDGETS, VNone)]]
    = (Raise AttributeError, [node 142 [(WIDGETS, VNone)]]).
Proof.
  apply (set_load_image_bad_widgets [node 142 [(WIDGETS, VNone)]] 142 "s.png" VNone);
    done.
Defined.

(** ** Motion settings: the motion-scale node and empty widget lists *)

(** When the setter returns, the motion-scale node had a non-empty widget
    list (the default one if it had none), and only its first widget has
    changed. *)
Lemma set_motion_settings_scale nodes motion override_video p l nodes' :
  lookup_preset MOTION_PRESETS motion = Some p ->
  set_motion_settings motion override_video nodes = (Ok tt, nodes') ->
  widgets_of nodes MOTION_SCALE_NODE_ID = None /\ l = [VFloat 1.0] \/
  widgets_of nodes MOTION_SCALE_NODE_ID = Some (VList l) ->
  l <> [] /\
  widgets_of nodes' MOTION_SCALE_NODE_ID
    = Some (VList (<[0%nat := VFloat (motion_scale p)]> l)).
Proof.
  intros Hp Hrun Hw.
  pose proof (ids_stable_find _ nodes MOTION_SCALE_NODE_ID
                (set_motion_settings_stable motion override_video)) as Hstable.
  rewrite Hrun in Hstable. simpl in Hstable.
  unfold set_motion_settings in Hrun. rewrite Hp in Hrun.
  apply bind_inv in Hrun as (iv & s0 & Hfv & Hrun).
  unfold inspect in Hfv. injection Hfv as Hfv <-.
  apply bind_inv in Hrun as ([] & s1 & HA1 & Hrun).
  apply bind_inv in Hrun as ([] & s2 & HA2 & Hrun).
  apply bind_inv in Hrun as (ic & s2' & Hfc & Hrun).
  unfold inspect in Hfc. injection Hfc as Hfc <-.
  apply bind_inv in Hrun as ([] & s3 & HB1 & Hrun).
  apply bind_inv in Hrun as ([] & s4 & HB2 & Hrun).
  apply bind_inv in Hrun as (im & s4' & Hfm & Hrun).
  unfold inspect in Hfm. injection Hfm as Hfm <-.
  apply bind_inv in Hrun as ([] & s5 & HC1 & HC2).
  (* the lookups give the positions they give in [nodes] *)
  assert (Hview : forall t, find_node s4 t = find_node nodes t).
  { intros t.
    rewrite (at_index_view _ _ _ _ _ _ HB2) by (by apply keeps_id_at_key).
    rewrite (at_index_view _ _ _ _ _ _ HB1) by (by apply keeps_id_setdefault).
    rewrite (at_index_view _ _ _ _ _ _ HA2) by (by apply keeps_id_at_key).
    by rewrite (at_index_view _ _ _ _ _ _ HA1) by (by apply keeps_id_setdefault). }
  assert (Hview2 : forall t, find_node s2 t = find_node nodes t).
  { intros t.
    rewrite (at_index_view _ _ _ _ _ _ HA2) by (by apply keeps_id_at_key).
    by rewrite (at_index_view _ _ _ _ _ _ HA1) by (by apply keeps_id_setdefault). }
  rewrite Hview in Hfm. rewrite Hview2 in Hfc.
  assert (iv <> im) by (intros ->; by pose proof (find_node_inj _ _ _ _ Hfv Hfm)).
  assert (ic <> im) by (intros ->; by pose proof (find_node_inj _ _ _ _ Hfc Hfm)).
  destruct (found_is_dict _ _ _ Hfm) as [d Hl].
  assert (Hl4 : s4 !! im = Some (VDict d)).
  { by rewrite (at_index_other _ _ _ _ _ _ HB2), (at_index_other _ _ _ _ _ _ HB1),
      (at_index_other _ _ _ _ _ _ HA2), (at_index_other _ _ _ _ _ _ HA1). }
  assert (Hwid : widgets_of nodes MOTION_SCALE_NODE_ID = dict_get d WIDGETS).
  { unfold widgets_of, node_of. by rewrite Hfm, Hl. }
  rewrite Hwid in Hw. clear Hwid.
  (* the motion-scale step *)
  apply at_index_inv in HC1 as (v & v1 & Hv & HC1 & ->).
  rewrite Hl4 in Hv. injection Hv as <-.
  assert (Hd1 : exists d1, v1 = VDict d1 /\ dict_get d1 WIDGETS = Some (VList l)).
  { simpl in HC1. destruct Hw as [[Hw ->]|Hw]; rewrite Hw in HC1;
      injection HC1 as <-; eexists; (split; [reflexivity|]);
      [apply dict_get_set_eq | done]. }
  destruct Hd1 as (d1 & -> & Hw1).
  apply lookup_lt_Some in Hl4 as Hlt.
  apply at_index_inv in HC2 as (v & v2 & Hv & HC2 & ->).
  rewrite list_lookup_insert_eq in Hv by done. injection Hv as <-.
  unfold at_key in HC2. rewrite Hw1 in HC2.
  assert (Hne : l <> []).
  { intros ->. by vm_compute in HC2. }
  change (KInt 0) with (KInt (Z.of_nat 0)) in HC2.
  rewrite py_setitem_list in HC2 by (destruct l; [done | simpl; lia]).
  injection HC2 as <-. split; [exact Hne|].
  unfold widgets_of, node_of. rewrite Hstable, Hfm.
  rewrite list_lookup_insert_eq by (by rewrite length_insert).
  simpl. apply dict_get_set_eq.
Qed.

(** X12. When the motion settings setter returns on a workflow whose
    motion-scale node (256) has a list as [widgets_values], that list has
    the preset's motion scale as its first element, the same length and
    the same other elements as before. *)
Theorem set_motion_settings_scale_values
    (nodes : list value) (motion : string) (override_video : option string)
    (l : list value) :
  fst (set_motion_settings motion override_video nodes) = Ok tt ->
  widgets_of nodes 256 = Some (VList l) ->
  exists p l',
    lookup_preset MOTION_PRESETS motion = Some p /\
    widgets_of (snd (set_motion_settings motion override_video nodes)) 256
      = Some (VList l') /\
    l' !! 0%nat = Some (VFloat (motion_scale p)) /\
    length l' = length l /\
    forall j, (0 < j)%nat -> l' !! j = l !! j.
Proof.
  intros Hok Hw.
  destruct (set_motion_settings motion override_video nodes) as [r nodes'] eqn:Hrun.
  simpl in Hok. subst r.
  assert (Hp : exists p, lookup_preset MOTION_PRESETS motion = Some p).
  { unfold set_motion_settings in Hrun.
    destruct (lookup_preset MOTION_PRESETS motion) as [p|]; [by exists p | done]. }
  destruct Hp as [p Hp]. exists p, (<[0%nat := VFloat (motion_scale p)]> l).
  destruct (set_motion_settings_scale nodes motion override_video p l nodes'
              Hp Hrun (or_intror Hw)) as [Hne Hw'].
  split; [exact Hp|]. split; [exact Hw'|]. split; [|split].
  - apply list_lookup_insert_eq. destruct l; [done | simpl; lia].
  - apply length_insert.
  - intros j Hj. apply list_lookup_insert_ne. lia.
Qed.

Lemma set_motion_settings_scale_values_witness :
  exists p l',
    lookup_preset MOTION_PRESETS "up" = Some p /\
    widgets_of (snd (set_motion_settings "up" None base_nodes)) 256
      = Some (VList l') /\
    l' !! 0%nat = Some (VFloat (motion_scale p)) /\
    length l' = length [VFloat 1.0] /\
    forall j, (0 < j)%nat -> l' !! j = [VFloat 1.0] !! j.
Proof.
  apply (set_motion_settings_scale_values base_nodes "up" None [VFloat 1.0]).
  - vm_compute. reflexivity.
  - reflexivity.
Defined.

(** X13. The motion settings setter never returns on a workflow whose
    controlnet-apply node (125) or motion-scale node (256) has an empty
    list as [widgets_values]: it writes index 0 of the list as it is. *)
Theorem set_motion_settings_empty_widgets
    (nodes : list value) (motion : string) (override_video : option string) :
  widgets_of nodes 125 = Some (VList []) \/ widgets_of nodes 256 = Some (VList []) ->
  exists e, fst (set_motion_settings motion override_video nodes) = Raise e.
Proof.
  intros Hw.
  destruct (set_motion_settings motion override_video nodes) as [[[]|e] nodes'] eqn:Hrun;
    [|by exists e].
  assert (Hp : exists p, lookup_preset MOTION_PRESETS motion = Some p).
  { unfold set_motion_settings in Hrun.
    destruct (lookup_preset MOTION_PRESETS motion) as [p|]; [by exists p | done]. }
  destruct Hp as [p Hp]. destruct Hw as [Hw|Hw].
  - by destruct (set_motion_settings_controlnet nodes motion override_video p []
                   nodes' Hp Hrun (or_intror Hw)) as [Hne _].
  - by destruct (set_motion_settings_scale nodes motion override_video p []
                   nodes' Hp Hrun (or_intror Hw)) as [Hne _].
Qed.

Lemma set_motion_settings_empty_widgets_witness :
  exists e, fst (set_motion_settings "zoom" None empty_controlnet) = Raise e.
Proof.
  apply set_motion_settings_empty_widgets. left. reflexivity.
Defined.

(** ** Quality: setting it twice *)

(** X14. Setting the quality twice is setting it to the second value: on
    a workflow with the four output nodes, the nodes end as after a single
    call with the second quality (so the setter is idempotent, and a
    second call undoes nothing but the modes). *)
Theorem set_quality_twice (nodes : list value) (q1 q2 : string) :
  (forall t, t ∈ [53; 205; 219; 272] -> is_ok (find_node nodes t) = true) ->
  set_quality q2 (snd (set_quality q1 nodes)) = set_quality q2 nodes.
Proof.
  intros Hall.
  destruct (is_ok_find nodes VIDEO_PREVIEW_NODE_ID) as [i1 H1];
    [apply Hall; set_solver|].
  destruct (is_ok_find nodes VIDEO_FINAL_NODE_ID) as [i2 H2];
    [apply Hall; set_solver|].
  destruct (is_ok_find nodes VIDEO_INTERPOLATED_NODE_ID) as [i3 H3];
    [apply Hall; set_solver|].
  destruct (is_ok_find nodes VIDEO_UPSCALED_MODEL_NODE_ID) as [i4 H4];
    [apply Hall; set_solver|].
  destruct (found_is_dict _ _ _ H1) as [d1 L1].
  destruct (found_is_dict _ _ _ H2) as [d2 L2].
  destruct (found_is_dict _ _ _ H3) as [d3 L3].
  destruct (found_is_dict _ _ _ H4) as [d4 L4].
  assert (i1 <> i2) by (intros ->; by pose proof (find_node_inj _ _ _ _ H1 H2)).
  assert (i1 <> i3) by (intros ->; by pose proof (find_node_inj _ _ _ _ H1 H3)).
  assert (i1 <> i4) by (intros ->; by pose proof (find_node_inj _ _ _ _ H1 H4)).
  assert (i2 <> i3) by (intros ->; by pose proof (find_node_inj _ _ _ _ H2 H3)).
  assert (i2 <> i4) by (intros ->; by pose proof (find_node_inj _ _ _ _ H2 H4)).
  assert (i3 <> i4) by (intros ->; by pose proof (find_node_inj _ _ _ _ H3 H4)).
  apply lookup_lt_Some in L1 as ?, L2 as ?, L3 as ?, L4 as ?.
  pose proof (fun t => ids_stable_find (set_quality q1) nodes t
                         (set_quality_stable q1)) as Hst.
  rewrite (set_quality_run q2 nodes i1 i2 i3 i4 d1 d2 d3 d4) by done.
  rewrite (set_quality_run q1 nodes i1 i2 i3 i4 d1 d2 d3 d4) in * by done.
  simpl snd in *.
  erewrite (set_quality_run q2 _ i1 i2 i3 i4); cycle 1.
  - by rewrite Hst.
  - by rewrite Hst.
  - by rewrite Hst.
  - by rewrite Hst.
  - rewrite !list_lookup_insert_ne by done. by apply list_lookup_insert_eq.
  - rewrite !list_lookup_insert_ne by done.
    apply list_lookup_insert_eq. by rewrite length_insert.
  - rewrite list_lookup_insert_ne by done.
    apply list_lookup_insert_eq. by rewrite !length_insert.
  - apply list_lookup_insert_eq. by rewrite !length_insert.
  - f_equal. rewrite !dict_set_set. apply list_eq. intros j.
    rewrite !list_lookup_insert, !length_insert.
    repeat case_decide; naive_solver.
Qed.

Lemma set_quality_twice_witness :
  set_quality "full" (snd (set_quality "sample" base_nodes))
    = set_quality "full" base_nodes.
Proof.
  apply set_quality_twice. intros t Ht.
  repeat (apply elem_of_cons in Ht as [->|Ht]; [reflexivity|]).
  by apply not_elem_of_nil in Ht.
Defined.

(** ** Workflows on which the build returns *)

Section Triples.

Context {A B : Type}.
Implicit Types (P : list value -> Prop).

Lemma triple_bind P P1 P2 (m : St (list value) A) (k : A -> St (list value) B) :
  triple P m P1 -> (forall a, triple P1 (k a) P2) -> triple P (m ≫= k) P2.
Proof.
  intros Hm Hk nodes HP. destruct (Hm nodes HP) as (a & s & Hrun & HP1).
  destruct (Hk a s HP1) as (b & s' & Hrun' & HP2).
  exists b, s'. by rewrite (bind_ok _ _ _ _ _ Hrun).
Qed.

Lemma triple_ret P (a : A) : triple P (mret a) P.
Proof. intros nodes HP. by exists a, nodes. Qed.

(** A step that needs some nodes and keeps the others. *)
Lemma triple_step needs rest (m : St (list value) A) :
  (forall nodes, shaped needs nodes -> is_ok (fst (m nodes)) = true) ->
  Forall (fun r => keeps (fst r) (snd r) m) rest ->
  triple (shaped (needs ++ rest)) m (shaped rest).
Proof.
  intros Hok Hkeep nodes [Hneeds Hrest]%Forall_app.
  specialize (Hok nodes Hneeds).
  destruct (m nodes) as [[a|e] nodes'] eqn:Hrun; [|done].
  exists a, nodes'. split; [done|].
  unfold shaped in *. rewrite Forall_forall in Hkeep, Hrest |- *.
  intros r Hr. destruct (Hrest r Hr) as (v & Hv & HS).
  destruct (Hkeep r Hr nodes v Hv HS) as (v' & Hv' & HS').
  rewrite Hrun in Hv'. by exists v'.
Qed.

End Triples.

Lemma keeps_top {A} t (m : St (list value) A) :
  ids_stable m -> keeps t (fun _ => True) m.
Proof.
  intros Hst nodes v Hv _. unfold node_of in *.
  rewrite (ids_stable_find m nodes t Hst).
  destruct (find_node nodes t) as [i|] eqn:Hf; [|done].
  assert (Hf' : find_node (snd (m nodes)) t = Ok i)
    by (by rewrite (ids_stable_find m nodes t Hst)).
  destruct (found_is_dict _ _ _ Hf') as [d Hd]. by exists (VDict d).
Qed.

Lemma node_of_found nodes t v :
  node_of nodes t = Some v ->
  exists i d, find_node nodes t = Ok i /\ nodes !! i = Some (VDict d) /\ v = VDict d.
Proof.
  unfold node_of. destruct (find_node nodes t) as [i|] eqn:Hf; [|done].
  destruct (found_is_dict _ _ _ Hf) as [d Hd]. rewrite Hd. intros [= <-].
  by exists i, d.
Qed.

(** Two computations on the node found for [t] return when they return on
    a node of the shape [S]. *)
Lemma found_returns {A} t (S : value -> Prop) (m1 : St value unit) (m2 : St value A)
    nodes :
  (forall d, S (VDict d) ->
     exists v1 a v2, m1 (VDict d) = (Ok tt, v1) /\ m2 v1 = (Ok a, v2)) ->
  shaped [(t, S)] nodes ->
  exists i a nodes',
    find_node nodes t = Ok i /\
    (at_index i m1;; at_index i m2) nodes = (Ok a, nodes').
Proof.
  intros Hnode [(v & Hv & HS) _]%Forall_cons. simpl in *.
  apply node_of_found in Hv as (i & d & Hf & Hl & ->).
  destruct (Hnode d HS) as (v1 & a & v2 & H1 & H2).
  exists i, a. eexists. split; [done|].
  rewrite at_index_bind, (at_index_run _ _ _ _ Hl), bind_run, H1. simpl.
  by rewrite H2.
Qed.

(** *** Each setter on nodes of the right shape *)

Lemma load_node_returns image_path d :
  widgets_absent_or a_list (VDict d) ->
  exists v1 a v2,
    py_setdefault WIDGETS (VList [VStr ""; VStr "image"]) (VDict d) = (Ok tt, v1) /\
    at_key WIDGETS (
      nonempty ← py_bool;
      (if negb nonempty then py_extend [VStr ""; VStr "image"] else mret tt);;
      py_setitem (KInt 0) (VStr image_path);;
      n ← py_len;
      if (n =? 1)%nat then py_append (VStr "image") else mret tt) v1 = (Ok a, v2).
Proof.
  intros [Hw|(w & Hw & l & ->)]; simpl in Hw; simpl py_setdefault; rewrite Hw.
  - eexists _, tt, _. split; [reflexivity|]. unfold at_key.
    by rewrite dict_get_set_eq, load_widgets_run.
  - eexists _, tt, _. split; [reflexivity|]. unfold at_key.
    by rewrite Hw, load_widgets_run.
Qed.

Lemma set_load_image_returns node_id image_path nodes :
  shaped [(node_id, widgets_absent_or a_list)] nodes ->
  is_ok (fst (set_load_image node_id image_path nodes)) = true.
Proof.
  intros Hs.
  destruct (found_returns node_id _ _ _ nodes (load_node_returns image_path) Hs)
    as (i & a & nodes' & Hf & Hrun).
  unfold set_load_image. by rewrite (run_find _ _ _ _ Hf), Hrun.
Qed.

Lemma found_step {A} t (m1 : St value unit) (m2 : St value A) nodes i a nodes' t' v' :
  keeps_id m1 -> keeps_id m2 ->
  find_node nodes t = Ok i ->
  (at_index i m1;; at_index i m2) nodes = (Ok a, nodes') ->
  t' <> t -> node_of nodes t' = Some v' -> node_of nodes' t' = Some v'.
Proof.
  intros Hk1 Hk2 Hf Hrun Hne Hv'.
  apply bind_inv in Hrun as ([] & s1 & H1 & H2).
  unfold node_of in *.
  rewrite (at_index_view _ _ _ _ _ t' H2 Hk2), (at_index_view _ _ _ _ _ t' H1 Hk1).
  destruct (find_node nodes t') as [j|] eqn:Hj; [|done].
  assert (i <> j) by (intros ->; by pose proof (find_node_inj _ _ _ _ Hj Hf)).
  by rewrite (at_index_other _ _ _ _ _ _ H2), (at_index_other _ _ _ _ _ _ H1).
Qed.

Lemma triple_found {A B} t (S : value -> Prop) rest
    (m1 : St value unit) (m2 : St value A) (k : A -> St (list value) B) P' :
  keeps_id m1 -> keeps_id m2 ->
  (forall d, S (VDict d) ->
     exists v1 a v2, m1 (VDict d) = (Ok tt, v1) /\ m2 v1 = (Ok a, v2)) ->
  Forall (fun r => fst r <> t) rest ->
  (forall a, triple (shaped rest) (k a) P') ->
  triple (shaped ((t, S) :: rest))
    (i ← inspect (fun nodes => find_node nodes t);
     at_index i m1;; at_index i m2 ≫= k) P'.
Proof.
  intros Hk1 Hk2 Hnode Hne Hk nodes Hs.
  apply Forall_cons in Hs as [Ht Hrest].
  destruct (found_returns t S m1 m2 nodes Hnode) as (i & a & s2 & Hf & Hrun).
  { by constructor. }
  destruct (Hk a s2) as (b & s' & Hrun' & HP').
  { unfold shaped in *. rewrite Forall_forall in Hrest, Hne |- *.
    intros r Hr. destruct (Hrest r Hr) as (v' & Hv' & HS').
    exists v'. split; [|done]. eapply found_step; eauto. }
  exists b, s'. split; [|done].
  rewrite (run_find _ _ _ _ Hf).
  pose proof Hrun as Hrun0.
  apply bind_inv in Hrun0 as ([] & s1 & H1 & H2).
  by rewrite (bind_ok _ _ _ _ _ H1), (bind_ok _ _ _ _ _ H2).
Qed.

Lemma triple_found_last {A} t (S : value -> Prop)
    (m1 : St value unit) (m2 : St value A) :
  (forall d, S (VDict d) ->
     exists v1 a v2, m1 (VDict d) = (Ok tt, v1) /\ m2 v1 = (Ok a, v2)) ->
  triple (shaped [(t, S)])
    (i ← inspect (fun nodes => find_node nodes t); at_index i m1;; at_index i m2)
    (fun _ => True).
Proof.
  intros Hnode nodes Hs.
  destruct (found_returns t S m1 m2 nodes Hnode Hs) as (i & a & s2 & Hf & Hrun).
  exists a, s2. split; [|done]. by rewrite (run_find _ _ _ _ Hf).
Qed.

Lemma setdefault_absent k x d :
  dict_get d k = None ->
  py_setdefault k x (VDict d) = (Ok tt, VDict (dict_set d k x)).
Proof. intros H. simpl. by rewrite H. Qed.

Lemma setdefault_present k x d w :
  dict_get d k = Some w -> py_setdefault k x (VDict d) = (Ok tt, VDict d).
Proof. intros H. simpl. by rewrite H. Qed.

Lemma video_widgets_returns v w :
  video_widgets (VDict w) ->
  exists w',
    (py_setitem (KStr "video") (VStr v);;
     videopreview ← py_get (KStr "videopreview") VNone;
     if is_dict videopreview then
       at_key (KStr "videopreview") (py_setdefault (KStr "params") (VDict []));;
       at_key (KStr "videopreview") (at_key (KStr "params") (
         py_setitem (KStr "filename") (VStr v)))
     else mret tt) (VDict w) = (Ok tt, w').
Proof.
  intros (w0 & [= <-] & Hshape).
  rewrite bind_run. simpl py_setitem. cbv beta iota.
  set (w1 := dict_set w (KStr "video") (VStr v)).
  assert (Hsame : dict_get w1 (KStr "videopreview") = dict_get w (KStr "videopreview"))
    by (by apply dict_get_set_ne).
  rewrite bind_run. unfold py_get, inspect. cbv beta iota.
  destruct (dict_get w1 (KStr "videopreview")) as [x|] eqn:Hvp;
    cbn [from_option id]; [|by eexists].
  destruct x as [| | | | | |vp]; cbn [is_dict]; cbv iota; try by eexists.
  rewrite bind_run. unfold at_key at 1. rewrite Hvp. simpl py_setdefault.
  assert (Hparams : exists vp1 ps,
            match dict_get vp (KStr "params") with
            | Some _ => (Ok tt, VDict vp)
            | None => (Ok tt, VDict (dict_set vp (KStr "params") (VDict [])))
            end = (Ok tt, VDict vp1) /\
            dict_get vp1 (KStr "params") = Some (VDict ps)).
  { destruct (dict_get vp (KStr "params")) as [x|] eqn:Hp.
    - assert (Hx : is_dict x = true).
      { eapply Hshape; [|exact Hp]. by rewrite <- Hsame. }
      destruct x; try done. by eexists vp, _.
    - exists (dict_set vp (KStr "params") (VDict [])), [].
      split; [done | apply dict_get_set_eq]. }
  destruct Hparams as (vp1 & ps & -> & Hp). cbv beta iota.
  unfold at_key. rewrite dict_get_set_eq, Hp. simpl. by eexists.
Qed.

Lemma video_node_returns v d :
  widgets_absent_or video_widgets (VDict d) ->
  exists v1 a v2,
    py_setdefault WIDGETS (VDict []) (VDict d) = (Ok tt, v1) /\
    at_key WIDGETS (
      py_setitem (KStr "video") (VStr v);;
      videopreview ← py_get (KStr "videopreview") VNone;
      if is_dict videopreview then
        at_key (KStr "videopreview") (py_setdefault (KStr "params") (VDict []));;
        at_key (KStr "videopreview") (at_key (KStr "params") (
          py_setitem (KStr "filename") (VStr v)))
      else mret tt) v1 = (Ok a, v2).
Proof.
  intros [Hw|(w & Hw & Hshape)]; simpl in Hw.
  - destruct (video_widgets_returns v []) as [w' Hrun].
    { exists []. split; [done|]. intros vp x Hvp. done. }
    eexists _, tt, _. split; [by rewrite (setdefault_absent _ _ _ Hw)|].
    unfold at_key at 1. by rewrite dict_get_set_eq, Hrun.
  - pose proof Hshape as (dw & -> & _).
    destruct (video_widgets_returns v dw Hshape) as [w' Hrun].
    eexists _, tt, _. split; [by rewrite (setdefault_present _ _ _ _ Hw)|].
    unfold at_key at 1. by rewrite Hw, Hrun.
Qed.

Lemma controlnet_node_returns p d :
  widgets_absent_or a_nonempty_list (VDict d) ->
  exists v1 a v2,
    py_setdefault WIDGETS (VList [VFloat 0.45; VInt 0; VFloat 0.35]) (VDict d)
      = (Ok tt, v1) /\
    at_key WIDGETS (
      py_setitem (KInt 0) (VFloat (controlnet_strength p));;
      n ← py_len;
      (if (n <? 3)%nat then pad_loop 3 else mret tt);;
      py_setitem (KInt 2) (VFloat (controlnet_end p))) v1 = (Ok a, v2).
Proof.
  intros [Hw|(w & Hw & x & l & ->)]; simpl in Hw; simpl py_setdefault; rewrite Hw.
  - eexists _, tt, _. split; [reflexivity|]. unfold at_key.
    by rewrite dict_get_set_eq, controlnet_widgets_run.
  - eexists _, tt, _. split; [reflexivity|]. unfold at_key.
    by rewrite Hw, controlnet_widgets_run.
Qed.

Lemma scale_node_returns p d :
  widgets_absent_or a_nonempty_list (VDict d) ->
  exists v1 a v2,
    py_setdefault WIDGETS (VList [VFloat 1.0]) (VDict d) = (Ok tt, v1) /\
    at_key WIDGETS (py_setitem (KInt 0) (VFloat (motion_scale p))) v1 = (Ok a, v2).
Proof.
  intros [Hw|(w & Hw & x & l & ->)]; simpl in Hw; simpl py_setdefault; rewrite Hw.
  - eexists _, tt, _. split; [reflexivity|]. unfold at_key.
    by rewrite dict_get_set_eq.
  - eexists _, tt, _. split; [reflexivity|]. unfold at_key.
    by rewrite Hw.
Qed.

Lemma set_motion_settings_returns motion override_video nodes :
  motion ∈ map fst MOTION_PRESETS ->
  shaped [(MOTION_VIDEO_NODE_ID, widgets_absent_or video_widgets);
          (CONTROLNET_APPLY_NODE_ID, widgets_absent_or a_nonempty_list);
          (MOTION_SCALE_NODE_ID, widgets_absent_or a_nonempty_list)] nodes ->
  is_ok (fst (set_motion_settings motion override_video nodes)) = true.
Proof.
  intros [p Hp]%lookup_preset_Some Hs.
  assert (Ht : triple
            (shaped [(MOTION_VIDEO_NODE_ID, widgets_absent_or video_widgets);
                     (CONTROLNET_APPLY_NODE_ID, widgets_absent_or a_nonempty_list);
                     (MOTION_SCALE_NODE_ID, widgets_absent_or a_nonempty_list)])
            (set_motion_settings motion override_video) (fun _ => True)).
  { unfold set_motion_settings. rewrite Hp. cbv zeta.
    apply triple_found; [stable | stable | apply video_node_returns | |].
    { by repeat constructor. }
    intros _.
    apply triple_found; [stable | stable | apply controlnet_node_returns | |].
    { by repeat constructor. }
    intros _. apply triple_found_last. apply scale_node_returns. }
  destruct (Ht nodes Hs) as (a & nodes' & Hrun & _). by rewrite Hrun.
Qed.

Lemma shaped_is_ok t S rest nodes :
  shaped ((t, S) :: rest) nodes -> is_ok (find_node nodes t) = true.
Proof.
  intros [(v & Hv & _) _]%Forall_cons. simpl in Hv. unfold node_of in Hv.
  by destruct (find_node nodes t).
Qed.

Lemma set_quality_returns quality nodes :
  shaped [(VIDEO_PREVIEW_NODE_ID, fun _ => True); (VIDEO_FINAL_NODE_ID, fun _ => True);
          (VIDEO_INTERPOLATED_NODE_ID, fun _ => True);
          (VIDEO_UPSCALED_MODEL_NODE_ID, fun _ => True)] nodes ->
  is_ok (fst (set_quality quality nodes)) = true.
Proof.
  intros Hs.
  assert (Hall : forall t,
            t ∈ [VIDEO_PREVIEW_NODE_ID; VIDEO_FINAL_NODE_ID;
                 VIDEO_INTERPOLATED_NODE_ID; VIDEO_UPSCALED_MODEL_NODE_ID] ->
            is_ok (find_node nodes t) = true).
  { intros t Ht. unfold shaped in Hs. rewrite Forall_forall in Hs.
    assert (Hin : (t, fun _ : value => True) ∈
              [(VIDEO_PREVIEW_NODE_ID, fun _ : value => True);
               (VIDEO_FINAL_NODE_ID, fun _ => True);
               (VIDEO_INTERPOLATED_NODE_ID, fun _ => True);
               (VIDEO_UPSCALED_MODEL_NODE_ID, fun _ => True)]).
    { repeat (apply elem_of_cons in Ht as [->|Ht]; [set_solver|]).
      by apply not_elem_of_nil in Ht. }
    destruct (Hs _ Hin) as (v & Hv & _).
    simpl in Hv. unfold node_of in Hv. by destruct (find_node nodes t). }
  pose proof (set_quality_modes_of quality nodes Hall) as Hm.
  destruct (set_quality quality nodes) as [r nodes']. by destruct Hm as [-> _].
Qed.

Lemma set_output_prefix_returns motion quality nodes :
  shaped [(VIDEO_PREVIEW_NODE_ID, fun _ => True); (VIDEO_FINAL_NODE_ID, fun _ => True)]
    nodes ->
  is_ok (fst (set_output_prefix motion quality nodes)) = true.
Proof.
  intros Hs. pose proof (shaped_is_ok _ _ _ _ Hs) as [i1 H1]%is_ok_find.
  apply Forall_cons in Hs as [_ Hs].
  pose proof (shaped_is_ok _ _ _ _ Hs) as [i2 H2]%is_ok_find.
  destruct (found_is_dict _ _ _ H1) as [d1 L1].
  destruct (found_is_dict _ _ _ H2) as [d2 L2].
  by rewrite (set_output_prefix_run _ _ _ _ _ _ _ H1 H2 L1 L2).
Qed.

(** The nodes and shapes that the steps of the build need, in the order
    of the steps. *)
Lemma patch_nodes_returns si ei mo qu mv :
  mo ∈ map fst MOTION_PRESETS ->
  triple
    (shaped [(142, widgets_absent_or a_list); (135, widgets_absent_or a_list);
             (680, widgets_absent_or a_list); (683, widgets_absent_or a_list);
             (MOTION_VIDEO_NODE_ID, widgets_absent_or video_widgets);
             (CONTROLNET_APPLY_NODE_ID, widgets_absent_or a_nonempty_list);
             (MOTION_SCALE_NODE_ID, widgets_absent_or a_nonempty_list);
             (VIDEO_PREVIEW_NODE_ID, fun _ => True);
             (VIDEO_FINAL_NODE_ID, fun _ => True);
             (VIDEO_INTERPOLATED_NODE_ID, fun _ => True);
             (VIDEO_UPSCALED_MODEL_NODE_ID, fun _ => True);
             (VIDEO_PREVIEW_NODE_ID, fun _ => True);
             (VIDEO_FINAL_NODE_ID, fun _ => True)])
    (patch_nodes si ei mo qu mv)
    (fun _ => True).
Proof.
  intros Hmo. unfold patch_nodes, LOAD_IMAGE_START_IDS, LOAD_IMAGE_END_IDS.
  cbn [for_each].
  eapply triple_bind.
  { eapply triple_bind.
    - apply (triple_step [(142, widgets_absent_or a_list)]);
        [apply set_load_image_returns|].
      repeat constructor; simpl; keeps_frames.
    - intros _. eapply triple_bind; [|intros _; apply triple_ret].
      apply (triple_step [(135, widgets_absent_or a_list)]);
        [apply set_load_image_returns|].
      repeat constructor; simpl; keeps_frames. }
  intros _. eapply triple_bind.
  { eapply triple_bind.
    - apply (triple_step [(680, widgets_absent_or a_list)]);
        [apply set_load_image_returns|].
      repeat constructor; simpl; keeps_frames.
    - intros _. eapply triple_bind; [|intros _; apply triple_ret].
      apply (triple_step [(683, widgets_absent_or a_list)]);
        [apply set_load_image_returns|].
      repeat constructor; simpl; keeps_frames. }
  intros _. eapply triple_bind.
  { apply (triple_step
             [(MOTION_VIDEO_NODE_ID, widgets_absent_or video_widgets);
              (CONTROLNET_APPLY_NODE_ID, widgets_absent_or a_nonempty_list);
              (MOTION_SCALE_NODE_ID, widgets_absent_or a_nonempty_list)]);
      [intros nodes; by apply set_motion_settings_returns|].
    repeat constructor; simpl; keeps_frames. }
  intros _. eapply triple_bind.
  { apply (triple_step
             [(VIDEO_PREVIEW_NODE_ID, fun _ => True);
              (VIDEO_FINAL_NODE_ID, fun _ => True);
              (VIDEO_INTERPOLATED_NODE_ID, fun _ => True);
              (VIDEO_UPSCALED_MODEL_NODE_ID, fun _ => True)]);
      [apply set_quality_returns|].
    repeat constructor; simpl; apply keeps_top, set_quality_stable. }
  intros _. intros nodes Hs.
  pose proof (set_output_prefix_returns mo qu nodes Hs) as Hok.
  destruct (set_output_prefix mo qu nodes) as [[a|e] nodes']; [|done].
  by exists a, nodes'.
Qed.

Lemma parse_args_motion a w args :
  fst (parse_args a w) = Ok args -> motion args ∈ map fst MOTION_PRESETS.
Proof.
  intros [Hrun [f ->]]%parse_args_returns.
  unfold parse_args in Hrun. rewrite bind_run in Hrun.
  unfold inspect, read_choices, required in Hrun.
  destruct (choice _ (flag_motion f)) as [[]|] eqn:Hmo; [|done].
  destruct (choice _ (flag_quality f)) as [[]|]; [|done].
  destruct (last (flag_start_image f)); [|done].
  destruct (last (flag_end_image f)); [|done].
  destruct (last (flag_motion f)) as [mo|] eqn:Hlast; [|done].
  destruct (last (flag_output f)); [|done].
  injection Hrun as <-. by eapply choice_elem.
Qed.

Lemma well_shaped_shaped nodes :
  well_shaped nodes ->
  shaped [(142, widgets_absent_or a_list); (135, widgets_absent_or a_list);
          (680, widgets_absent_or a_list); (683, widgets_absent_or a_list);
          (MOTION_VIDEO_NODE_ID, widgets_absent_or video_widgets);
          (CONTROLNET_APPLY_NODE_ID, widgets_absent_or a_nonempty_list);
          (MOTION_SCALE_NODE_ID, widgets_absent_or a_nonempty_list);
          (VIDEO_PREVIEW_NODE_ID, fun _ => True);
          (VIDEO_FINAL_NODE_ID, fun _ => True);
          (VIDEO_INTERPOLATED_NODE_ID, fun _ => True);
          (VIDEO_UPSCALED_MODEL_NODE_ID, fun _ => True);
          (VIDEO_PREVIEW_NODE_ID, fun _ => True);
          (VIDEO_FINAL_NODE_ID, fun _ => True)] nodes.
Proof.
  intros (Hload & Hvideo & Hcn & Hscale & Hout).
  assert (Hfound : forall t,
            t ∈ [VIDEO_PREVIEW_NODE_ID; VIDEO_FINAL_NODE_ID;
                 VIDEO_INTERPOLATED_NODE_ID; VIDEO_UPSCALED_MODEL_NODE_ID] ->
            exists v, node_of nodes t = Some v /\ True).
  { intros t [i Hf]%Hout%is_ok_find. destruct (found_is_dict _ _ _ Hf) as [d Hd].
    exists (VDict d). unfold node_of. by rewrite Hf. }
  repeat constructor; simpl;
    first [ apply Hload; compute_done | done | apply Hfound; compute_done ].
Qed.

(** ** The run: what is written and printed, and when *)



Lemma base_nodes_well_shaped : well_shaped base_nodes.
Proof.
  split; [|split; [|split; [|split]]].
  - intros t Ht. unfold LOAD_IMAGE_START_IDS, LOAD_IMAGE_END_IDS in Ht.
    simpl in Ht. rewrite !elem_of_cons in Ht.
    destruct Ht as [->|[->|[->|[->|?%not_elem_of_nil]]]]; [..|done];
      (eexists; split; [reflexivity|]).
    + right. eexists. split; [reflexivity|]. by eexists.
    + by left.
    + right. eexists. split; [reflexivity|]. by eexists.
    + right. eexists. split; [reflexivity|]. by eexists.
  - eexists. split; [reflexivity|]. right. eexists. split; [reflexivity|].
    eexists. split; [reflexivity|]. intros vp x Hvp Hx.
    vm_compute in Hvp. injection Hvp as <-. by vm_compute in Hx.
  - eexists. split; [reflexivity|]. right. eexists. split; [reflexivity|].
    by eexists _, _.
  - eexists. split; [reflexivity|]. right. eexists. split; [reflexivity|].
    by eexists _, _.
  - intros t Ht. rewrite !elem_of_cons in Ht.
    destruct Ht as [->|[->|[->|[->|?%not_elem_of_nil]]]]; done.
Qed.

(** X15. On a well-shaped workflow the build returns, and the run ends as
    the write of the output file ends.  When the arguments are accepted
    and the base file holds a mapping whose ["nodes"] list has the eleven
    nodes, with no widgets or a list on the image loaders, no widgets or a
    mapping on the motion-video node, and no widgets or a non-empty list on
    the controlnet-apply and motion-scale nodes, the build returns a
    document; the run then returns, with the confirmation line printed,
    when the write of that document to the output path returns, and raises
    what the write raises, with nothing printed, when the write raises. *)
Theorem main_on_well_shaped
    (a : argv) (w : world) (args : namespace) (d : dict) (nodes : list value) :
  fst (parse_args a w) = Ok args ->
  read_json (files w) (base_workflow args) = Ok (VDict d) ->
  dict_get d (KStr "nodes") = Some (VList nodes) ->
  well_shaped nodes ->
  exists doc,
    build_workflow (files w) (base_workflow args) (start_image args)
      (end_image args) (motion args) (quality args) (motion_video args) = Ok doc /\
    main a w =
      match write_text w (output args) (Dumps doc) (files w) with
      | (Ok _, fs) =>
          (Ok tt, World fs (stdout w ++ ["Generated workflow: " +:+ output args])
                    (write_text w))
      | (Raise e, fs) => (Raise e, World fs (stdout w) (write_text w))
      end.
Proof.
  intros Hparse Hread Hnodes Hshape.
  destruct (patch_nodes_returns (start_image args) (end_image args) (motion args)
              (quality args) (motion_video args) (parse_args_motion a w args Hparse)
              nodes (well_shaped_shaped nodes Hshape)) as ([] & nodes' & Hrun & _).
  assert (Hbuild :
    build_workflow (files w) (base_workflow args) (start_image args)
      (end_image args) (motion args) (quality args) (motion_video args)
    = Ok (VDict (dict_set d (KStr "nodes") (VList nodes')))).
  { unfold build_workflow. rewrite Hread. unfold at_key, at_items.
    by rewrite Hnodes, Hrun. }
  eexists. split; [exact Hbuild|].
  apply parse_args_returns in Hparse as [Hparse _].
  unfold main. rewrite bind_run, Hparse.
  rewrite bind_run. unfold inspect. rewrite Hbuild.
  rewrite bind_run. unfold write_json.
  by destruct (write_text w _ _ _) as [[[]|e] fs].
Qed.

Lemma main_on_well_shaped_witness :
  (exists doc,
     build_workflow (files (world_of base_doc)) BASE_WORKFLOW
       "s.png" "e.png" "zoom" "full" None = Ok doc /\
     main zoom_full (world_of base_doc) =
       (Ok tt,
        World (<["out.json" := Dumps doc]> (files (world_of base_doc)))
              ["Generated workflow: out.json"] plain_write)) /\
  (exists doc,
     build_workflow (files (world_no_directory base_doc)) BASE_WORKFLOW
       "s.png" "e.png" "zoom" "full" None = Ok doc /\
     main zoom_full (world_no_directory base_doc) =
       (Raise (FileNotFoundError "out.json"), world_no_directory base_doc)).
Proof.
  split.
  - destruct (main_on_well_shaped zoom_full (world_of base_doc) zoom_full_args
                [(KStr "last_node_id", VInt 700); (KStr "nodes", VList base_nodes);
                 (KStr "links", VList []); (KStr "version", VFloat 0.4)] base_nodes)
      as (doc & Hbuild & Hmain);
      [reflexivity | reflexivity | reflexivity | exact base_nodes_well_shaped |].
    exists doc. split; [exact Hbuild|]. rewrite Hmain. reflexivity.
  - destruct (main_on_well_shaped zoom_full (world_no_directory base_doc)
                zoom_full_args
                [(KStr "last_node_id", VInt 700); (KStr "nodes", VList base_nodes);
                 (KStr "links", VList []); (KStr "version", VFloat 0.4)] base_nodes)
      as (doc & Hbuild & Hmain);
      [reflexivity | reflexivity | reflexivity | exact base_nodes_well_shaped |].
    exists doc. split; [exact Hbuild|]. rewrite Hmain. reflexivity.
Defined.

(** ** Motion settings: up to the motion-scale node *)





(** ** Motion settings: the motion-video node, name by name *)





(** C5 as stated fails: with a list as the [params] of the [videopreview]
    of the motion-video node, the setter sets ["video"] and then raises
    [TypeError] at the write of ["filename"]; [params] stays the list it
    was, with no file name in it. *)
Lemma set_motion_settings_params_list :
  fst (set_motion_settings "zoom" None list_params) = Raise TypeError /\
  (widgets_of (snd (set_motion_settings "zoom" None list_params)) 568
     ≫= field (KStr "video")) = Some (VStr "motions/zoom.mp4") /\
  ((widgets_of (snd (set_motion_settings "zoom" None list_params)) 568
      ≫= field (KStr "videopreview")) ≫= field (KStr "params")) = Some (VList []).
Proof. repeat split. Qed.

